(** * BloxMarket: middleman verification workflow and vote toggle

    A shallow embedding of [backend/controllers/verificationController.js]
    ([submitApplication], [reviewApplication]) over an explicit model of the
    three Mongo collections it touches, followed by the vote toggle of the
    trade / forum / event controllers.

    Each controller is an [async (req, res) => { try { ... } catch { ... } }]
    function.  It is embedded as a computation in a small monad [Act] that
    threads the database, lets a handler leave early with a response
    ([return res.status(..).json(..)]) and lets a database primitive throw.
    A handler runs to completion before the next one starts: interleavings of
    two requests at their [await] points are outside this model.  A write
    fails where the store itself refuses it (an insertion under an [_id]
    that is taken) and where a value of the submitted form cannot be cast
    to the String path it is meant for; other schema validation and driver
    failures are not modelled, the Mongoose schemas not being among the
    sources. *)

From Stdlib Require Import ZArith Ascii String.
From stdpp Require Import gmap strings list fin_maps.

Local Open Scope string_scope.
Local Open Scope Z_scope.

(** ** Data model *)

(** Mongo [ObjectId]s, in their string rendering. *)
Abbreviation ObjectId := string.

(** An entry of [User.role_history], as pushed by [reviewApplication]. *)
Record RoleChange := {
  old_role : string;
  new_role : string;
  changed_by : ObjectId;
  changed_at : Z;
  reason : string
}.

(** The fields of a [User] document that the verification controller reads
    or writes, and three it never touches. *)
Record User := {
  username : string;
  role : string;
  role_history : list RoleChange;
  middleman_requested : bool;
  is_active : bool;
  credibility_score : Z
}.

Record MiddlemanApplication := {
  user_id : ObjectId;
  experience : string;
  availability : string;
  why_middleman : string;
  referral_codes : option string;
  external_links : list string;
  preferred_trade_types : list string;
  documents : list ObjectId;
  status : string;
  reviewed_by : option ObjectId;
  reviewed_date : option Z;
  rejection_reason : option string
}.

Record VerificationDocument := {
  doc_user_id : ObjectId;
  document_type : string;
  filename : string;
  original_filename : string;
  file_path : string;
  mime_type : string;
  file_size : Z;
  description : string
}.

(** The database, and the two sources of values a handler draws from its
    environment: the wall clock ([new Date()]) and the ObjectId generator
    (every [new Model(..)] mints an [_id]).  Both are streams with a read
    position, so that no relation between successive readings is assumed. *)
Record World := {
  applications : gmap ObjectId MiddlemanApplication;
  verification_documents : gmap ObjectId VerificationDocument;
  users : gmap ObjectId User;
  clock : nat → Z;
  ticks : nat;
  oids : nat → ObjectId;
  minted : nat
}.

(** ** Field assignments *)

Definition set_role (r : string) (u : User) : User :=
  {| username := username u; role := r; role_history := role_history u;
     middleman_requested := middleman_requested u; is_active := is_active u;
     credibility_score := credibility_score u |}.

Definition set_role_history (h : list RoleChange) (u : User) : User :=
  {| username := username u; role := role u; role_history := h;
     middleman_requested := middleman_requested u; is_active := is_active u;
     credibility_score := credibility_score u |}.

Definition set_middleman_requested (b : bool) (u : User) : User :=
  {| username := username u; role := role u; role_history := role_history u;
     middleman_requested := b; is_active := is_active u;
     credibility_score := credibility_score u |}.

Definition set_status (s : string) (a : MiddlemanApplication) : MiddlemanApplication :=
  {| user_id := user_id a; experience := experience a;
     availability := availability a; why_middleman := why_middleman a;
     referral_codes := referral_codes a; external_links := external_links a;
     preferred_trade_types := preferred_trade_types a;
     documents := documents a; status := s; reviewed_by := reviewed_by a;
     reviewed_date := reviewed_date a; rejection_reason := rejection_reason a |}.

Definition set_reviewed_by (r : ObjectId) (a : MiddlemanApplication) : MiddlemanApplication :=
  {| user_id := user_id a; experience := experience a;
     availability := availability a; why_middleman := why_middleman a;
     referral_codes := referral_codes a; external_links := external_links a;
     preferred_trade_types := preferred_trade_types a;
     documents := documents a; status := status a; reviewed_by := Some r;
     reviewed_date := reviewed_date a; rejection_reason := rejection_reason a |}.

Definition set_reviewed_date (d : Z) (a : MiddlemanApplication) : MiddlemanApplication :=
  {| user_id := user_id a; experience := experience a;
     availability := availability a; why_middleman := why_middleman a;
     referral_codes := referral_codes a; external_links := external_links a;
     preferred_trade_types := preferred_trade_types a;
     documents := documents a; status := status a; reviewed_by := reviewed_by a;
     reviewed_date := Some d; rejection_reason := rejection_reason a |}.

Definition set_rejection_reason (r : option string) (a : MiddlemanApplication) : MiddlemanApplication :=
  {| user_id := user_id a; experience := experience a;
     availability := availability a; why_middleman := why_middleman a;
     referral_codes := referral_codes a; external_links := external_links a;
     preferred_trade_types := preferred_trade_types a;
     documents := documents a; status := status a; reviewed_by := reviewed_by a;
     reviewed_date := reviewed_date a; rejection_reason := r |}.

Definition set_documents (ds : list ObjectId) (a : MiddlemanApplication) : MiddlemanApplication :=
  {| user_id := user_id a; experience := experience a;
     availability := availability a; why_middleman := why_middleman a;
     referral_codes := referral_codes a; external_links := external_links a;
     preferred_trade_types := preferred_trade_types a;
     documents := ds; status := status a; reviewed_by := reviewed_by a;
     reviewed_date := reviewed_date a; rejection_reason := rejection_reason a |}.

Definition with_applications (m : gmap ObjectId MiddlemanApplication) (w : World) : World :=
  {| applications := m; verification_documents := verification_documents w;
     users := users w; clock := clock w; ticks := ticks w; oids := oids w;
     minted := minted w |}.

Definition with_verification_documents (m : gmap ObjectId VerificationDocument) (w : World) : World :=
  {| applications := applications w; verification_documents := m;
     users := users w; clock := clock w; ticks := ticks w; oids := oids w;
     minted := minted w |}.

Definition with_users (m : gmap ObjectId User) (w : World) : World :=
  {| applications := applications w;
     verification_documents := verification_documents w;
     users := m; clock := clock w; ticks := ticks w; oids := oids w;
     minted := minted w |}.

Definition with_ticks (n : nat) (w : World) : World :=
  {| applications := applications w;
     verification_documents := verification_documents w;
     users := users w; clock := clock w; ticks := n; oids := oids w;
     minted := minted w |}.

Definition with_minted (n : nat) (w : World) : World :=
  {| applications := applications w;
     verification_documents := verification_documents w;
     users := users w; clock := clock w; ticks := ticks w; oids := oids w;
     minted := n |}.

(** ** HTTP responses *)

(** [res.status(code).json({ k1: v1, ... })]; every body the two handlers
    send is a flat object of strings. *)
Record Response := {
  status_code : Z;
  json : list (string * string)
}.

(** ** The handler monad *)

Inductive Outcome (A : Type) : Type :=
  | Next (a : A)
  | Sent (r : Response)
  | Thrown (message : string).
Arguments Next {A} a.
Arguments Sent {A} r.
Arguments Thrown {A} message.

Definition Act (A : Type) : Type := World → Outcome A * World.

#[global] Instance Act_ret : MRet Act := λ A a w, (Next a, w).

#[global] Instance Act_bind : MBind Act := λ A B f m w,
  match m w with
  | (Next a, w') => f a w'
  | (Sent r, w') => (Sent r, w')
  | (Thrown e, w') => (Thrown e, w')
  end.

(** [return res.status(code).json(body)] *)
Definition send {A} (code : Z) (body : list (string * string)) : Act A :=
  λ w, (Sent {| status_code := code; json := body |}, w).

Definition throw {A} (message : string) : Act A := λ w, (Thrown message, w).

(** [if (c) { ... }] with no [else]. *)
Definition when (c : bool) (body : Act unit) : Act unit :=
  if c then body else mret tt.

(** [try { body } catch (error) { handler(error.message) }] around a whole
    controller: whatever way the body ends, one response has been sent. *)
Definition try_catch (body : Act Response) (handler : string → Response)
    (w : World) : Response * World :=
  match body w with
  | (Next r, w') => (r, w')
  | (Sent r, w') => (r, w')
  | (Thrown e, w') => (handler e, w')
  end.

(** [try { body } catch (e) { console.error(..) }] around one statement. *)
Definition try_ignore (body : Act unit) : Act bool := λ w,
  match body w with
  | (Next _, w') => (Next true, w')
  | (Sent r, w') => (Sent r, w')
  | (Thrown _, w') => (Next false, w')
  end.

(** ** JavaScript values of request fields *)

(** A field of a review (route parameter, action, reason) is absent
    ([undefined], here [None]) or a string; the values of the multipart
    form of a submission are given with [submitApplication]. *)

(** [!v] *)
Definition js_not (v : option string) : bool :=
  match v with
  | None => true
  | Some s => bool_decide (s = "")
  end.

(** [v === s] *)
Definition js_eq (v : option string) (s : string) : bool :=
  bool_decide (v = Some s).

(** [l.includes(v)] *)
Definition includes (l : list string) (v : option string) : bool :=
  match v with
  | None => false
  | Some s => bool_decide (s ∈ l)
  end.

(** ** Database primitives *)

Definition new_Date : Act Z := λ w,
  (Next (clock w (ticks w)), with_ticks (S (ticks w)) w).

Definition new_ObjectId : Act ObjectId := λ w,
  (Next (oids w (minted w)), with_minted (S (minted w)) w).

Module MiddlemanApplicationModel.

Definition findById (id : ObjectId) : Act (option MiddlemanApplication) :=
  λ w, (Next (applications w !! id), w).

(** [findOne(query)]: some document the query matches, [null] when there
    is none. *)
Definition findOne (query : MiddlemanApplication → bool)
    : Act (option (ObjectId * MiddlemanApplication)) :=
  λ w, (Next (List.find (λ kv, query kv.2) (map_to_list (applications w))), w).

(** [doc.save()].  A document built with [new] ([isNew]) is inserted, and
    the unique index on [_id] refuses a key that is taken; a document
    obtained from a query is written back under its [_id]. *)
Definition save (isNew : bool) (id : ObjectId) (a : MiddlemanApplication)
    : Act unit :=
  λ w, if isNew && bool_decide (is_Some (applications w !! id))
       then throw "E11000 duplicate key error" w
       else (Next tt, with_applications (<[id := a]> (applications w)) w).

End MiddlemanApplicationModel.

Module VerificationDocumentModel.

Definition save (isNew : bool) (id : ObjectId) (d : VerificationDocument)
    : Act unit :=
  λ w, if isNew && bool_decide (is_Some (verification_documents w !! id))
       then throw "E11000 duplicate key error" w
       else (Next tt,
             with_verification_documents
               (<[id := d]> (verification_documents w)) w).

End VerificationDocumentModel.

Module UserModel.

Definition findById (id : ObjectId) : Act (option User) :=
  λ w, (Next (users w !! id), w).

Definition save (id : ObjectId) (u : User) : Act unit :=
  λ w, (Next tt, with_users (<[id := u]> (users w)) w).

(** [User.updateOne({ _id: id }, { $set: { middleman_requested: b } })]:
    no document is created when none has this [_id]. *)
Definition updateOne_set_middleman_requested (id : ObjectId) (b : bool)
    : Act unit :=
  λ w, (Next tt, with_users (alter (set_middleman_requested b) id (users w)) w).

End UserModel.

(** ** [reviewApplication] *)

(** What the handler reads from [req]: [req.params.applicationId],
    [req.body.action], [req.body.reason] and [req.user.userId].  The router
    puts [authenticateToken] and [requireAdmin] in front of the handler; the
    handler itself does not look at the reviewer's role. *)
Record ReviewRequest := {
  params_applicationId : ObjectId;
  body_action : option string;
  body_reason : option string;
  reviewer_userId : ObjectId
}.

Definition reviewApplication_body (req : ReviewRequest) : Act Response :=
  let applicationId := params_applicationId req in
  let action := body_action req in
  let reason := body_reason req in
  let adminId := reviewer_userId req in
  when (negb (includes ["approve"; "reject"] action))
    (send 400 [("error", "Invalid action")]) ;;
  when (js_eq action "reject" && js_not reason)
    (send 400 [("error", "Rejection reason is required")]) ;;
  found ← MiddlemanApplicationModel.findById applicationId;
  match found with
  | None => send 404 [("error", "Application not found")]
  | Some application =>
    when (negb (bool_decide (status application = "pending")))
      (send 400 [("error", "Application has already been processed")]) ;;
    let application :=
      set_status (if js_eq action "approve" then "approved" else "rejected")
        application in
    let application := set_reviewed_by adminId application in
    now ← new_Date;
    let application := set_reviewed_date now application in
    let application :=
      if js_eq action "reject"
      then set_rejection_reason reason application
      else application in
    MiddlemanApplicationModel.save false applicationId application ;;
    found_user ← UserModel.findById (user_id application);
    match found_user with
    | None => send 404 [("error", "User not found")]
    | Some user =>
      user ←
        (if js_eq action "approve" then
           let user := set_role "middleman" user in
           now ← new_Date;
           mret (set_role_history
                   (role_history user ++
                      [{| old_role := role user;
                          new_role := "middleman";
                          changed_by := adminId;
                          changed_at := now;
                          reason := "Middleman application approved" |}])
                   user)
         else mret user);
      let user := set_middleman_requested false user in
      UserModel.save (user_id application) user ;;
      mret {| status_code := 200;
              json := [("message",
                        "Application " +:+
                        (if js_eq action "approve" then "approved" else "rejected")
                        +:+ " successfully")] |}
    end
  end.

Definition reviewApplication (req : ReviewRequest) : World → Response * World :=
  try_catch (reviewApplication_body req)
    (λ _, {| status_code := 500;
             json := [("error", "Failed to process application review")] |}).

(** ** [submitApplication] *)

(** A file as multer hands it to the controller in [req.files]; [filename]
    is [stored_filename] here, the document record having a field of that
    name. *)
Record UploadedFile := {
  fieldname : string;
  originalname : string;
  stored_filename : string;
  path : string;
  mimetype : string;
  size : Z
}.

(** A value of [req.body] as multer builds it from the multipart form of
    this route (with append-field): a field that is sent once is a string;
    a field that is sent more than once is an array, and a field sent under
    a bracketed name ([links[]], [links[a]]) an array or an object, of such
    values.  A field that is not sent is [undefined], here [None]. *)
#[local] Unset Elimination Schemes.
Inductive BodyValue :=
  | Text (s : string)
  | Items (items : list BodyValue)
  | Fields (fields : list (string * BodyValue)).
#[local] Set Elimination Schemes.

Record SubmitRequest := {
  applicant_userId : ObjectId;
  body_experience : option BodyValue;
  body_availability : option BodyValue;
  body_why_middleman : option BodyValue;
  body_referral_codes : option BodyValue;
  body_external_links : option BodyValue;
  body_preferred_trade_types : option BodyValue;
  files : option (list UploadedFile)
}.

(** [!v]: [undefined] and the empty string are falsy, an array and an
    object are not. *)
Definition falsy (v : option BodyValue) : bool :=
  match v with
  | None => true
  | Some (Text s) => bool_decide (s = "")
  | Some (Items _) | Some (Fields _) => false
  end.

(** [s.split(',')] *)
Fixpoint split_commas (s : string) : list string :=
  match s with
  | EmptyString => [""]
  | String c rest =>
    if Ascii.eqb c ","%char then "" :: split_commas rest
    else match split_commas rest with
         | [] => [String c ""]
         | piece :: pieces => String c piece :: pieces
         end
  end.

(** [s.trim()].  A string is held as its UTF-8 bytes, as the literals of
    this file are.  [trim] strips the characters that are WhiteSpace or
    LineTerminator in ECMAScript: U+0009 to U+000D, U+0020, U+00A0, U+1680,
    U+2000 to U+200A, U+2028, U+2029, U+202F, U+205F, U+3000 and U+FEFF,
    here each in its encoding of one, two or three bytes. *)
Definition white_space : list string :=
  Eval cbv in
  let one a := String a "" in
  let two a b := String a (String b "") in
  let three a b c := String a (String b (String c "")) in
  [one "009"; one "010"; one "011"; one "012"; one "013"; one "032";
   two "194" "160"; three "225" "154" "128";
   three "226" "128" "128"; three "226" "128" "129"; three "226" "128" "130";
   three "226" "128" "131"; three "226" "128" "132"; three "226" "128" "133";
   three "226" "128" "134"; three "226" "128" "135"; three "226" "128" "136";
   three "226" "128" "137"; three "226" "128" "138";
   three "226" "128" "168"; three "226" "128" "169"; three "226" "128" "175";
   three "226" "129" "159"; three "227" "128" "128";
   three "239" "187" "191"]%char.

Definition is_white_space (s : string) : bool :=
  bool_decide (s ∈ white_space).

(** No encoding above begins with another, so the white space a string
    starts with is found by looking at its first one, two and three
    bytes. *)
Fixpoint trim_start (s : string) : string :=
  match s with
  | EmptyString => ""
  | String c1 rest1 =>
    if is_white_space (String c1 "") then trim_start rest1
    else
      match rest1 with
      | EmptyString => s
      | String c2 rest2 =>
        if is_white_space (String c1 (String c2 "")) then trim_start rest2
        else
          match rest2 with
          | EmptyString => s
          | String c3 rest3 =>
            if is_white_space (String c1 (String c2 (String c3 "")))
            then trim_start rest3
            else s
          end
      end
  end.

(** From the end: what is kept of [String c rest] is [c] before what is
    kept of [rest], unless that is the encoding of a white space
    character. *)
Fixpoint trim_end (s : string) : string :=
  match s with
  | EmptyString => ""
  | String c rest =>
    let kept := String c (trim_end rest) in
    if is_white_space kept then "" else kept
  end.

Definition trim (s : string) : string := trim_end (trim_start s).

(** [v ? v.split(',').map(x => x.trim()) : []] *)
Definition comma_list (v : option string) : list string :=
  if js_not v then [] else trim <$> split_commas (default "" v).

(** The same expression on the body field [name]: an array or an object is
    truthy and has no [split], so the call is a TypeError. *)
Definition split_field (name : string) (v : option BodyValue)
    : Act (list string) :=
  match v with
  | None => mret (comma_list None)
  | Some (Text s) => mret (comma_list (Some s))
  | Some (Items _) | Some (Fields _) =>
    throw (name +:+ ".split is not a function")
  end.

(** Modelled from the spec: [models/MiddlemanApplication.js] is not among
    the sources, so the value the schema gives [status] when the constructor
    leaves it out is taken from the spec (4.3, initial state is pending on
    submission). *)
Definition default_status : string := "pending".

(** [new MiddlemanApplication({ user_id, experience, ... })]: the fields the
    controller passes, the others at their schema defaults. *)
Definition new_MiddlemanApplication (userId : ObjectId)
    (experience availability why_middleman : string)
    (referral_codes : option string)
    (external_links preferred_trade_types : list string) : MiddlemanApplication :=
  {| user_id := userId; experience := experience;
     availability := availability; why_middleman := why_middleman;
     referral_codes := referral_codes; external_links := external_links;
     preferred_trade_types := preferred_trade_types;
     documents := []; status := default_status; reviewed_by := None;
     reviewed_date := None; rejection_reason := None |}.

(** Modelled from the spec: [models/MiddlemanApplication.js] is not among
    the sources; the texts of an application are free-text fields (spec 3),
    paths of type String.  To such a path Mongoose casts a string as it is,
    and an array or an object not at all. *)
Definition cast_String (v : BodyValue) : option string :=
  match v with
  | Text s => Some s
  | Items _ | Fields _ => None
  end.

(** A path that is given no value stays unset. *)
Definition cast_optional (v : option BodyValue) : option (option string) :=
  match v with
  | None => Some None
  | Some value => Some <$> cast_String value
  end.

(** [new MiddlemanApplication({ ... })] on the values of the request.  The
    constructor does not throw on a value it cannot cast: it keeps the
    error with the document, here [None], and [save] is refused for it. *)
Definition construct_MiddlemanApplication (userId : ObjectId)
    (experience availability why_middleman referral_codes : option BodyValue)
    (external_links preferred_trade_types : list string)
    : option MiddlemanApplication :=
  experience ← experience ≫= cast_String;
  availability ← availability ≫= cast_String;
  why_middleman ← why_middleman ≫= cast_String;
  referral_codes ← cast_optional referral_codes;
  Some (new_MiddlemanApplication userId experience availability why_middleman
          referral_codes external_links preferred_trade_types).

(** [application.save()] for a document built by the constructor:
    validation comes before the insertion and rejects a document that
    holds a cast error. *)
Definition save_constructed (id : ObjectId)
    (application : option MiddlemanApplication) : Act unit :=
  match application with
  | Some a => MiddlemanApplicationModel.save true id a
  | None => throw "MiddlemanApplication validation failed"
  end.

(** The [for (const file of req.files)] loop; [documentIds] is the array
    built so far. *)
Fixpoint save_documents (userId : ObjectId) (fs : list UploadedFile)
    (documentIds : list ObjectId) : Act (list ObjectId) :=
  match fs with
  | [] => mret documentIds
  | file :: rest =>
    _id ← new_ObjectId;
    let document :=
      {| doc_user_id := userId;
         document_type :=
           if bool_decide (fieldname file = "documents") then "other"
           else fieldname file;
         filename := stored_filename file;
         original_filename := originalname file;
         file_path := path file;
         mime_type := mimetype file;
         file_size := size file;
         description :=
           if bool_decide (fieldname file = "id_card")
           then "Identity Verification" else "Supporting Document" |} in
    saved ← try_ignore (VerificationDocumentModel.save true _id document);
    save_documents userId rest
      (if saved : bool then documentIds ++ [_id] else documentIds)
  end.

Definition submitApplication_body (req : SubmitRequest) : Act Response :=
  let userId := applicant_userId req in
  existingApplication ←
    MiddlemanApplicationModel.findOne
      (λ a, bool_decide (user_id a = userId ∧ status a = "pending"));
  when (bool_decide (is_Some existingApplication))
    (send 400 [("error", "You already have a pending middleman application")]) ;;
  when (falsy (body_experience req) || falsy (body_availability req)
        || falsy (body_why_middleman req))
    (send 400 [("error", "Missing required fields")]) ;;
  external_links ← split_field "external_links" (body_external_links req);
  preferred_trade_types ←
    split_field "preferred_trade_types" (body_preferred_trade_types req);
  _id ← new_ObjectId;
  let application :=
    construct_MiddlemanApplication userId
      (body_experience req) (body_availability req) (body_why_middleman req)
      (body_referral_codes req) external_links preferred_trade_types in
  application ←
    match files req with
    | Some (file :: rest) =>
      documentIds ← save_documents userId (file :: rest) [];
      mret (set_documents documentIds <$> application)
    | _ => mret application
    end;
  save_constructed _id application ;;
  UserModel.updateOne_set_middleman_requested userId true ;;
  mret {| status_code := 201;
          json := [("message", "Middleman application submitted successfully");
                   ("applicationId", _id)] |}.

Definition submitApplication (req : SubmitRequest) : World → Response * World :=
  try_catch (submitApplication_body req)
    (λ message,
       {| status_code := 500;
          json := [("error", "Failed to submit application: " +:+ message)] |}).

(** ** Vote toggle *)

Inductive Direction := up | down.

Inductive ResourceKind := Trade | ForumPost | Event.

(** Modelled from the spec: the Trade, ForumPost and Event models are not
    among the sources.  This is the part of such a document the toggle works
    on (spec 3): the three have the same shape for voting, an owner
    reference and two lists of voter ids. *)
Record Votable := {
  kind : ResourceKind;
  owner : ObjectId;
  upvotes : list ObjectId;
  downvotes : list ObjectId
}.

(** Modelled from the spec: the response body
    [{ upvotes, downvotes, userVote }] of spec 6. *)
Record VoteResult := {
  upvotes_count : nat;
  downvotes_count : nat;
  userVote : option Direction
}.

(** Modelled from the spec: what a vote on a resource that exists is
    answered with, the result of spec 6 or the refusal of a vote on one's
    own resource (spec 4.1, error conditions). *)
Inductive VoteReply :=
  | VoteRefused
  | VoteCounted (result : VoteResult).

Definition opposite (d : Direction) : Direction :=
  match d with up => down | down => up end.

Definition voters (d : Direction) (r : Votable) : list ObjectId :=
  match d with up => upvotes r | down => downvotes r end.

Definition with_voters (d : Direction) (l : list ObjectId) (r : Votable) : Votable :=
  match d with
  | up => {| kind := kind r; owner := owner r; upvotes := l; downvotes := downvotes r |}
  | down => {| kind := kind r; owner := owner r; upvotes := upvotes r; downvotes := l |}
  end.

Definition has_voted (d : Direction) (u : ObjectId) (r : Votable) : bool :=
  bool_decide (u ∈ voters d r).

Definition add_voter (d : Direction) (u : ObjectId) (r : Votable) : Votable :=
  with_voters d (voters d r ++ [u]) r.

Definition remove_voter (d : Direction) (u : ObjectId) (r : Votable) : Votable :=
  with_voters d (filter (λ v, v ≠ u) (voters d r)) r.

(** The actor's vote as the two lists record it. *)
Definition vote_state (u : ObjectId) (r : Votable) : option Direction :=
  if has_voted up u r then Some up
  else if has_voted down u r then Some down
  else None.

(** Modelled from the spec: spec 4.1 gives rules 2-4 one after the other,
    each with its own condition, and does not say what is done when the
    conditions of two of them hold for the memberships looked up, which is
    so exactly when the actor is in both lists: every rule whose condition
    holds is applied, in the order written, or only the first of them.
    The toggle is given for both, and what is proved of it is proved for
    both. *)
Inductive Reading := every_rule | first_rule.

(** Modelled from the spec: the vote controllers of trades, forum posts and
    events are not among the sources.  This is the toggle of spec 4.1, step
    by step: the memberships are looked up once (1); the rules (2)-(4) are
    applied to that lookup, as the [reading] has it; the new counts and the
    actor's resulting state are returned (5). *)
Definition toggle (reading : Reading) (r : Votable) (u : ObjectId)
    (direction : Direction) : Votable * VoteResult :=
  let in_requested := has_voted direction u r in
  let in_opposite := has_voted (opposite direction) u r in
  let casts := negb in_requested && negb in_opposite in
  let retracts := in_requested in
  let flips :=
    match reading with
    | every_rule => in_opposite
    | first_rule => in_opposite && negb in_requested
    end in
  let r := if casts then add_voter direction u r else r in
  let r := if retracts then remove_voter direction u r else r in
  let r := if flips
           then add_voter direction u (remove_voter (opposite direction) u r)
           else r in
  (r, {| upvotes_count := length (upvotes r);
         downvotes_count := length (downvotes r);
         userVote := vote_state u r |}).

(** Modelled from the spec: the contract of spec 4.1 for a resource that
    has been found and an authenticated actor.  A vote on one's own
    resource is rejected as a domain rule (4.1, error conditions; the
    trading hub of the frontend shows that refusal for trades) and leaves
    the resource as it was; any other vote is the toggle. *)
Definition vote (reading : Reading) (r : Votable) (u : ObjectId)
    (direction : Direction) : Votable * VoteReply :=
  if bool_decide (u = owner r) then (r, VoteRefused)
  else
    let voted := toggle reading r u direction in
    (voted.1, VoteCounted voted.2).

(** The vote state a reply reports, none when the vote was refused. *)
Definition reported_vote (reply : VoteReply) : option (option Direction) :=
  match reply with
  | VoteRefused => None
  | VoteCounted result => Some (userVote result)
  end.

(** The invariant of spec 3: an actor is in at most one of the two lists. *)
Definition single_vote (u : ObjectId) (r : Votable) : Prop :=
  ¬ (u ∈ upvotes r ∧ u ∈ downvotes r).

(** Two [up] votes in a row leave the actor with no vote, and the second
    reports the state null. *)
Definition double_up_clears (reading : Reading) (r : Votable) (u : ObjectId)
    : Prop :=
  let first := vote reading r u up in
  let second := vote reading first.1 u up in
  (u ∉ upvotes second.1) ∧ (u ∉ downvotes second.1) ∧
  reported_vote second.2 = Some None.

(** An [up] vote followed by a [down] vote leaves the actor a downvoter. *)
Definition up_then_down_flips (reading : Reading) (r : Votable) (u : ObjectId)
    : Prop :=
  let first := vote reading r u up in
  let second := vote reading first.1 u down in
  (u ∈ downvotes second.1) ∧ (u ∉ upvotes second.1).

Module VoteScenario.

(** A trade of alice that bob has upvoted. *)
Definition upvoted_trade : Votable :=
  {| kind := Trade; owner := "u-alice"; upvotes := ["u-bob"]; downvotes := [] |}.

(** A forum post of alice that carol has upvoted and bob has downvoted. *)
Definition downvoted_post : Votable :=
  {| kind := ForumPost; owner := "u-alice"; upvotes := ["u-carol"];
     downvotes := ["u-bob"] |}.

(** A trade of alice nobody has voted on. *)
Definition own_trade : Votable :=
  {| kind := Trade; owner := "u-alice"; upvotes := []; downvotes := [] |}.

(** An event of alice that has bob in both lists, as two votes of his
    that raced can leave it (spec 5). *)
Definition raced_event : Votable :=
  {| kind := Event; owner := "u-alice"; upvotes := ["u-bob"];
     downvotes := ["u-bob"] |}.

End VoteScenario.

(** ** Properties of [reviewApplication] *)

(** The error responses of the handler, by name. *)
Definition invalid_action_error : Response :=
  {| status_code := 400; json := [("error", "Invalid action")] |}.

Definition reason_required_error : Response :=
  {| status_code := 400; json := [("error", "Rejection reason is required")] |}.

Definition conflict_error : Response :=
  {| status_code := 400;
     json := [("error", "Application has already been processed")] |}.

Definition user_not_found_error : Response :=
  {| status_code := 404; json := [("error", "User not found")] |}.

(** A request that gets past the two checks on the body: the action is
    approve, or it is reject and comes with a non-empty reason. *)
Definition passes_validation (req : ReviewRequest) : Prop :=
  body_action req = Some "approve" ∨
  (body_action req = Some "reject" ∧
   ∃ text, body_reason req = Some text ∧ text ≠ "").

(** The status a validated request decides on. *)
Definition decision (req : ReviewRequest) : string :=
  if js_eq (body_action req) "approve" then "approved" else "rejected".

(** The application document as [reviewApplication] saves it. *)
Definition reviewed (req : ReviewRequest) (now : Z) (a : MiddlemanApplication)
    : MiddlemanApplication :=
  {| user_id := user_id a; experience := experience a;
     availability := availability a; why_middleman := why_middleman a;
     referral_codes := referral_codes a; external_links := external_links a;
     preferred_trade_types := preferred_trade_types a;
     documents := documents a;
     status := decision req;
     reviewed_by := Some (reviewer_userId req);
     reviewed_date := Some now;
     rejection_reason :=
       if js_eq (body_action req) "reject" then body_reason req
       else rejection_reason a |}.

(** The user document as saved on approval and on rejection. *)
Definition promoted (req : ReviewRequest) (now : Z) (u : User) : User :=
  {| username := username u; role := "middleman";
     role_history :=
       role_history u ++
         [{| old_role := "middleman"; new_role := "middleman";
             changed_by := reviewer_userId req; changed_at := now;
             reason := "Middleman application approved" |}];
     middleman_requested := false; is_active := is_active u;
     credibility_score := credibility_score u |}.

Definition turned_down (u : User) : User :=
  {| username := username u; role := role u; role_history := role_history u;
     middleman_requested := false; is_active := is_active u;
     credibility_score := credibility_score u |}.

(** Every review of an application that is no longer pending is answered
    with the conflict error and changes nothing. *)
Definition conflict_on_processed (req : ReviewRequest) (w : World) : Prop :=
  ∀ app,
    applications w !! params_applicationId req = Some app →
    status app ≠ "pending" →
    reviewApplication req w = (conflict_error, w).

(** Every review of a pending application whose applicant is gone is
    answered with not-found after the decided application has been saved. *)
Definition orphan_review_saved (req : ReviewRequest) (w : World) : Prop :=
  ∀ app,
    applications w !! params_applicationId req = Some app →
    status app = "pending" →
    users w !! user_id app = None →
    ∃ w' app',
      reviewApplication req w = (user_not_found_error, w') ∧
      applications w' !! params_applicationId req = Some app' ∧
      (status app' = "approved" ∨ status app' = "rejected").

(** ** The invariant on pending applications *)

(** No two distinct applications of one user are pending. *)
Definition one_pending_per_user (m : gmap ObjectId MiddlemanApplication) : Prop :=
  map_Forall (λ i a,
    map_Forall (λ j b,
      status a = "pending" → status b = "pending" →
      user_id a = user_id b → i = j) m) m.

#[global] Instance one_pending_per_user_dec m : Decision (one_pending_per_user m).
Proof. unfold one_pending_per_user. apply _. Defined.

Definition has_pending (userId : ObjectId)
    (m : gmap ObjectId MiddlemanApplication) : Prop :=
  ∃ id a, m !! id = Some a ∧ user_id a = userId ∧ status a = "pending".

(** The operations of the controller that write to the database; the other
    five only read. *)
Inductive Operation :=
  | Submit (req : SubmitRequest)
  | Review (req : ReviewRequest).

Definition perform (op : Operation) : World → Response * World :=
  match op with
  | Submit req => submitApplication req
  | Review req => reviewApplication req
  end.

(** ** A concrete database and requests *)

Module Scenario.

Fixpoint oid_of (n : nat) : ObjectId :=
  match n with
  | O => "65f0"
  | S k => String "a" (oid_of k)
  end.

Definition alice : User :=
  {| username := "alice"; role := "user"; role_history := [];
     middleman_requested := true; is_active := true;
     credibility_score := 12 |}.

Definition application_of_alice : MiddlemanApplication :=
  new_MiddlemanApplication "u-alice" "two years of trading" "weekends"
    "to help with high value trades" None [] [].

Definition world : World :=
  {| applications := {["app-1" := application_of_alice]};
     verification_documents := ∅;
     users := {["u-alice" := alice]};
     clock := λ n, 1700000000000 + Z.of_nat n;
     ticks := 0;
     oids := oid_of;
     minted := 0 |}.

(** The same database after alice's account has been deleted. *)
Definition orphan_world : World := with_users ∅ world.

Definition approve_request : ReviewRequest :=
  {| params_applicationId := "app-1"; body_action := Some "approve";
     body_reason := None; reviewer_userId := "u-admin" |}.

Definition reject_request : ReviewRequest :=
  {| params_applicationId := "app-1"; body_action := Some "reject";
     body_reason := Some "Not enough completed trades";
     reviewer_userId := "u-admin" |}.

Definition reject_without_reason : ReviewRequest :=
  {| params_applicationId := "app-1"; body_action := Some "reject";
     body_reason := None; reviewer_userId := "u-admin" |}.

Definition second_submission : SubmitRequest :=
  {| applicant_userId := "u-alice";
     body_experience := Some (Text "two years of trading");
     body_availability := Some (Text "every evening");
     body_why_middleman := Some (Text "asking again");
     body_referral_codes := None;
     body_external_links :=
       Some (Text "https://example.org/a , https://example.org/b");
     body_preferred_trade_types := None;
     files := None |}.

(** The database once [approve_request] has been served. *)
Definition processed_world : World :=
  (reviewApplication approve_request world).2.

End Scenario.

(** ** The phases of a submission *)

(** A body field that is there, a string and not the empty string. *)
Definition present (v : option BodyValue) : Prop :=
  ∃ text, v = Some (Text text) ∧ text ≠ "".

Definition required_fields_present (req : SubmitRequest) : Prop :=
  present (body_experience req) ∧ present (body_availability req) ∧
  present (body_why_middleman req).

(** A body field that is a string when it is there: it was not sent more
    than once, nor under a bracketed name. *)
Definition textual (v : option BodyValue) : Prop :=
  match v with
  | Some (Items _) | Some (Fields _) => False
  | _ => True
  end.

Definition optional_fields_textual (req : SubmitRequest) : Prop :=
  textual (body_referral_codes req) ∧ textual (body_external_links req) ∧
  textual (body_preferred_trade_types req).

(** The check the handler makes of the three required fields: each is
    truthy, a string that is not empty, an array or an object. *)
Definition required_fields_given (req : SubmitRequest) : Prop :=
  falsy (body_experience req) = false ∧
  falsy (body_availability req) = false ∧
  falsy (body_why_middleman req) = false.

(** The two fields the handler splits are strings where they are there. *)
Definition lists_textual (req : SubmitRequest) : Prop :=
  textual (body_external_links req) ∧ textual (body_preferred_trade_types req).

(** The four fields the constructor casts to String are strings where they
    are there. *)
Definition texts_textual (req : SubmitRequest) : Prop :=
  textual (body_experience req) ∧ textual (body_availability req) ∧
  textual (body_why_middleman req) ∧ textual (body_referral_codes req).

(** The string of a body field, none for a field that is not there or is
    not a string. *)
Definition field_text (v : option BodyValue) : option string :=
  v ≫= cast_String.

(** The document [save_documents] builds for one uploaded file. *)
Definition document_of (userId : ObjectId) (file : UploadedFile)
    : VerificationDocument :=
  {| doc_user_id := userId;
     document_type :=
       if bool_decide (fieldname file = "documents") then "other"
       else fieldname file;
     filename := stored_filename file;
     original_filename := originalname file;
     file_path := path file;
     mime_type := mimetype file;
     file_size := size file;
     description :=
       if bool_decide (fieldname file = "id_card")
       then "Identity Verification" else "Supporting Document" |}.

(** The files of a request, none when [req.files] is undefined. *)
Definition uploaded_files (req : SubmitRequest) : list UploadedFile :=
  default [] (files req).

(** The ids collected by the upload loop of a submission that has passed
    its two checks and split its two lists, and the database the loop
    leaves. *)
Definition upload_phase (req : SubmitRequest) (w : World) : list ObjectId * World :=
  let w0 := with_minted (S (minted w)) w in
  match save_documents (applicant_userId req) (uploaded_files req) [] w0 with
  | (Next ids, w1) => (ids, w1)
  | (_, w1) => ([], w1)
  end.

(** The application a submission saves, given the ids the loop collected. *)
Definition submitted_application (req : SubmitRequest)
    (documentIds : list ObjectId) : MiddlemanApplication :=
  {| user_id := applicant_userId req;
     experience := default "" (field_text (body_experience req));
     availability := default "" (field_text (body_availability req));
     why_middleman := default "" (field_text (body_why_middleman req));
     referral_codes := field_text (body_referral_codes req);
     external_links := comma_list (field_text (body_external_links req));
     preferred_trade_types :=
       comma_list (field_text (body_preferred_trade_types req));
     documents := documentIds; status := "pending"; reviewed_by := None;
     reviewed_date := None; rejection_reason := None |}.

(** The id a submission gives its application: the next one minted. *)
Definition next_application_id (w : World) : ObjectId := oids w (minted w).

Definition submitted_response (id : ObjectId) : Response :=
  {| status_code := 201;
     json := [("message", "Middleman application submitted successfully");
              ("applicationId", id)] |}.

(** ** Further predicates on the database *)

(** The fields of an application that are written once, at submission. *)
Definition same_submission (a a' : MiddlemanApplication) : Prop :=
  user_id a' = user_id a ∧ experience a' = experience a ∧
  availability a' = availability a ∧ why_middleman a' = why_middleman a ∧
  referral_codes a' = referral_codes a ∧
  external_links a' = external_links a ∧
  preferred_trade_types a' = preferred_trade_types a ∧
  documents a' = documents a.

(** The fields of a user the verification controller never assigns. *)
Definition same_profile (u u' : User) : Prop :=
  username u' = username u ∧ is_active u' = is_active u ∧
  credibility_score u' = credibility_score u.

(** A user's flag is up exactly while the user has a pending application. *)
Definition flag_tracks_pending (w : World) : Prop :=
  map_Forall (λ uid u,
    middleman_requested u = true ↔ has_pending uid (applications w))
    (users w).

#[global] Instance has_pending_dec userId m : Decision (has_pending userId m).
Proof.
  refine (cast_if (decide (map_Exists
    (λ (_ : ObjectId) a, user_id a = userId ∧ status a = "pending") m)));
    unfold has_pending, map_Exists in *; done.
Defined.

#[global] Instance flag_tracks_pending_dec w : Decision (flag_tracks_pending w).
Proof. unfold flag_tracks_pending. apply _. Defined.

(** ** A submission with uploads *)

Module Uploads.

Definition id_card : UploadedFile :=
  {| fieldname := "id_card"; originalname := "passport.JPG";
     stored_filename := "3f2a.JPG";
     path := "/srv/app/uploads/documents/3f2a.JPG";
     mimetype := "image/jpeg"; size := 204800 |}.

Definition proof_of_trades : UploadedFile :=
  {| fieldname := "documents"; originalname := "trades.pdf";
     stored_filename := "9c1d.pdf";
     path := "/srv/app/uploads/documents/9c1d.pdf";
     mimetype := "application/pdf"; size := 1048576 |}.

(** bob, who has no account document yet, applies with two files. *)
Definition submission : SubmitRequest :=
  {| applicant_userId := "u-bob";
     body_experience := Some (Text "five years");
     body_availability := Some (Text "daily");
     body_why_middleman := Some (Text "trusted by the community");
     body_referral_codes := Some (Text "REF-1");
     body_external_links := None;
     body_preferred_trade_types := Some (Text "limiteds, robux");
     files := Some [id_card; proof_of_trades] |}.

(** A review of the application that [submission] creates in
    [Scenario.world]. *)
Definition review_of_submission : ReviewRequest :=
  {| params_applicationId := "65f0"; body_action := Some "approve";
     body_reason := None; reviewer_userId := "u-admin" |}.

End Uploads.

(** ** Predicates on strings *)

Definition comma_free (s : string) : Prop :=
  ¬ In ","%char (list_ascii_of_string s).

Fixpoint count_commas (s : string) : nat :=
  match s with
  | EmptyString => 0
  | String c rest =>
    if Ascii.eqb c ","%char then S (count_commas rest) else count_commas rest
  end.

(** A run of white space characters. *)
Inductive white_space_run : string → Prop :=
  | run_nil : white_space_run ""
  | run_cons (c s : string) :
      c ∈ white_space → white_space_run s → white_space_run (c ++ s).

Definition starts_with (c s : string) : Prop := ∃ rest, s = c ++ rest.

Definition ends_in (c s : string) : Prop := ∃ front, s = front ++ c.

(** No white space character at either end. *)
Definition trimmed (s : string) : Prop :=
  ∀ c, c ∈ white_space → ¬ starts_with c s ∧ ¬ ends_in c s.

(** ** [getDocumentById] and [getUserApplicationStatus] *)

(** A handler whose answer is not always a flat JSON object: run inside
    its [try]/[catch], with [inject] for the JSON answers. *)
Definition try_catch_as {R : Type} (inject : Response → R) (body : Act R)
    (handler : string → Response) (w : World) : R * World :=
  match body w with
  | (Next r, w') => (r, w')
  | (Sent r, w') => (inject r, w')
  | (Thrown e, w') => (inject (handler e), w')
  end.

Module VerificationDocumentQuery.

Definition findById (id : ObjectId) : Act (option VerificationDocument) :=
  λ w, (Next (verification_documents w !! id), w).

End VerificationDocumentQuery.

(** What [getDocumentById] reads from [req]: [req.params.documentId] and,
    from the token, [req.user.userId] and [req.user.role]. *)
Record DocumentRequest := {
  params_documentId : ObjectId;
  requester_userId : ObjectId;
  requester_role : string
}.

(** The handler answers with JSON or hands a file to [res.sendFile]. *)
Inductive DocumentReply :=
  | Json (r : Response)
  | SendFile (p : string).

(** [res.sendFile(p)] with no [root] option: Express throws a [TypeError]
    when [p] is empty or not an absolute path; [isAbsolute] is Node's
    [path.isAbsolute], which depends on the platform. *)
Definition sendFile (isAbsolute : string → bool) (p : string) : Act DocumentReply :=
  if bool_decide (p = "") then throw "path argument is required to res.sendFile"
  else if isAbsolute p then mret (SendFile p)
  else throw "path must be absolute or specify root to res.sendFile".

Definition getDocumentById_body (isAbsolute : string → bool)
    (req : DocumentRequest) : Act DocumentReply :=
  let documentId := params_documentId req in
  found ← VerificationDocumentQuery.findById documentId;
  match found with
  | None => send 404 [("error", "Document not found")]
  | Some document =>
    when (negb (bool_decide (requester_role req = "admin"))
          && negb (bool_decide (requester_role req = "moderator"))
          && negb (bool_decide (doc_user_id document = requester_userId req)))
      (send 403 [("error", "Access denied")]) ;;
    sendFile isAbsolute (file_path document)
  end.

Definition getDocumentById (isAbsolute : string → bool) (req : DocumentRequest)
    : World → DocumentReply * World :=
  try_catch_as Json (getDocumentById_body isAbsolute req)
    (λ _, {| status_code := 500;
             json := [("error", "Failed to retrieve document")] |}).

(** Staff, or the user the document belongs to. *)
Definition may_read (req : DocumentRequest) (d : VerificationDocument) : Prop :=
  requester_role req = "admin" ∨ requester_role req = "moderator" ∨
  doc_user_id d = requester_userId req.

Definition access_denied : DocumentReply :=
  Json {| status_code := 403; json := [("error", "Access denied")] |}.

(** The body [{ status, applicationId, submittedAt, reviewedAt,
    rejectionReason }] of [getUserApplicationStatus]. *)
Record StatusReport := {
  report_status : string;
  report_applicationId : ObjectId;
  submittedAt : Z;
  reviewedAt : option Z;
  rejectionReason : option string
}.

Inductive StatusReply :=
  | StatusJson (r : Response)
  | StatusOk (report : StatusReport).

(** [.sort({ createdAt: -1 })] followed by taking the first document: a
    document none of the others is newer than. *)
Definition newest (createdAt : ObjectId → Z)
    (l : list (ObjectId * MiddlemanApplication))
    : option (ObjectId * MiddlemanApplication) :=
  foldr (λ kv best,
           match best with
           | None => Some kv
           | Some b => if createdAt b.1 <? createdAt kv.1 then Some kv else Some b
           end) None l.

(** [MiddlemanApplication.findOne({ user_id }).sort({ createdAt: -1 })].
    The schema is not among the sources: the creation time it records for
    a document is taken as a function [createdAt] of the document's id. *)
Definition findOne_newest_of (createdAt : ObjectId → Z) (userId : ObjectId)
    : Act (option (ObjectId * MiddlemanApplication)) :=
  λ w, (Next (newest createdAt
                (List.filter (λ kv, bool_decide (user_id kv.2 = userId))
                   (map_to_list (applications w)))), w).

Definition getUserApplicationStatus_body (createdAt : ObjectId → Z)
    (userId : ObjectId) : Act StatusReply :=
  found ← findOne_newest_of createdAt userId;
  match found with
  | None => send 404 [("error", "No application found")]
  | Some (_id, application) =>
    mret (StatusOk {| report_status := status application;
                      report_applicationId := _id;
                      submittedAt := createdAt _id;
                      reviewedAt := reviewed_date application;
                      rejectionReason := rejection_reason application |})
  end.

Definition getUserApplicationStatus (createdAt : ObjectId → Z)
    (userId : ObjectId) : World → StatusReply * World :=
  try_catch_as StatusJson (getUserApplicationStatus_body createdAt userId)
    (λ _, {| status_code := 500;
             json := [("error", "Failed to fetch application status")] |}).

Definition no_application_found : StatusReply :=
  StatusJson {| status_code := 404; json := [("error", "No application found")] |}.

(** The report on one stored application. *)
Definition report_of (createdAt : ObjectId → Z) (id : ObjectId)
    (a : MiddlemanApplication) : StatusReport :=
  {| report_status := status a; report_applicationId := id;
     submittedAt := createdAt id; reviewedAt := reviewed_date a;
     rejectionReason := rejection_reason a |}.

(** ** Requests for the stored documents and for the status *)

Module Downloads.

(** [path.isAbsolute] on a POSIX system. *)
Definition posix_isAbsolute (p : string) : bool :=
  match p with
  | String "/" _ => true
  | _ => false
  end.

(** The database after [Uploads.submission]: bob's application "65f0" with
    the documents "a65f0" and "aa65f0". *)
Definition world : World :=
  (submitApplication Uploads.submission Scenario.world).2.

Definition bob_fetches_id_card : DocumentRequest :=
  {| params_documentId := "a65f0"; requester_userId := "u-bob";
     requester_role := "user" |}.

Definition alice_fetches_id_card : DocumentRequest :=
  {| params_documentId := "a65f0"; requester_userId := "u-alice";
     requester_role := "user" |}.

(** Creation times for the two applications of [reviewed_world]. *)
Definition createdAt (id : ObjectId) : Z :=
  if bool_decide (id = "65f0") then 1700000500000 else 1700000000000.

End Downloads.

(** ** The upload configuration *)

(** [s.split(sep)] for a one-character separator. *)
Fixpoint split_on (sep : ascii) (s : string) : list string :=
  match s with
  | EmptyString => [""]
  | String c rest =>
    if Ascii.eqb c sep then "" :: split_on sep rest
    else match split_on sep rest with
         | [] => [String c ""]
         | piece :: pieces => String c piece :: pieces
         end
  end.

(** [file.originalname.split('.').pop()] *)
Definition file_extension (originalname : string) : string :=
  List.last (split_on "." originalname) "".

(** The [filename] function of the disk storage; [uuid] is what [uuidv4()]
    returns. *)
Definition storage_filename (uuid originalname : string) : string :=
  uuid ++ "." ++ file_extension originalname.

(** Case folding of the letters A-Z, the only characters the [i] flag of
    the pattern below identifies with a-z. *)
Definition to_lower (c : ascii) : ascii :=
  let n := nat_of_ascii c in
  if (65 <=? n)%nat && (n <=? 90)%nat then ascii_of_nat (n + 32) else c.

Fixpoint lower (s : string) : string :=
  match s with
  | EmptyString => ""
  | String c rest => String (to_lower c) (lower rest)
  end.

(** Some tail of [s] is [suffix]. *)
Fixpoint ends_with (s suffix : string) : bool :=
  String.eqb s suffix
  || match s with
     | EmptyString => false
     | String _ rest => ends_with rest suffix
     end.

Definition allowed_extensions : list string :=
  ["jpg"; "jpeg"; "png"; "gif"; "pdf"].

(** The [fileFilter]: [true] when
    [file.originalname.match(/\.(jpg|jpeg|png|gif|pdf)$/i)] finds a match,
    that is when the name ends, letter case aside, with a dot and one of
    the five extensions. *)
Definition fileFilter (originalname : string) : bool :=
  existsb (λ e, ends_with (lower originalname) ("." ++ e)) allowed_extensions.

Definition dot_free (s : string) : Prop :=
  ¬ In "."%char (list_ascii_of_string s).

(** ** The router of the verification endpoints *)

Inductive Method := GET | POST.

#[global] Instance Method_eq_dec : EqDecision Method.
Proof. solve_decision. Defined.

(** The functions the router puts in front of the controller:
    [authenticateToken] and [requireAdmin] of [middleware/auth.js], and the
    inline wrapper around multer's [upload]. *)
Inductive Middleware := authenticateToken | requireAdmin | uploadDocuments.

Inductive Endpoint :=
  | ToSubmitApplication
  | ToGetUserApplicationStatus
  | ToGetApplications
  | ToGetApplicationById
  | ToReviewApplication
  | ToGetActiveMiddlemen
  | ToGetDocumentById.

(** [router.use(m)] and [router.METHOD(pattern, ...before, endpoint)]. *)
Inductive Layer :=
  | Use (m : Middleware)
  | Route (method : Method) (pattern : string) (before : list Middleware)
      (endpoint : Endpoint).

(** The layers in the order the verification routes file registers them. *)
Definition verification_router : list Layer :=
  [ Use authenticateToken;
    Route POST "/apply" [uploadDocuments] ToSubmitApplication;
    Route GET "/my-application" [] ToGetUserApplicationStatus;
    Use requireAdmin;
    Route GET "/applications" [] ToGetApplications;
    Route GET "/applications/:applicationId" [] ToGetApplicationById;
    Route POST "/applications/:applicationId/review" [] ToReviewApplication;
    Route GET "/middlemen" [] ToGetActiveMiddlemen;
    Route GET "/documents/:documentId" [] ToGetDocumentById ].

Inductive Dispatch :=
  | Reached (endpoint : Endpoint)
  | StoppedBy (m : Middleware)
  | Unhandled.

(** The functions in front of a route's endpoint, in order: the first that
    does not call [next()] ends the request. *)
Fixpoint run_before {Request : Type} (calls_next : Middleware → Request → bool)
    (before : list Middleware) (endpoint : Endpoint) (req : Request) : Dispatch :=
  match before with
  | [] => Reached endpoint
  | m :: rest =>
    if calls_next m req then run_before calls_next rest endpoint req
    else StoppedBy m
  end.

(** Express walks the layers in registration order.  [calls_next m req]
    says whether middleware [m] passes [req] on; [matches method pattern
    req] is Express's matching of method and path: both belong to code that
    is not among the sources and are parameters here.  The endpoints answer
    the request themselves and never call [next()]. *)
Fixpoint dispatch {Request : Type} (calls_next : Middleware → Request → bool)
    (matches : Method → string → Request → bool)
    (layers : list Layer) (req : Request) : Dispatch :=
  match layers with
  | [] => Unhandled
  | Use m :: rest =>
    if calls_next m req then dispatch calls_next matches rest req
    else StoppedBy m
  | Route method pattern before endpoint :: rest =>
    if matches method pattern req
    then run_before calls_next before endpoint req
    else dispatch calls_next matches rest req
  end.

(** The endpoints registered after [router.use(requireAdmin)]. *)
Definition behind_requireAdmin (e : Endpoint) : bool :=
  match e with
  | ToSubmitApplication | ToGetUserApplicationStatus => false
  | _ => true
  end.

Module Traffic.

(** A request as the matcher sees it: method and path. *)
Definition matches (method : Method) (pattern : string)
    (req : Method * string * bool) : bool :=
  bool_decide (method = req.1.1) && bool_decide (pattern = req.1.2).

(** Everybody is authenticated and uploads pass; [req.2] says whether the
    caller is an administrator. *)
Definition calls_next (m : Middleware) (req : Method * string * bool) : bool :=
  match m with
  | requireAdmin => req.2
  | _ => true
  end.

End Traffic.

(** Comparisons of the action with the two literals of the controller. *)
Lemma includes_approve : includes ["approve"; "reject"] (Some "approve") = true.
Proof. reflexivity. Qed.

Lemma includes_reject : includes ["approve"; "reject"] (Some "reject") = true.
Proof. reflexivity. Qed.

Lemma approve_is_approve : js_eq (Some "approve") "approve" = true.
Proof. reflexivity. Qed.

Lemma approve_is_not_reject : js_eq (Some "approve") "reject" = false.
Proof. reflexivity. Qed.

Lemma reject_is_reject : js_eq (Some "reject") "reject" = true.
Proof. reflexivity. Qed.

Lemma reject_is_not_approve : js_eq (Some "reject") "approve" = false.
Proof. reflexivity. Qed.

Lemma js_not_None : js_not None = true.
Proof. reflexivity. Qed.

Lemma js_not_empty : js_not (Some "") = true.
Proof. reflexivity. Qed.

Lemma js_not_nonempty text : text ≠ "" → js_not (Some text) = false.
Proof. intros H. unfold js_not. by rewrite bool_decide_eq_false. Qed.

Lemma pending_is_pending : bool_decide ("pending" = "pending") = true.
Proof. reflexivity. Qed.

#[global] Arguments includes : simpl never.
#[global] Arguments js_eq : simpl never.
#[global] Arguments js_not : simpl never.
#[global] Arguments falsy : simpl never.
#[global] Arguments split_field : simpl never.
#[global] Arguments construct_MiddlemanApplication : simpl never.
#[global] Arguments save_constructed : simpl never.

Create Rewrite HintDb js.
#[global] Hint Rewrite includes_approve includes_reject approve_is_approve
  approve_is_not_reject reject_is_reject reject_is_not_approve
  js_not_None js_not_empty pending_is_pending : js.

(** Running a handler symbolically: unfold the monad and the primitives,
    reduce, and decide the literal comparisons. *)
Ltac act_unfold :=
  unfold mbind, Act_bind, mret, Act_ret, when, send, throw, try_ignore,
    MiddlemanApplicationModel.findById, MiddlemanApplicationModel.save,
    MiddlemanApplicationModel.findOne, VerificationDocumentModel.save,
    UserModel.findById, UserModel.save,
    UserModel.updateOne_set_middleman_requested, new_Date, new_ObjectId.

Ltac act_eval :=
  repeat first [ progress autorewrite with js
               | progress act_unfold
               | progress cbn -[save_documents] ].

Section Review.

Implicit Types (req : ReviewRequest) (w : World) (app : MiddlemanApplication)
  (u : User).

Lemma passes_validation_action req :
  passes_validation req →
  body_action req = Some "approve" ∨ body_action req = Some "reject".
Proof. intros [H | [H _]]; auto. Qed.

(** The body checks, decided on the request alone. *)
Lemma review_invalid_action req w :
  includes ["approve"; "reject"] (body_action req) = false →
  reviewApplication req w = (invalid_action_error, w).
Proof.
  intros H. unfold reviewApplication, try_catch, reviewApplication_body.
  rewrite H. reflexivity.
Qed.

Lemma review_reason_required req w :
  body_action req = Some "reject" →
  js_not (body_reason req) = true →
  reviewApplication req w = (reason_required_error, w).
Proof.
  intros Ha Hr. unfold reviewApplication, try_catch, reviewApplication_body.
  rewrite Ha, Hr. reflexivity.
Qed.

Lemma review_not_found req w :
  passes_validation req →
  applications w !! params_applicationId req = None →
  reviewApplication req w =
    ({| status_code := 404; json := [("error", "Application not found")] |}, w).
Proof.
  intros Hv Hl. unfold reviewApplication, try_catch, reviewApplication_body.
  destruct Hv as [Ha | (Ha & text & Hr & Hne)]; rewrite Ha;
    rewrite ?Hr, ?(js_not_nonempty _ Hne); act_eval; rewrite Hl; reflexivity.
Qed.

Lemma review_processed req w app :
  passes_validation req →
  applications w !! params_applicationId req = Some app →
  status app ≠ "pending" →
  reviewApplication req w = (conflict_error, w).
Proof.
  intros Hv Hl Hs. unfold reviewApplication, try_catch, reviewApplication_body.
  destruct Hv as [Ha | (Ha & text & Hr & Hne)]; rewrite Ha;
    rewrite ?Hr, ?(js_not_nonempty _ Hne); act_eval; rewrite Hl; act_eval;
    rewrite (bool_decide_eq_false_2 _ Hs); reflexivity.
Qed.

(** The three ways a validated review of a pending application ends. *)
Lemma review_orphan req w app :
  passes_validation req →
  applications w !! params_applicationId req = Some app →
  status app = "pending" →
  users w !! user_id app = None →
  reviewApplication req w =
    (user_not_found_error,
     {| applications :=
          <[params_applicationId req := reviewed req (clock w (ticks w)) app]>
            (applications w);
        verification_documents := verification_documents w;
        users := users w; clock := clock w; ticks := S (ticks w);
        oids := oids w; minted := minted w |}).
Proof.
  intros Hv Hl Hs Hu. unfold reviewApplication, try_catch, reviewApplication_body.
  destruct Hv as [Ha | (Ha & text & Hr & Hne)]; rewrite Ha;
    rewrite ?Hr, ?(js_not_nonempty _ Hne); act_eval; rewrite Hl; act_eval;
    rewrite Hs; act_eval; rewrite Hu; act_eval;
    unfold reviewed, decision; rewrite Ha, ?Hr; reflexivity.
Qed.

Lemma review_approve req w app u :
  body_action req = Some "approve" →
  applications w !! params_applicationId req = Some app →
  status app = "pending" →
  users w !! user_id app = Some u →
  reviewApplication req w =
    ({| status_code := 200;
        json := [("message", "Application approved successfully")] |},
     {| applications :=
          <[params_applicationId req := reviewed req (clock w (ticks w)) app]>
            (applications w);
        verification_documents := verification_documents w;
        users :=
          <[user_id app := promoted req (clock w (S (ticks w))) u]> (users w);
        clock := clock w; ticks := S (S (ticks w));
        oids := oids w; minted := minted w |}).
Proof.
  intros Ha Hl Hs Hu. unfold reviewApplication, try_catch, reviewApplication_body.
  rewrite Ha; act_eval; rewrite Hl; act_eval; rewrite Hs; act_eval.
  rewrite Hu; act_eval.
  unfold reviewed, decision, promoted; rewrite Ha; reflexivity.
Qed.

Lemma review_reject req w app u text :
  body_action req = Some "reject" →
  body_reason req = Some text →
  text ≠ "" →
  applications w !! params_applicationId req = Some app →
  status app = "pending" →
  users w !! user_id app = Some u →
  reviewApplication req w =
    ({| status_code := 200;
        json := [("message", "Application rejected successfully")] |},
     {| applications :=
          <[params_applicationId req := reviewed req (clock w (ticks w)) app]>
            (applications w);
        verification_documents := verification_documents w;
        users := <[user_id app := turned_down u]> (users w);
        clock := clock w; ticks := S (ticks w);
        oids := oids w; minted := minted w |}).
Proof.
  intros Ha Hr Hne Hl Hs Hu.
  unfold reviewApplication, try_catch, reviewApplication_body.
  rewrite Ha, Hr, (js_not_nonempty _ Hne); act_eval.
  rewrite Hl; act_eval; rewrite Hs; act_eval; rewrite Hu; act_eval.
  unfold reviewed, decision, turned_down; rewrite Ha, Hr; reflexivity.
Qed.

Lemma includes_inv (v : option string) :
  includes ["approve"; "reject"] v = true →
  v = Some "approve" ∨ v = Some "reject".
Proof.
  destruct v as [a |]; unfold includes; [| done].
  intros H%bool_decide_eq_true.
  apply elem_of_cons in H as [-> | H]; [by left |].
  apply elem_of_cons in H as [-> | H]; [by right |].
  by apply elem_of_nil in H.
Qed.

Lemma js_not_false_inv (v : option string) :
  js_not v = false → ∃ text, v = Some text ∧ text ≠ "".
Proof.
  destruct v as [text |]; unfold js_not; [| done].
  intros H%bool_decide_eq_false. eauto.
Qed.

(** Only a validated review of a pending application whose applicant
    exists is answered with 200. *)
Lemma review_success_inv req w resp w' :
  reviewApplication req w = (resp, w') →
  status_code resp = 200 →
  ∃ app u,
    passes_validation req ∧
    applications w !! params_applicationId req = Some app ∧
    status app = "pending" ∧
    users w !! user_id app = Some u.
Proof.
  intros Hrun Hok.
  assert (Hv : passes_validation req).
  { destruct (includes ["approve"; "reject"] (body_action req)) eqn:Hi.
    - apply includes_inv in Hi as [Ha | Ha]; [by left |].
      destruct (js_not (body_reason req)) eqn:Hr.
      + rewrite (review_reason_required _ _ Ha Hr) in Hrun.
        by simplify_eq.
      + right. split; [done |]. by apply js_not_false_inv.
    - rewrite (review_invalid_action _ _ Hi) in Hrun. by simplify_eq. }
  destruct (applications w !! params_applicationId req) as [app |] eqn:Hl;
    [| rewrite (review_not_found _ _ Hv Hl) in Hrun; by simplify_eq].
  destruct (decide (status app = "pending")) as [Hs | Hs];
    [| rewrite (review_processed _ _ _ Hv Hl Hs) in Hrun; by simplify_eq].
  destruct (users w !! user_id app) as [u |] eqn:Hu;
    [| rewrite (review_orphan _ _ _ Hv Hl Hs Hu) in Hrun; by simplify_eq].
  by exists app, u.
Qed.

(** What a review leaves in the applications collection: the entry under
    the reviewed id may have gone from pending to the decision, every
    other entry is as it was. *)
Lemma review_applications req w :
  applications (reviewApplication req w).2 = applications w ∨
  ∃ app now,
    applications w !! params_applicationId req = Some app ∧
    status app = "pending" ∧
    passes_validation req ∧
    applications (reviewApplication req w).2 =
      <[params_applicationId req := reviewed req now app]> (applications w).
Proof.
  destruct (includes ["approve"; "reject"] (body_action req)) eqn:Hi;
    [| rewrite (review_invalid_action _ _ Hi); by left].
  assert (Hv : passes_validation req ∨
               reviewApplication req w = (reason_required_error, w)).
  { apply includes_inv in Hi as [Ha | Ha]; [by left; left |].
    destruct (js_not (body_reason req)) eqn:Hr.
    - right. by apply review_reason_required.
    - left. right. split; [done |]. by apply js_not_false_inv. }
  destruct Hv as [Hv | ->]; [| by left].
  destruct (applications w !! params_applicationId req) as [app |] eqn:Hl;
    [| rewrite (review_not_found _ _ Hv Hl); by left].
  destruct (decide (status app = "pending")) as [Hs | Hs];
    [| rewrite (review_processed _ _ _ Hv Hl Hs); by left].
  right. exists app, (clock w (ticks w)). repeat split; [done.. |].
  destruct (users w !! user_id app) as [u |] eqn:Hu.
  - destruct Hv as [Ha | (Ha & text & Hr & Hne)].
    + by rewrite (review_approve _ _ _ _ Ha Hl Hs Hu).
    + by rewrite (review_reject _ _ _ _ _ Ha Hr Hne Hl Hs Hu).
  - by rewrite (review_orphan _ _ _ Hv Hl Hs Hu).
Qed.

Lemma decision_cases req :
  passes_validation req →
  decision req = "approved" ∨ decision req = "rejected".
Proof.
  intros Hv%passes_validation_action. unfold decision.
  destruct Hv as [-> | ->]; [by left | by right].
Qed.

(** C1. Approving a pending application whose applicant exists: the call
    succeeds, the application is stored as approved, the applicant's role
    is middleman, exactly one entry has been appended to the applicant's
    role history, and middleman_requested is false. *)
Theorem approve_pending_application req w app u :
  body_action req = Some "approve" →
  applications w !! params_applicationId req = Some app →
  status app = "pending" →
  users w !! user_id app = Some u →
  ∃ resp w' app' u' entry,
    reviewApplication req w = (resp, w') ∧
    status_code resp = 200 ∧
    applications w' !! params_applicationId req = Some app' ∧
    user_id app' = user_id app ∧
    status app' = "approved" ∧
    users w' !! user_id app = Some u' ∧
    role u' = "middleman" ∧
    role_history u' = (role_history u ++ [entry])%list ∧
    middleman_requested u' = false.
Proof.
  intros Ha Hl Hs Hu.
  eexists _, _, _, _, _. split; [by apply review_approve |].
  cbn. rewrite !lookup_insert_eq.
  split_and!; try done. cbn. unfold decision. by rewrite Ha.
Qed.

Lemma approve_pending_application_witness :
  ∃ resp w' app' u' entry,
    reviewApplication Scenario.approve_request Scenario.world = (resp, w') ∧
    status_code resp = 200 ∧
    applications w' !! "app-1" = Some app' ∧
    user_id app' = "u-alice" ∧
    status app' = "approved" ∧
    users w' !! "u-alice" = Some u' ∧
    role u' = "middleman" ∧
    role_history u' = ([] ++ [entry])%list ∧
    middleman_requested u' = false.
Proof.
  apply (approve_pending_application Scenario.approve_request Scenario.world
           Scenario.application_of_alice Scenario.alice); reflexivity.
Defined.

(** C5. A reject without a reason, or with the empty string as reason, is
    answered with the validation error and nothing is written: the
    database after the call is the database before it, so the
    application and the applicant are unmodified and a pending
    application stays pending. *)
Theorem reject_without_reason_is_refused req w :
  body_action req = Some "reject" →
  body_reason req = None ∨ body_reason req = Some "" →
  reviewApplication req w = (reason_required_error, w) ∧
  status_code reason_required_error = 400 ∧
  ∀ app,
    applications w !! params_applicationId req = Some app →
    status app = "pending" →
    ∃ app',
      applications (reviewApplication req w).2 !! params_applicationId req
        = Some app' ∧
      status app' = "pending".
Proof.
  intros Ha Hr.
  assert (Hrun : reviewApplication req w = (reason_required_error, w)).
  { apply review_reason_required; [done |]. by destruct Hr as [-> | ->]. }
  rewrite Hrun. split_and!; try done. intros app Hl Hs. by exists app.
Qed.

Lemma reject_without_reason_is_refused_witness :
  reviewApplication Scenario.reject_without_reason Scenario.world
    = (reason_required_error, Scenario.world) ∧
  status_code reason_required_error = 400 ∧
  ∀ app,
    applications Scenario.world !! "app-1" = Some app →
    status app = "pending" →
    ∃ app',
      applications
        (reviewApplication Scenario.reject_without_reason Scenario.world).2
        !! "app-1" = Some app' ∧
      status app' = "pending".
Proof.
  apply (reject_without_reason_is_refused Scenario.reject_without_reason
           Scenario.world); [reflexivity | left; reflexivity].
Defined.

(** C4, as stated, fails: a reject without a reason sent for an
    application that is already approved is answered with the validation
    error, not with the conflict error. *)
Lemma conflict_on_processed_counterexample :
  ¬ conflict_on_processed Scenario.reject_without_reason
      Scenario.processed_world.
Proof.
  intros H.
  specialize (H (reviewed Scenario.approve_request 1700000000000
                   Scenario.application_of_alice)).
  assert (Hrun :
    reviewApplication Scenario.reject_without_reason Scenario.processed_world
      = (conflict_error, Scenario.processed_world))
    by (apply H; [reflexivity | discriminate]).
  rewrite (review_reason_required Scenario.reject_without_reason
             Scenario.processed_world eq_refl eq_refl) in Hrun.
  discriminate Hrun.
Qed.

(** C4, amended. A review that gets past the checks on the request body
    (approve, or reject with a non-empty reason) and finds the application
    in a state other than pending is answered with the conflict error and
    the database is left as it was.  In particular a validated review of
    the application a successful review has just decided is a conflict. *)
Theorem validated_review_of_processed_conflicts req w :
  passes_validation req →
  conflict_on_processed req w ∧
  ∀ req0 w0 resp0,
    reviewApplication req0 w0 = (resp0, w) →
    status_code resp0 = 200 →
    params_applicationId req0 = params_applicationId req →
    reviewApplication req w = (conflict_error, w).
Proof.
  intros Hv. split.
  - intros app Hl Hs. by apply review_processed with app.
  - intros req0 w0 resp0 Hrun Hok Hid.
    destruct (review_success_inv _ _ _ _ Hrun Hok)
      as (app & u & Hv0 & Hl & Hs & Hu).
    assert (Hl' : applications w !! params_applicationId req
                  = Some (reviewed req0 (clock w0 (ticks w0)) app)).
    { rewrite <- Hid.
      destruct Hv0 as [Ha | (Ha & text & Hr & Hne)].
      - rewrite (review_approve _ _ _ _ Ha Hl Hs Hu) in Hrun.
        simplify_eq. cbn. apply lookup_insert_eq.
      - rewrite (review_reject _ _ _ _ _ Ha Hr Hne Hl Hs Hu) in Hrun.
        simplify_eq. cbn. apply lookup_insert_eq. }
    apply review_processed with (reviewed req0 (clock w0 (ticks w0)) app);
      [done.. |].
    cbn. destruct (decision_cases _ Hv0) as [-> | ->]; discriminate.
Qed.

Lemma validated_review_of_processed_conflicts_witness :
  conflict_on_processed Scenario.reject_request Scenario.processed_world ∧
  ∀ req0 w0 resp0,
    reviewApplication req0 w0 = (resp0, Scenario.processed_world) →
    status_code resp0 = 200 →
    params_applicationId req0 = "app-1" →
    reviewApplication Scenario.reject_request Scenario.processed_world
      = (conflict_error, Scenario.processed_world).
Proof.
  apply (validated_review_of_processed_conflicts Scenario.reject_request
           Scenario.processed_world).
  right. split; [reflexivity |].
  exists "Not enough completed trades". split; [reflexivity | discriminate].
Defined.

(** C6, as stated, fails: a reject without a reason on a pending
    application whose applicant is gone is answered with the validation
    error, and the application has not been saved. *)
Lemma orphan_review_saved_counterexample :
  ¬ orphan_review_saved Scenario.reject_without_reason Scenario.orphan_world.
Proof.
  intros H.
  destruct (H Scenario.application_of_alice eq_refl eq_refl eq_refl)
    as (w' & app' & Hrun & _).
  rewrite (review_reason_required Scenario.reject_without_reason
             Scenario.orphan_world eq_refl eq_refl) in Hrun.
  discriminate Hrun.
Qed.

(** C6, amended. A review that gets past the checks on the request body,
    of a pending application whose applicant does not exist, is answered
    with the not-found error; by then the application has been saved with
    the decided status, and the database after the call still holds it:
    nothing restores the pending application.  No user is written. *)
Theorem validated_orphan_review_is_saved req w app :
  passes_validation req →
  applications w !! params_applicationId req = Some app →
  status app = "pending" →
  users w !! user_id app = None →
  ∃ w' app',
    reviewApplication req w = (user_not_found_error, w') ∧
    status_code user_not_found_error = 404 ∧
    applications w' !! params_applicationId req = Some app' ∧
    status app' = decision req ∧
    (status app' = "approved" ∨ status app' = "rejected") ∧
    status app' ≠ status app ∧
    users w' = users w.
Proof.
  intros Hv Hl Hs Hu.
  eexists _, _. split; [by apply review_orphan |].
  cbn. rewrite lookup_insert_eq. split_and!; try done; cbn.
  - by apply decision_cases.
  - rewrite Hs. destruct (decision_cases _ Hv) as [-> | ->]; discriminate.
Qed.

Lemma validated_orphan_review_is_saved_witness :
  ∃ w' app',
    reviewApplication Scenario.approve_request Scenario.orphan_world
      = (user_not_found_error, w') ∧
    status_code user_not_found_error = 404 ∧
    applications w' !! "app-1" = Some app' ∧
    status app' = decision Scenario.approve_request ∧
    (status app' = "approved" ∨ status app' = "rejected") ∧
    status app' ≠ status Scenario.application_of_alice ∧
    users w' = users Scenario.orphan_world.
Proof.
  apply (validated_orphan_review_is_saved Scenario.approve_request
           Scenario.orphan_world Scenario.application_of_alice);
    [left; reflexivity | reflexivity..].
Defined.

(** C8. Rejecting, with a non-empty reason, a pending application whose
    applicant exists: the application is stored as rejected with the
    supplied reason as rejection_reason, and the applicant's role after
    the call is the role before it. *)
Theorem reject_pending_application req w app u text :
  body_action req = Some "reject" →
  body_reason req = Some text →
  text ≠ "" →
  applications w !! params_applicationId req = Some app →
  status app = "pending" →
  users w !! user_id app = Some u →
  ∃ resp w' app' u',
    reviewApplication req w = (resp, w') ∧
    status_code resp = 200 ∧
    applications w' !! params_applicationId req = Some app' ∧
    status app' = "rejected" ∧
    rejection_reason app' = Some text ∧
    users w' !! user_id app = Some u' ∧
    role u' = role u ∧
    role_history u' = role_history u.
Proof.
  intros Ha Hr Hne Hl Hs Hu.
  eexists _, _, _, _. split; [by eapply review_reject |].
  cbn. rewrite !lookup_insert_eq.
  split_and!; try done; cbn; unfold decision; by rewrite Ha, ?Hr.
Qed.

Lemma reject_pending_application_witness :
  ∃ resp w' app' u',
    reviewApplication Scenario.reject_request Scenario.world = (resp, w') ∧
    status_code resp = 200 ∧
    applications w' !! "app-1" = Some app' ∧
    status app' = "rejected" ∧
    rejection_reason app' = Some "Not enough completed trades" ∧
    users w' !! "u-alice" = Some u' ∧
    role u' = "user" ∧
    role_history u' = [].
Proof.
  apply (reject_pending_application Scenario.reject_request Scenario.world
           Scenario.application_of_alice Scenario.alice
           "Not enough completed trades");
    [reflexivity | reflexivity | discriminate | reflexivity..].
Defined.

(** C9. A successful review clears middleman_requested whichever way it
    decides.  Every review answered with 200 is an approve or a reject,
    and after it the applicant's flag is false: the flag is cleared on a
    successful reject exactly as on an approval. *)
Theorem successful_review_clears_request req w resp w' :
  reviewApplication req w = (resp, w') →
  status_code resp = 200 →
  (body_action req = Some "reject" ∨ body_action req = Some "approve") ∧
  ∃ app u',
    applications w !! params_applicationId req = Some app ∧
    users w' !! user_id app = Some u' ∧
    middleman_requested u' = false.
Proof.
  intros Hrun Hok.
  destruct (review_success_inv _ _ _ _ Hrun Hok)
    as (app & u & Hv & Hl & Hs & Hu).
  split; [apply passes_validation_action in Hv; tauto |].
  exists app.
  destruct Hv as [Ha | (Ha & text & Hr & Hne)].
  - rewrite (review_approve _ _ _ _ Ha Hl Hs Hu) in Hrun. simplify_eq.
    eexists. cbn. by rewrite lookup_insert_eq.
  - rewrite (review_reject _ _ _ _ _ Ha Hr Hne Hl Hs Hu) in Hrun.
    simplify_eq. eexists. cbn. by rewrite lookup_insert_eq.
Qed.

Lemma successful_review_clears_request_witness :
  (body_action Scenario.reject_request = Some "reject" ∨
   body_action Scenario.reject_request = Some "approve") ∧
  ∃ app u',
    applications Scenario.world !! "app-1" = Some app ∧
    users (reviewApplication Scenario.reject_request Scenario.world).2
      !! user_id app = Some u' ∧
    middleman_requested u' = false.
Proof.
  apply (successful_review_clears_request Scenario.reject_request
           Scenario.world
           (reviewApplication Scenario.reject_request Scenario.world).1
           (reviewApplication Scenario.reject_request Scenario.world).2);
    reflexivity.
Defined.

(** C10. On a successful approval the entry appended to the applicant's
    role history has old_role middleman, the role just assigned: the
    role is overwritten before the entry is built.  For an applicant who
    was not a middleman, old_role is therefore not the role held before
    the approval. *)
Theorem approval_history_records_new_role req w resp w' :
  body_action req = Some "approve" →
  reviewApplication req w = (resp, w') →
  status_code resp = 200 →
  ∃ app u u' entry,
    applications w !! params_applicationId req = Some app ∧
    users w !! user_id app = Some u ∧
    users w' !! user_id app = Some u' ∧
    role_history u' = (role_history u ++ [entry])%list ∧
    old_role entry = "middleman" ∧
    new_role entry = "middleman" ∧
    (role u ≠ "middleman" → old_role entry ≠ role u).
Proof.
  intros Ha Hrun Hok.
  destruct (review_success_inv _ _ _ _ Hrun Hok)
    as (app & u & _ & Hl & Hs & Hu).
  rewrite (review_approve _ _ _ _ Ha Hl Hs Hu) in Hrun. simplify_eq.
  eexists app, u, _, _. cbn. rewrite lookup_insert_eq.
  split_and!; try done; cbn; congruence.
Qed.

Lemma approval_history_records_new_role_witness :
  ∃ app u u' entry,
    applications Scenario.world !! "app-1" = Some app ∧
    users Scenario.world !! user_id app = Some u ∧
    users (reviewApplication Scenario.approve_request Scenario.world).2
      !! user_id app = Some u' ∧
    role_history u' = (role_history u ++ [entry])%list ∧
    old_role entry = "middleman" ∧
    new_role entry = "middleman" ∧
    (role u ≠ "middleman" → old_role entry ≠ role u).
Proof.
  apply (approval_history_records_new_role Scenario.approve_request
           Scenario.world
           (reviewApplication Scenario.approve_request Scenario.world).1
           (reviewApplication Scenario.approve_request Scenario.world).2);
    reflexivity.
Defined.

End Review.

(** ** Properties of [submitApplication] and the invariant *)

Section Submit.

Implicit Types (req : SubmitRequest) (w : World)
  (m : gmap ObjectId MiddlemanApplication).

Lemma findOne_None (query : MiddlemanApplication → bool) m :
  List.find (λ kv, query kv.2) (map_to_list m) = None →
  ∀ i a, m !! i = Some a → query a = false.
Proof.
  intros H i a Hl.
  apply (find_none _ _ H (i, a)).
  by apply list_elem_of_In, elem_of_map_to_list.
Qed.

Lemma findOne_Some (query : MiddlemanApplication → bool) m :
  (∃ i a, m !! i = Some a ∧ query a = true) →
  is_Some (List.find (λ kv, query kv.2) (map_to_list m)).
Proof.
  intros (i & a & Hl & Hq).
  destruct (List.find _ _) eqn:H; [done |].
  by rewrite (findOne_None _ _ H i a Hl) in Hq.
Qed.

(** The upload loop always runs to its end and writes to the documents
    collection only. *)
Lemma save_documents_runs userId fs documentIds w :
  ∃ ids w',
    save_documents userId fs documentIds w = (Next ids, w') ∧
    applications w' = applications w ∧
    users w' = users w.
Proof.
  revert documentIds w.
  induction fs as [| file rest IH]; intros documentIds w; [by eexists _, _ |].
  cbn [save_documents]. unfold mbind, Act_bind, new_ObjectId, try_ignore,
    VerificationDocumentModel.save, throw. cbn.
  destruct (bool_decide (is_Some (verification_documents w !! oids w (minted w))));
    cbn.
  - destruct (IH documentIds (with_minted (S (minted w)) w))
      as (ids & w' & -> & Ha & Hu).
    by eexists _, _.
  - match goal with
    | |- context [save_documents _ _ ?acc ?w0] =>
        destruct (IH acc w0) as (ids & w' & -> & Ha & Hu)
    end.
    by eexists _, _.
Qed.

Lemma submit_has_pending req w :
  has_pending (applicant_userId req) (applications w) →
  submitApplication req w =
    ({| status_code := 400;
        json := [("error", "You already have a pending middleman application")] |},
     w).
Proof.
  intros (i & a & Hl & Hu & Hs).
  unfold submitApplication, try_catch, submitApplication_body. act_eval.
  destruct (findOne_Some
    (λ a, bool_decide (user_id a = applicant_userId req ∧ status a = "pending"))
    (applications w)) as [found Hfound].
  { exists i, a. split; [done |]. by apply bool_decide_eq_true. }
  cbn in Hfound. rewrite Hfound. reflexivity.
Qed.

(** A body field is split, or the call throws, and the database is not
    touched. *)
Lemma split_field_text name v :
  textual v → split_field name v = mret (comma_list (field_text v)).
Proof. by destruct v as [[] |]. Qed.

Lemma split_field_throws name v :
  ¬ textual v → split_field name v = throw (name +:+ ".split is not a function").
Proof. destruct v as [[] |]; cbn; tauto. Qed.

Lemma textual_dec v : textual v ∨ ¬ textual v.
Proof. destruct v as [[] |]; cbn; tauto. Qed.

(** What the constructor builds: a pending application of the caller with
    the strings of the body, when every value it casts is a string. *)
Lemma construct_textual req links types :
  required_fields_given req → texts_textual req →
  construct_MiddlemanApplication (applicant_userId req)
    (body_experience req) (body_availability req) (body_why_middleman req)
    (body_referral_codes req) links types
  = Some (new_MiddlemanApplication (applicant_userId req)
            (default "" (field_text (body_experience req)))
            (default "" (field_text (body_availability req)))
            (default "" (field_text (body_why_middleman req)))
            (field_text (body_referral_codes req)) links types).
Proof.
  unfold required_fields_given, texts_textual, construct_MiddlemanApplication.
  intros (He & Ha & Hy) (Te & Ta & Ty & Tr).
  destruct (body_experience req) as [[] |]; try done.
  destruct (body_availability req) as [[] |]; try done.
  destruct (body_why_middleman req) as [[] |]; try done.
  by destruct (body_referral_codes req) as [[] |].
Qed.

Lemma construct_not_textual req links types :
  ¬ texts_textual req →
  construct_MiddlemanApplication (applicant_userId req)
    (body_experience req) (body_availability req) (body_why_middleman req)
    (body_referral_codes req) links types
  = None.
Proof.
  unfold texts_textual, construct_MiddlemanApplication. intros Hno.
  destruct (body_experience req) as [[] |]; try done.
  destruct (body_availability req) as [[] |]; try done.
  destruct (body_why_middleman req) as [[] |]; try done.
  destruct (body_referral_codes req) as [[] |]; try done; cbn in Hno; tauto.
Qed.

Lemma texts_textual_dec req : texts_textual req ∨ ¬ texts_textual req.
Proof.
  unfold texts_textual.
  destruct (textual_dec (body_experience req)),
    (textual_dec (body_availability req)),
    (textual_dec (body_why_middleman req)),
    (textual_dec (body_referral_codes req)); tauto.
Qed.

(** What a submission leaves in the applications collection: nothing new,
    or one pending application of the caller under a key that was free,
    and then the caller had no pending application before. *)
Lemma submit_applications req w :
  applications (submitApplication req w).2 = applications w ∨
  ∃ id a,
    applications w !! id = None ∧
    user_id a = applicant_userId req ∧
    status a = "pending" ∧
    ¬ has_pending (applicant_userId req) (applications w) ∧
    status_code (submitApplication req w).1 = 201 ∧
    applications (submitApplication req w).2 = <[id := a]> (applications w).
Proof.
  unfold submitApplication, try_catch, submitApplication_body. act_eval.
  destruct (List.find _ (map_to_list (applications w))) as [found |] eqn:Hfind.
  { by left. }
  act_eval.
  destruct (falsy (body_experience req)) eqn:He; [by left |].
  destruct (falsy (body_availability req)) eqn:Ha; [by left |].
  destruct (falsy (body_why_middleman req)) eqn:Hy; [by left |].
  assert (Hnone : ¬ has_pending (applicant_userId req) (applications w)).
  { intros (i & a & Hl & Hu & Hs).
    pose proof (findOne_None
      (λ a, bool_decide (user_id a = applicant_userId req ∧ status a = "pending"))
      _ Hfind i a Hl) as Hq. cbn in Hq.
    apply bool_decide_eq_false in Hq. tauto. }
  act_eval.
  destruct (textual_dec (body_external_links req)) as [Tl | Tl];
    [rewrite (split_field_text _ _ Tl)
    | by rewrite (split_field_throws _ _ Tl); left].
  act_eval.
  destruct (textual_dec (body_preferred_trade_types req)) as [Tp | Tp];
    [rewrite (split_field_text _ _ Tp)
    | by rewrite (split_field_throws _ _ Tp); left].
  act_eval.
  destruct (texts_textual_dec req) as [Tt | Tt];
    [rewrite (construct_textual req) by done
    | rewrite (construct_not_textual req) by done].
  - destruct (files req) as [[| file rest] |].
    2: destruct (save_documents_runs (applicant_userId req) (file :: rest) []
                   (with_minted (S (minted w)) w)) as (ids & w1 & -> & Hw1 & _).
    all: unfold save_constructed; act_eval; try (cbn in Hw1; rewrite Hw1);
      destruct (applications w !! oids w (minted w)) eqn:Hl; cbn;
      [by left | right].
    all: eexists _, _; split_and!; [exact Hl | | | exact Hnone | done |];
      [| | by try rewrite Hw1]; done.
  - destruct (files req) as [[| file rest] |].
    2: destruct (save_documents_runs (applicant_userId req) (file :: rest) []
                   (with_minted (S (minted w)) w)) as (ids & w1 & -> & Hw1 & _).
    all: unfold save_constructed; act_eval; by left.
Qed.

Lemma one_pending_insert_new m id a :
  one_pending_per_user m →
  ¬ has_pending (user_id a) m →
  one_pending_per_user (<[id := a]> m).
Proof.
  unfold one_pending_per_user, map_Forall.
  intros H Hnone i x Hi j y Hj Hsx Hsy Hxy.
  rewrite lookup_insert in Hi. rewrite lookup_insert in Hj.
  repeat case_decide; simplify_eq; try done.
  - destruct Hnone. unfold has_pending. eauto 10.
  - destruct Hnone. unfold has_pending. eauto 10.
  - by eapply H.
Qed.

Lemma one_pending_insert_decided m id a :
  one_pending_per_user m →
  status a ≠ "pending" →
  one_pending_per_user (<[id := a]> m).
Proof.
  unfold one_pending_per_user, map_Forall.
  intros H Hdecided i x Hi j y Hj Hsx Hsy Hxy.
  rewrite lookup_insert in Hi. rewrite lookup_insert in Hj.
  repeat case_decide; simplify_eq; try done.
  by eapply H.
Qed.

Lemma reviewed_not_pending (rreq : ReviewRequest) now a :
  passes_validation rreq → status (reviewed rreq now a) ≠ "pending".
Proof.
  intros Hv. cbn. destruct (decision_cases _ Hv) as [-> | ->]; discriminate.
Qed.

(** C7. That each user has at most one pending application is preserved
    by both writing operations of the controller.  A submission by a user
    who has a pending application is answered with 400 and leaves the
    database as it was; a review creates no application, and an
    application it changes was pending before and is not pending after. *)
Theorem pending_uniqueness_is_invariant w :
  one_pending_per_user (applications w) →
  (∀ op, one_pending_per_user (applications (perform op w).2)) ∧
  (∀ req,
     has_pending (applicant_userId req) (applications w) →
     status_code (submitApplication req w).1 = 400 ∧
     (submitApplication req w).2 = w) ∧
  (∀ rreq id app',
     applications (reviewApplication rreq w).2 !! id = Some app' →
     ∃ app,
       applications w !! id = Some app ∧
       (app' = app ∨ status app = "pending" ∧ status app' ≠ "pending")).
Proof.
  intros Hinv. split_and!.
  - intros [req | rreq]; cbn [perform].
    + destruct (submit_applications req w)
        as [-> | (id & a & Hfree & Hu & Hs & Hnone & _ & ->)]; [done |].
      apply one_pending_insert_new; [done |]. by rewrite Hu.
    + destruct (review_applications rreq w)
        as [-> | (app & now & Hl & Hs & Hv & ->)]; [done |].
      apply one_pending_insert_decided; [done |].
      by apply reviewed_not_pending.
  - intros req Hp. by rewrite (submit_has_pending _ _ Hp).
  - intros rreq id app' Hl'.
    destruct (review_applications rreq w)
      as [Heq | (app & now & Hl & Hs & Hv & Heq)]; rewrite Heq in Hl'.
    + exists app'. auto.
    + rewrite lookup_insert in Hl'. case_decide; simplify_eq.
      * exists app. split; [done |]. right. split; [done |].
        by apply reviewed_not_pending.
      * exists app'. auto.
Qed.

Lemma pending_uniqueness_is_invariant_witness :
  (∀ op, one_pending_per_user (applications (perform op Scenario.world).2)) ∧
  (∀ req,
     has_pending (applicant_userId req) (applications Scenario.world) →
     status_code (submitApplication req Scenario.world).1 = 400 ∧
     (submitApplication req Scenario.world).2 = Scenario.world) ∧
  (∀ rreq id app',
     applications (reviewApplication rreq Scenario.world).2 !! id = Some app' →
     ∃ app,
       applications Scenario.world !! id = Some app ∧
       (app' = app ∨ status app = "pending" ∧ status app' ≠ "pending")).
Proof.
  apply (pending_uniqueness_is_invariant Scenario.world).
  apply (bool_decide_unpack _). vm_compute. exact I.
Defined.

End Submit.

(** ** Properties of the vote toggle *)

Section Vote.

Implicit Types (r : Votable) (u v : ObjectId) (d : Direction)
  (reading : Reading).

Lemma opposite_involutive d : opposite (opposite d) = d.
Proof. by destruct d. Qed.

Lemma voters_add_same d u r : voters d (add_voter d u r) = (voters d r ++ [u])%list.
Proof. by destruct d. Qed.

Lemma voters_add_other d u r :
  voters (opposite d) (add_voter d u r) = voters (opposite d) r.
Proof. by destruct d. Qed.

Lemma voters_remove_same d u r :
  voters d (remove_voter d u r) = filter (λ v, v ≠ u) (voters d r).
Proof. by destruct d. Qed.

Lemma voters_remove_other d u r :
  voters (opposite d) (remove_voter d u r) = voters (opposite d) r.
Proof. by destruct d. Qed.

Lemma voters_remove_opposite d u r :
  voters d (remove_voter (opposite d) u r) = voters d r.
Proof. by destruct d. Qed.

Lemma voters_remove_opposite_same d u r :
  voters (opposite d) (remove_voter (opposite d) u r)
    = filter (λ v, v ≠ u) (voters (opposite d) r).
Proof. by destruct d. Qed.

Lemma has_voted_spec d u r : has_voted d u r = true ↔ u ∈ voters d r.
Proof. unfold has_voted. apply bool_decide_eq_true. Qed.

Lemma has_voted_false d u r : has_voted d u r = false ↔ u ∉ voters d r.
Proof. unfold has_voted. apply bool_decide_eq_false. Qed.

Lemma not_elem_of_removed u (l : list ObjectId) : u ∉ filter (λ v, v ≠ u) l.
Proof. rewrite list_elem_of_filter. tauto. Qed.

Lemma elem_of_removed_ne u v (l : list ObjectId) :
  v ≠ u → v ∈ filter (λ x, x ≠ u) l ↔ v ∈ l.
Proof. rewrite list_elem_of_filter. tauto. Qed.

Lemma elem_of_added u (l : list ObjectId) : u ∈ (l ++ [u])%list.
Proof. rewrite elem_of_app, list_elem_of_singleton. tauto. Qed.

Lemma elem_of_added_ne u v (l : list ObjectId) :
  v ≠ u → v ∈ (l ++ [u])%list ↔ v ∈ l.
Proof. rewrite elem_of_app, list_elem_of_singleton. tauto. Qed.

(** Where the toggle leaves the actor.  The actor is in the list of the
    direction voted unless the vote retracted a vote in that direction; on
    a resource that had the actor in both lists the two readings part: one
    moves the actor to the list voted, the other leaves the actor in the
    opposite list. *)
Lemma toggle_actor reading r u d :
  (u ∈ voters d (toggle reading r u d).1 ↔
   u ∉ voters d r ∨ (u ∈ voters (opposite d) r ∧ reading = every_rule)) ∧
  (u ∈ voters (opposite d) (toggle reading r u d).1 ↔
   u ∈ voters d r ∧ u ∈ voters (opposite d) r ∧ reading = first_rule).
Proof.
  unfold toggle. cbn [fst].
  destruct (has_voted d u r) eqn:Hd, (has_voted (opposite d) u r) eqn:Ho;
    first [apply has_voted_spec in Hd | apply has_voted_false in Hd];
    first [apply has_voted_spec in Ho | apply has_voted_false in Ho];
    destruct reading; cbn [negb andb];
    rewrite ?voters_add_same, ?voters_add_other, ?voters_remove_same,
      ?voters_remove_other, ?voters_remove_opposite_same;
    pose proof (elem_of_added u (voters d r));
    pose proof (elem_of_added u (filter (λ v, v ≠ u) (voters d r)));
    pose proof (not_elem_of_removed u (voters d r));
    pose proof (not_elem_of_removed u (voters (opposite d) r));
    split; split; intros; try apply elem_of_added; try tauto;
    try (intuition congruence).
Qed.

(** A vote moves nobody but the actor. *)
Lemma toggle_others reading r u d v d' :
  v ≠ u → v ∈ voters d' (toggle reading r u d).1 ↔ v ∈ voters d' r.
Proof.
  intros Hne. unfold toggle. cbn [fst].
  destruct (has_voted d u r), (has_voted (opposite d) u r), reading;
    cbn [negb andb];
    destruct d, d'; cbn; rewrite ?elem_of_added_ne, ?elem_of_removed_ne by done;
    done.
Qed.

Lemma toggle_owner reading r u d : owner (toggle reading r u d).1 = owner r.
Proof.
  unfold toggle. cbn [fst].
  destruct (has_voted d u r), (has_voted (opposite d) u r), reading;
    cbn [negb andb]; by destruct d.
Qed.

Lemma toggle_reports_state reading r u d :
  userVote (toggle reading r u d).2 = vote_state u (toggle reading r u d).1.
Proof. reflexivity. Qed.

(** In a state that satisfies the invariant for the actor exactly one of
    the three rules applies, so the toggle is the case distinction
    retract / flip / cast whatever the reading. *)
Lemma toggle_cases reading r u d :
  single_vote u r →
  (toggle reading r u d).1 =
    if has_voted d u r then remove_voter d u r
    else if has_voted (opposite d) u r
         then add_voter d u (remove_voter (opposite d) u r)
         else add_voter d u r.
Proof.
  intros Hsingle. unfold toggle. cbn [fst].
  destruct (has_voted d u r) eqn:Hd, (has_voted (opposite d) u r) eqn:Ho,
    reading; cbn [negb andb]; try done.
  apply has_voted_spec in Hd. apply has_voted_spec in Ho.
  destruct Hsingle. destruct d; cbn in *; tauto.
Qed.

(** The invariant of spec 3 is kept by the toggle, for the actor and for
    everybody else. *)
Lemma toggle_single_vote reading r u d v :
  single_vote v r → single_vote v (toggle reading r u d).1.
Proof.
  intros H. unfold single_vote. destruct (decide (v = u)) as [-> | Hne].
  - destruct (toggle_actor reading r u d) as [Hsame Hopp].
    unfold single_vote in H. destruct d; cbn [voters opposite] in *; tauto.
  - unfold single_vote in H.
    change (upvotes (toggle reading r u d).1)
      with (voters up (toggle reading r u d).1).
    change (downvotes (toggle reading r u d).1)
      with (voters down (toggle reading r u d).1).
    by rewrite !toggle_others.
Qed.

Lemma vote_state_None u r :
  vote_state u r = None ↔ (u ∉ upvotes r) ∧ (u ∉ downvotes r).
Proof.
  unfold vote_state.
  destruct (has_voted up u r) eqn:Hu, (has_voted down u r) eqn:Hd;
    first [apply has_voted_spec in Hu | apply has_voted_false in Hu];
    first [apply has_voted_spec in Hd | apply has_voted_false in Hd];
    cbn in *; split; try done; tauto.
Qed.

Lemma vote_state_down u r :
  u ∉ upvotes r → u ∈ downvotes r → vote_state u r = Some down.
Proof.
  intros Hu Hd. unfold vote_state.
  rewrite (proj2 (has_voted_false up u r) Hu).
  by rewrite (proj2 (has_voted_spec down u r) Hd).
Qed.

(** A vote on one's own resource is refused and changes nothing. *)
Lemma vote_own reading r d : vote reading r (owner r) d = (r, VoteRefused).
Proof. unfold vote. by rewrite bool_decide_eq_true_2. Qed.

(** Any other vote is the toggle. *)
Lemma vote_other reading r u d :
  u ≠ owner r →
  vote reading r u d =
    ((toggle reading r u d).1, VoteCounted (toggle reading r u d).2).
Proof. intros Hne. unfold vote. by rewrite bool_decide_eq_false_2. Qed.

(** C2, as stated, fails: bob has upvoted the trade; his first [up] vote
    retracts that vote and his second casts it again, so after the two
    votes he is in the upvotes list and the reported state is up, whatever
    the reading of the rules. *)
Lemma double_up_clears_counterexample :
  ¬ (double_up_clears every_rule VoteScenario.upvoted_trade "u-bob" ∨
     double_up_clears first_rule VoteScenario.upvoted_trade "u-bob").
Proof.
  unfold double_up_clears.
  intros [(_ & _ & Hstate) | (_ & _ & Hstate)];
    vm_compute in Hstate; discriminate Hstate.
Qed.

(** C2, amended. For every actor and every votable resource the actor
    does not own and has the actor in at most one of its two lists, two
    [up] votes in a row leave the actor in neither list, the second vote
    reporting the state null, exactly when the actor was not in the
    upvotes list before the first. *)
Theorem double_up_clears_fresh_vote reading r u :
  u ≠ owner r → single_vote u r →
  (double_up_clears reading r u ↔ u ∉ upvotes r).
Proof.
  intros Hother Hsingle. unfold double_up_clears. cbn zeta.
  rewrite (vote_other reading r u up Hother). cbn [fst].
  set (r1 := (toggle reading r u up).1).
  assert (Hother1 : u ≠ owner r1) by (by unfold r1; rewrite toggle_owner).
  rewrite (vote_other reading r1 u up Hother1). cbn [fst snd reported_vote].
  rewrite toggle_reports_state.
  destruct (toggle_actor reading r u up) as [Hup1 Hdown1].
  destruct (toggle_actor reading r1 u up) as [Hup2 Hdown2].
  fold r1 in Hup1, Hdown1. cbn [voters opposite] in *.
  unfold single_vote in Hsingle.
  split.
  - intros (Hup & _ & _) Hin. apply Hup, Hup2. left. rewrite Hup1. tauto.
  - intros Hfresh.
    assert (Hin1 : u ∈ upvotes r1) by (apply Hup1; by left).
    assert (Hout1 : u ∉ downvotes r1) by (rewrite Hdown1; tauto).
    assert (Hup : u ∉ upvotes (toggle reading r1 u up).1)
      by (rewrite Hup2; tauto).
    assert (Hdown : u ∉ downvotes (toggle reading r1 u up).1)
      by (rewrite Hdown2; tauto).
    split_and!; [done.. |]. f_equal. by apply vote_state_None.
Qed.

Lemma double_up_clears_fresh_vote_witness :
  ("u-bob" ∉ upvotes VoteScenario.downvoted_post) ∧
  double_up_clears first_rule VoteScenario.downvoted_post "u-bob".
Proof.
  assert (Hfresh : "u-bob" ∉ upvotes VoteScenario.downvoted_post)
    by (apply (bool_decide_unpack _); vm_compute; exact I).
  split; [exact Hfresh |].
  apply (double_up_clears_fresh_vote first_rule VoteScenario.downvoted_post
           "u-bob"); [discriminate | | exact Hfresh].
  apply (bool_decide_unpack _). vm_compute. exact I.
Defined.

(** C3, as stated, fails: alice votes up and then down on her own trade;
    both votes are refused, the trade has no voter as before, and alice
    is not in its downvotes list. *)
Lemma up_then_down_counterexample :
  ¬ (up_then_down_flips every_rule VoteScenario.own_trade "u-alice" ∨
     up_then_down_flips first_rule VoteScenario.own_trade "u-alice").
Proof.
  unfold up_then_down_flips.
  intros [(Hin & _) | (Hin & _)]; vm_compute in Hin; inversion Hin.
Qed.

(** C3, amended. For every actor and every votable resource the actor
    does not own and has the actor in at most one of its two lists, after
    an [up] vote followed by a [down] vote the actor is in the downvotes
    list and not in the upvotes list; the second vote reports the state
    down. *)
Theorem up_then_down_is_down reading r u :
  u ≠ owner r → single_vote u r →
  up_then_down_flips reading r u ∧
  reported_vote (vote reading (vote reading r u up).1 u down).2
    = Some (Some down).
Proof.
  intros Hother Hsingle. unfold up_then_down_flips. cbn zeta.
  rewrite (vote_other reading r u up Hother). cbn [fst].
  set (r1 := (toggle reading r u up).1).
  assert (Hother1 : u ≠ owner r1) by (by unfold r1; rewrite toggle_owner).
  rewrite (vote_other reading r1 u down Hother1). cbn [fst snd reported_vote].
  rewrite toggle_reports_state.
  destruct (toggle_actor reading r u up) as [Hup1 Hdown1].
  destruct (toggle_actor reading r1 u down) as [Hdown2 Hup2].
  fold r1 in Hup1, Hdown1. cbn [voters opposite] in *.
  unfold single_vote in Hsingle.
  assert (Hout1 : u ∉ downvotes r1) by (rewrite Hdown1; tauto).
  assert (Hdown : u ∈ downvotes (toggle reading r1 u down).1)
    by (apply Hdown2; by left).
  assert (Hup : u ∉ upvotes (toggle reading r1 u down).1)
    by (rewrite Hup2; tauto).
  split_and!; [done.. |]. f_equal. by apply vote_state_down.
Qed.

Lemma up_then_down_is_down_witness :
  up_then_down_flips every_rule VoteScenario.upvoted_trade "u-bob" ∧
  reported_vote
    (vote every_rule (vote every_rule VoteScenario.upvoted_trade "u-bob" up).1
       "u-bob" down).2
    = Some (Some down).
Proof.
  apply (up_then_down_is_down every_rule VoteScenario.upvoted_trade "u-bob");
    [discriminate |].
  apply (bool_decide_unpack _). vm_compute. exact I.
Defined.

(** On a resource that has the actor in both lists the readings part, and
    with them the outcome of the two votes of either claim: bob ends in
    the list voted last under one reading and not under the other. *)
Example readings_part_on_both_lists :
  double_up_clears every_rule VoteScenario.raced_event "u-bob" ∧
  ¬ double_up_clears first_rule VoteScenario.raced_event "u-bob" ∧
  up_then_down_flips every_rule VoteScenario.raced_event "u-bob" ∧
  ¬ up_then_down_flips first_rule VoteScenario.raced_event "u-bob".
Proof.
  split; [| split; [| split]].
  - unfold double_up_clears. vm_compute.
    split_and!; [| | done]; intros Hin; inversion Hin.
  - intros (Hup & _). vm_compute in Hup. apply Hup. constructor.
  - unfold up_then_down_flips. vm_compute.
    split; [constructor | intros Hin; inversion Hin].
  - intros (Hin & _). vm_compute in Hin. inversion Hin.
Qed.

(** The end-to-end scenario of spec 8: B votes up on A's trade, then down. *)
Example vote_end_to_end :
  let trade :=
    {| kind := Trade; owner := "u-a"; upvotes := []; downvotes := [] |} in
  let first := vote every_rule trade "u-b" up in
  let second := vote every_rule first.1 "u-b" down in
  first.2 = VoteCounted {| upvotes_count := 1; downvotes_count := 0;
                           userVote := Some up |} ∧
  second.2 = VoteCounted {| upvotes_count := 0; downvotes_count := 1;
                            userVote := Some down |}.
Proof. split; reflexivity. Qed.

End Vote.

(** ** The handlers on the concrete database *)

Example comma_list_links :
  comma_list (field_text (body_external_links Scenario.second_submission))
    = ["https://example.org/a"; "https://example.org/b"].
Proof. reflexivity. Qed.

Example second_submission_refused :
  submitApplication Scenario.second_submission Scenario.world
    = ({| status_code := 400;
          json := [("error", "You already have a pending middleman application")] |},
       Scenario.world).
Proof. reflexivity. Qed.

Example submission_after_approval :
  let '(resp, w') :=
    submitApplication Scenario.second_submission Scenario.processed_world in
  resp = {| status_code := 201;
            json := [("message", "Middleman application submitted successfully");
                     ("applicationId", "65f0")] |} ∧
  status <$> applications w' !! "65f0" = Some "pending" ∧
  status <$> applications w' !! "app-1" = Some "approved" ∧
  middleman_requested <$> users w' !! "u-alice" = Some true ∧
  role <$> users w' !! "u-alice" = Some "middleman".
Proof. vm_compute. by split_and!. Qed.

Example second_review_conflicts :
  reviewApplication Scenario.approve_request Scenario.processed_world
    = (conflict_error, Scenario.processed_world).
Proof. reflexivity. Qed.

(** ** The paths of [submitApplication] *)

Section SubmitPaths.

Implicit Types (req : SubmitRequest) (w : World).

Lemma falsy_false (v : option BodyValue) :
  falsy v = false ↔ present v ∨ ¬ textual v.
Proof.
  unfold present. destruct v as [[text | items | fields] |]; cbn.
  - unfold falsy. rewrite bool_decide_eq_false. split.
    + intros Hne. left. by exists text.
    + by intros [(text' & [= <-] & Hne) | []].
  - split; [tauto | done].
  - split; [tauto | done].
  - split; [done |]. by intros [(text & Heq & _) | []].
Qed.

Lemma present_textual v : present v → textual v.
Proof. by intros (text & -> & _). Qed.

Lemma present_given v : present v → falsy v = false.
Proof. intros H. apply falsy_false. by left. Qed.

Lemma required_fields_check req :
  falsy (body_experience req) || falsy (body_availability req)
    || falsy (body_why_middleman req) = false
  ↔ required_fields_given req.
Proof.
  unfold required_fields_given.
  destruct (falsy (body_experience req)), (falsy (body_availability req)),
    (falsy (body_why_middleman req)); cbn; intuition congruence.
Qed.

(** The body of a form in which no field is repeated or bracketed passes
    the check of the required fields exactly when the three are strings
    that are not empty. *)
Lemma well_formed_body req :
  required_fields_present req ∧ optional_fields_textual req ↔
  required_fields_given req ∧ lists_textual req ∧ texts_textual req.
Proof.
  unfold required_fields_present, optional_fields_textual,
    required_fields_given, lists_textual, texts_textual.
  rewrite !falsy_false. split.
  - intros ((He & Ha & Hy) & Hr & Hl & Hp).
    pose proof (present_textual _ He). pose proof (present_textual _ Ha).
    pose proof (present_textual _ Hy). tauto.
  - tauto.
Qed.

Lemma required_fields_given_dec req :
  required_fields_given req ∨ ¬ required_fields_given req.
Proof.
  rewrite <- required_fields_check.
  destruct (falsy (body_experience req) || falsy (body_availability req)
            || falsy (body_why_middleman req)); [right | left]; done.
Qed.

Lemma lists_textual_dec req : lists_textual req ∨ ¬ lists_textual req.
Proof.
  unfold lists_textual.
  destruct (textual_dec (body_external_links req)),
    (textual_dec (body_preferred_trade_types req)); tauto.
Qed.

(** The upload loop: it mints one id per file, keeps every document that
    was stored, and stores under each id it collects the document of one
    of the files, under a key that was free. *)
Lemma save_documents_spec userId fs acc w :
  ∃ ids w',
    save_documents userId fs acc w = (Next (acc ++ ids)%list, w') ∧
    applications w' = applications w ∧ users w' = users w ∧
    clock w' = clock w ∧ ticks w' = ticks w ∧ oids w' = oids w ∧
    minted w' = (minted w + length fs)%nat ∧
    (∀ id d, verification_documents w !! id = Some d →
             verification_documents w' !! id = Some d) ∧
    (∀ id, id ∉ ids →
           verification_documents w' !! id = verification_documents w !! id) ∧
    Forall (λ id, verification_documents w !! id = None ∧
                  ∃ file, file ∈ fs ∧
                    verification_documents w' !! id
                      = Some (document_of userId file)) ids ∧
    NoDup ids ∧ (length ids ≤ length fs)%nat.
Proof.
  revert acc w.
  induction fs as [| file rest IH]; intros acc w.
  { exists [], w. cbn. rewrite app_nil_r.
    split_and!; try done. apply NoDup_nil_2. }
  cbn [save_documents]. unfold mbind, Act_bind, new_ObjectId, try_ignore,
    VerificationDocumentModel.save, throw. cbn.
  destruct (verification_documents w !! oids w (minted w)) as [old |] eqn:Hold;
    cbn.
  - destruct (IH acc (with_minted (S (minted w)) w))
      as (ids & w' & -> & Ha & Hu & Hc & Ht & Ho & Hm & Hkeep & Hrest & Hall & Hnd & Hlen).
    exists ids, w'. cbn in *. split_and!; try done; [lia | | lia].
    eapply Forall_impl; [exact Hall |]. cbn.
    intros id (Hfree & f & Hf & Hd). split; [done |].
    exists f. split; [by right | done].
  - set (w1 := with_verification_documents _ _).
    destruct (IH (acc ++ [oids w (minted w)])%list w1)
      as (ids & w' & -> & Ha & Hu & Hc & Ht & Ho & Hm & Hkeep & Hrest & Hall & Hnd & Hlen).
    exists (oids w (minted w) :: ids), w'. cbn in *.
    assert (Hfresh : oids w (minted w) ∉ ids).
    { intros Hin. rewrite Forall_forall in Hall.
      destruct (Hall _ Hin) as [Hfree _].
      by rewrite lookup_insert_eq in Hfree. }
    split_and!; try done.
    + by rewrite <- app_assoc.
    + lia.
    + intros id d Hd. apply Hkeep.
      destruct (decide (id = oids w (minted w))) as [-> | Hne];
        [congruence | by rewrite lookup_insert_ne].
    + intros id Hid. apply not_elem_of_cons in Hid as [Hne Hid].
      rewrite (Hrest id Hid). by rewrite lookup_insert_ne.
    + constructor.
      * split; [done |]. exists file. split; [by left |].
        apply Hkeep. by rewrite lookup_insert_eq.
      * eapply Forall_impl; [exact Hall |]. cbn.
        intros id (Hfree & f & Hf & Hd). split.
        -- destruct (decide (id = oids w (minted w))) as [-> | Hne];
             [by rewrite lookup_insert_eq in Hfree
             | by rewrite lookup_insert_ne in Hfree].
        -- exists f. split; [by right | done].
    + by constructor.
    + lia.
Qed.

Lemma findOne_found (query : MiddlemanApplication → bool)
    (m : gmap ObjectId MiddlemanApplication) kv :
  List.find (λ kv, query kv.2) (map_to_list m) = Some kv →
  m !! kv.1 = Some kv.2 ∧ query kv.2 = true.
Proof.
  intros [Hin Hq]%find_some. split; [| done].
  apply elem_of_map_to_list. apply list_elem_of_In in Hin. by destruct kv.
Qed.

Lemma findOne_no_pending req w :
  ¬ has_pending (applicant_userId req) (applications w) →
  List.find
    (λ kv : ObjectId * MiddlemanApplication,
       bool_decide (user_id kv.2 = applicant_userId req ∧ status kv.2 = "pending"))
    (map_to_list (applications w)) = None.
Proof.
  intros Hnone. destruct (List.find _ _) as [kv |] eqn:Hfind; [| done].
  destruct (findOne_found
    (λ a, bool_decide (user_id a = applicant_userId req ∧ status a = "pending"))
    _ _ Hfind) as [Hl Hq].
  apply bool_decide_eq_true in Hq as [Hu Hs].
  destruct Hnone. by exists kv.1, kv.2.
Qed.

Lemma upload_phase_spec req w :
  ∃ ids w1,
    upload_phase req w = (ids, w1) ∧
    save_documents (applicant_userId req) (uploaded_files req) []
      (with_minted (S (minted w)) w) = (Next ids, w1) ∧
    applications w1 = applications w ∧ users w1 = users w ∧
    clock w1 = clock w ∧ ticks w1 = ticks w ∧ oids w1 = oids w ∧
    minted w1 = S (minted w + length (uploaded_files req)) ∧
    (∀ id d, verification_documents w !! id = Some d →
             verification_documents w1 !! id = Some d) ∧
    (∀ id, id ∉ ids →
           verification_documents w1 !! id = verification_documents w !! id) ∧
    Forall (λ id, verification_documents w !! id = None ∧
                  ∃ file, file ∈ uploaded_files req ∧
                    verification_documents w1 !! id
                      = Some (document_of (applicant_userId req) file)) ids ∧
    NoDup ids ∧ (length ids ≤ length (uploaded_files req))%nat.
Proof.
  unfold upload_phase. cbn zeta.
  destruct (save_documents_spec (applicant_userId req) (uploaded_files req) []
              (with_minted (S (minted w)) w))
    as (ids & w1 & Hrun & Ha & Hu & Hc & Ht & Ho & Hm & Hkeep & Hrest & Hall & Hnd & Hlen).
  cbn in Hrun. rewrite Hrun. exists ids, w1. by split_and!.
Qed.

Lemma submit_missing_fields req w :
  ¬ has_pending (applicant_userId req) (applications w) →
  ¬ required_fields_given req →
  submitApplication req w =
    ({| status_code := 400; json := [("error", "Missing required fields")] |}, w).
Proof.
  intros Hnone Hmiss. rewrite <- required_fields_check in Hmiss.
  apply not_false_is_true in Hmiss.
  unfold submitApplication, try_catch, submitApplication_body. act_eval.
  rewrite (findOne_no_pending _ _ Hnone). act_eval.
  by rewrite Hmiss.
Qed.

(** A field the handler splits came as an array or an object: the call of
    [split] throws before anything is built or written, and the handler
    answers 500. *)
Lemma submit_split_fails req w :
  ¬ has_pending (applicant_userId req) (applications w) →
  required_fields_given req →
  ¬ lists_textual req →
  status_code (submitApplication req w).1 = 500 ∧
  (submitApplication req w).2 = w.
Proof.
  intros Hnone Hreq Hlists. apply required_fields_check in Hreq.
  unfold submitApplication, try_catch, submitApplication_body. act_eval.
  rewrite (findOne_no_pending _ _ Hnone). act_eval. rewrite Hreq. act_eval.
  destruct (textual_dec (body_external_links req)) as [Tl | Tl];
    [rewrite (split_field_text _ _ Tl)
    | by rewrite (split_field_throws _ _ Tl)].
  act_eval.
  destruct (textual_dec (body_preferred_trade_types req)) as [Tp | Tp];
    [| by rewrite (split_field_throws _ _ Tp)].
  by destruct Hlists.
Qed.

(** A value the constructor casts to String came as an array or an
    object: the files are stored, [save] is refused and the handler
    answers 500. *)
Lemma submit_invalid req w :
  ¬ has_pending (applicant_userId req) (applications w) →
  required_fields_given req →
  lists_textual req →
  ¬ texts_textual req →
  submitApplication req w =
    ({| status_code := 500;
        json := [("error",
                  "Failed to submit application: MiddlemanApplication validation failed")] |},
     (upload_phase req w).2).
Proof.
  intros Hnone Hreq [Tl Tp] Htexts. apply required_fields_check in Hreq.
  destruct (upload_phase_spec req w) as (ids & w1 & Hup & Hrun & _).
  rewrite Hup. cbn [fst snd].
  unfold submitApplication, try_catch, submitApplication_body. act_eval.
  rewrite (findOne_no_pending _ _ Hnone). act_eval. rewrite Hreq. act_eval.
  rewrite (split_field_text _ _ Tl). act_eval.
  rewrite (split_field_text _ _ Tp). act_eval.
  rewrite (construct_not_textual req) by done.
  unfold uploaded_files in Hrun.
  destruct (files req) as [[| file rest] |]; cbn -[save_documents] in Hrun.
  2: rewrite Hrun; cbn.
  1,3: cbn in Hrun; unfold mret, Act_ret in Hrun; simplify_eq.
  all: reflexivity.
Qed.

(** The state a submission leaves once its application has been stored. *)
Lemma submit_created req w :
  ¬ has_pending (applicant_userId req) (applications w) →
  required_fields_present req →
  optional_fields_textual req →
  applications w !! next_application_id w = None →
  submitApplication req w =
    (submitted_response (next_application_id w),
     {| applications :=
          <[next_application_id w :=
              submitted_application req (upload_phase req w).1]>
            (applications w);
        verification_documents :=
          verification_documents (upload_phase req w).2;
        users :=
          alter (set_middleman_requested true) (applicant_userId req) (users w);
        clock := clock w; ticks := ticks w; oids := oids w;
        minted := minted (upload_phase req w).2 |}).
Proof.
  intros Hnone Hpresent Hoptional Hfree.
  destruct (proj1 (well_formed_body req) (conj Hpresent Hoptional))
    as (Hgiven & [Tl Tp] & Htexts).
  pose proof (proj2 (required_fields_check req) Hgiven) as Hreq.
  destruct (upload_phase_spec req w)
    as (ids & w1 & Hup & Hrun & Ha & Hu & Hc & Ht & Ho & _).
  rewrite Hup. cbn [fst snd].
  unfold submitApplication, try_catch, submitApplication_body. act_eval.
  rewrite (findOne_no_pending _ _ Hnone). act_eval. rewrite Hreq. act_eval.
  rewrite (split_field_text _ _ Tl). act_eval.
  rewrite (split_field_text _ _ Tp). act_eval.
  rewrite (construct_textual req) by done.
  unfold uploaded_files in Hrun. unfold next_application_id in *.
  destruct (files req) as [[| file rest] |]; cbn -[save_documents] in Hrun.
  2: rewrite Hrun; cbn; unfold save_constructed; act_eval; rewrite Ha.
  1,3: cbn in Hrun; unfold mret, Act_ret in Hrun; simplify_eq;
    unfold save_constructed; act_eval.
  all: rewrite Hfree; cbn.
  all: unfold with_users, with_applications; cbn;
    rewrite ?Hu, ?Hc, ?Ht, ?Ho; reflexivity.
Qed.

(** The minted id is taken: the insertion is refused and the handler
    answers 500; the documents stored by the loop stay. *)
Lemma submit_duplicate_id req w :
  ¬ has_pending (applicant_userId req) (applications w) →
  required_fields_present req →
  optional_fields_textual req →
  is_Some (applications w !! next_application_id w) →
  submitApplication req w =
    ({| status_code := 500;
        json := [("error",
                  "Failed to submit application: E11000 duplicate key error")] |},
     (upload_phase req w).2).
Proof.
  intros Hnone Hpresent Hoptional [old Htaken].
  destruct (proj1 (well_formed_body req) (conj Hpresent Hoptional))
    as (Hgiven & [Tl Tp] & Htexts).
  pose proof (proj2 (required_fields_check req) Hgiven) as Hreq.
  destruct (upload_phase_spec req w)
    as (ids & w1 & Hup & Hrun & Ha & _).
  rewrite Hup. cbn [fst snd].
  unfold submitApplication, try_catch, submitApplication_body. act_eval.
  rewrite (findOne_no_pending _ _ Hnone). act_eval. rewrite Hreq. act_eval.
  rewrite (split_field_text _ _ Tl). act_eval.
  rewrite (split_field_text _ _ Tp). act_eval.
  rewrite (construct_textual req) by done.
  unfold uploaded_files in Hrun. unfold next_application_id in *.
  destruct (files req) as [[| file rest] |]; cbn -[save_documents] in Hrun.
  2: rewrite Hrun; cbn; unfold save_constructed; act_eval; rewrite Ha.
  1,3: cbn in Hrun; unfold mret, Act_ret in Hrun; simplify_eq;
    unfold save_constructed; act_eval.
  all: rewrite Htaken; reflexivity.
Qed.

End SubmitPaths.

(** ** Further properties of [reviewApplication] *)

Section ReviewMore.

Implicit Types (req : ReviewRequest) (w : World) (app : MiddlemanApplication)
  (u : User).

(** A review either leaves the database as it was and is not answered 200,
    or it is a validated review of a pending application. *)
Lemma review_cases req w :
  ((reviewApplication req w).2 = w ∧
   status_code (reviewApplication req w).1 ≠ 200 ∧
   (status_code (reviewApplication req w).1 = 400 ∨
    (reviewApplication req w).1 =
      {| status_code := 404; json := [("error", "Application not found")] |}))
  ∨ ∃ app,
      passes_validation req ∧
      applications w !! params_applicationId req = Some app ∧
      status app = "pending".
Proof.
  destruct (includes ["approve"; "reject"] (body_action req)) eqn:Hi;
    [| rewrite (review_invalid_action _ _ Hi); left; cbn; auto].
  assert (Hv : passes_validation req ∨
               reviewApplication req w = (reason_required_error, w)).
  { apply includes_inv in Hi as [Ha | Ha]; [by left; left |].
    destruct (js_not (body_reason req)) eqn:Hr.
    - right. by apply review_reason_required.
    - left. right. split; [done |]. by apply js_not_false_inv. }
  destruct Hv as [Hv | ->]; [| left; cbn; auto].
  destruct (applications w !! params_applicationId req) as [app |] eqn:Hl;
    [| rewrite (review_not_found _ _ Hv Hl); left; cbn; auto].
  destruct (decide (status app = "pending")) as [Hs | Hs];
    [| rewrite (review_processed _ _ _ Hv Hl Hs); left; cbn; auto].
  right. by exists app.
Qed.

(** X1. A review is answered 200 exactly when the request passes the body
    checks, the application exists and is pending, and the applicant's user
    document exists. *)
Theorem review_succeeds_iff req w :
  status_code (reviewApplication req w).1 = 200 ↔
  passes_validation req ∧
  ∃ app,
    applications w !! params_applicationId req = Some app ∧
    status app = "pending" ∧
    is_Some (users w !! user_id app).
Proof.
  split.
  - intros Hok.
    destruct (review_success_inv req w _ _ (surjective_pairing _) Hok)
      as (app & u & Hv & Hl & Hs & Hu).
    split; [done |]. exists app. by rewrite Hu.
  - intros (Hv & app & Hl & Hs & [u Hu]).
    destruct Hv as [Ha | (Ha & text & Hr & Hne)].
    + by rewrite (review_approve _ _ _ _ Ha Hl Hs Hu).
    + by rewrite (review_reject _ _ _ _ _ Ha Hr Hne Hl Hs Hu).
Qed.

(** X2. A review answered 400 (unknown or missing action, reject without a
    reason, application already decided) has written nothing: the database
    after it is the database before it. *)
Theorem review_refusal_changes_nothing req w :
  status_code (reviewApplication req w).1 = 400 →
  (reviewApplication req w).2 = w.
Proof.
  intros Hcode.
  destruct (review_cases req w) as [(Hw & _) | (app & Hv & Hl & Hs)]; [done |].
  destruct (users w !! user_id app) as [u |] eqn:Hu.
  - destruct Hv as [Ha | (Ha & text & Hr & Hne)].
    + by rewrite (review_approve _ _ _ _ Ha Hl Hs Hu) in Hcode.
    + by rewrite (review_reject _ _ _ _ _ Ha Hr Hne Hl Hs Hu) in Hcode.
  - by rewrite (review_orphan _ _ _ Hv Hl Hs Hu) in Hcode.
Qed.

Lemma review_refusal_changes_nothing_witness :
  (reviewApplication Scenario.approve_request Scenario.processed_world).2
    = Scenario.processed_world.
Proof.
  apply (review_refusal_changes_nothing Scenario.approve_request
           Scenario.processed_world).
  reflexivity.
Defined.

(** X3. A review touches one application and one user at most: the
    documents collection and the id generator are as before, every
    application under another id is as before, and so is every user who is
    not the applicant of the reviewed application. *)
Theorem review_frame req w :
  let w' := (reviewApplication req w).2 in
  verification_documents w' = verification_documents w ∧
  oids w' = oids w ∧ minted w' = minted w ∧ clock w' = clock w ∧
  (∀ id, id ≠ params_applicationId req →
         applications w' !! id = applications w !! id) ∧
  (∀ uid,
     (∀ app, applications w !! params_applicationId req = Some app →
             user_id app ≠ uid) →
     users w' !! uid = users w !! uid).
Proof.
  cbn zeta.
  destruct (review_cases req w) as [(-> & _) | (app & Hv & Hl & Hs)]; [done |].
  assert (Hframe : ∀ (m : gmap ObjectId User) uid x,
            (∀ app0, Some app = Some app0 → user_id app0 ≠ uid) →
            <[user_id app := x]> m !! uid = m !! uid).
  { intros m uid x Hne. apply lookup_insert_ne. by apply Hne. }
  rewrite Hl.
  destruct (users w !! user_id app) as [u |] eqn:Hu.
  - destruct Hv as [Ha | (Ha & text & Hr & Hne)].
    + rewrite (review_approve _ _ _ _ Ha Hl Hs Hu). cbn.
      split_and!; try done; [intros id Hid; by rewrite lookup_insert_ne | auto].
    + rewrite (review_reject _ _ _ _ _ Ha Hr Hne Hl Hs Hu). cbn.
      split_and!; try done; [intros id Hid; by rewrite lookup_insert_ne | auto].
  - rewrite (review_orphan _ _ _ Hv Hl Hs Hu). cbn.
    split_and!; try done. intros id Hid. by rewrite lookup_insert_ne.
Qed.

(** X4. A successful review leaves an audit trail on the application: the
    reviewer's id, the time of the review, and for a reject the reason; what
    the applicant submitted is untouched. *)
Theorem review_records_reviewer req w resp w' :
  reviewApplication req w = (resp, w') →
  status_code resp = 200 →
  ∃ app app',
    applications w !! params_applicationId req = Some app ∧
    applications w' !! params_applicationId req = Some app' ∧
    reviewed_by app' = Some (reviewer_userId req) ∧
    reviewed_date app' = Some (clock w (ticks w)) ∧
    same_submission app app' ∧
    (body_action req = Some "reject" →
     rejection_reason app' = body_reason req) ∧
    (body_action req = Some "approve" →
     rejection_reason app' = rejection_reason app).
Proof.
  intros Hrun Hok.
  destruct (review_success_inv _ _ _ _ Hrun Hok)
    as (app & u & Hv & Hl & Hs & Hu).
  exists app, (reviewed req (clock w (ticks w)) app).
  assert (Hl' : applications w' !! params_applicationId req
                = Some (reviewed req (clock w (ticks w)) app)).
  { destruct Hv as [Ha | (Ha & text & Hr & Hne)].
    - rewrite (review_approve _ _ _ _ Ha Hl Hs Hu) in Hrun. simplify_eq.
      cbn. apply lookup_insert_eq.
    - rewrite (review_reject _ _ _ _ _ Ha Hr Hne Hl Hs Hu) in Hrun.
      simplify_eq. cbn. apply lookup_insert_eq. }
  split_and!; try done; cbn; by intros ->.
Qed.

Lemma review_records_reviewer_witness :
  ∃ app app',
    applications Scenario.world !! "app-1" = Some app ∧
    applications (reviewApplication Scenario.reject_request Scenario.world).2
      !! "app-1" = Some app' ∧
    reviewed_by app' = Some "u-admin" ∧
    reviewed_date app' = Some 1700000000000 ∧
    same_submission app app' ∧
    (body_action Scenario.reject_request = Some "reject" →
     rejection_reason app' = Some "Not enough completed trades") ∧
    (body_action Scenario.reject_request = Some "approve" →
     rejection_reason app' = rejection_reason app).
Proof.
  apply (review_records_reviewer Scenario.reject_request Scenario.world
           (reviewApplication Scenario.reject_request Scenario.world).1
           (reviewApplication Scenario.reject_request Scenario.world).2);
    reflexivity.
Defined.

End ReviewMore.

(** ** What the two writing operations do to applications and users *)

Section Effects.

Implicit Types (req : ReviewRequest) (sreq : SubmitRequest) (w : World)
  (m : gmap ObjectId MiddlemanApplication).

Lemma review_effect req w :
  let w' := (reviewApplication req w).2 in
  (applications w' = applications w ∧ users w' = users w)
  ∨ ∃ app,
      passes_validation req ∧
      applications w !! params_applicationId req = Some app ∧
      status app = "pending" ∧
      applications w' =
        <[params_applicationId req := reviewed req (clock w (ticks w)) app]>
          (applications w) ∧
      ((users w !! user_id app = None ∧ users w' = users w)
       ∨ ∃ u u',
           users w !! user_id app = Some u ∧
           users w' = <[user_id app := u']> (users w) ∧
           (u' = promoted req (clock w (S (ticks w))) u ∨ u' = turned_down u)).
Proof.
  cbn zeta.
  destruct (review_cases req w) as [(-> & _) | (app & Hv & Hl & Hs)];
    [by left |].
  right. exists app. split_and!; try done.
  - destruct (users w !! user_id app) as [u |] eqn:Hu.
    + destruct Hv as [Ha | (Ha & text & Hr & Hne)].
      * by rewrite (review_approve _ _ _ _ Ha Hl Hs Hu).
      * by rewrite (review_reject _ _ _ _ _ Ha Hr Hne Hl Hs Hu).
    + by rewrite (review_orphan _ _ _ Hv Hl Hs Hu).
  - destruct (users w !! user_id app) as [u |] eqn:Hu.
    + right. exists u.
      destruct Hv as [Ha | (Ha & text & Hr & Hne)].
      * rewrite (review_approve _ _ _ _ Ha Hl Hs Hu). cbn. eauto.
      * rewrite (review_reject _ _ _ _ _ Ha Hr Hne Hl Hs Hu). cbn. eauto.
    + left. by rewrite (review_orphan _ _ _ Hv Hl Hs Hu).
Qed.

(** The five ways a submission ends. *)
Lemma submit_cases sreq w :
  (has_pending (applicant_userId sreq) (applications w) ∧
   status_code (submitApplication sreq w).1 = 400 ∧
   (submitApplication sreq w).2 = w)
  ∨ (¬ has_pending (applicant_userId sreq) (applications w) ∧
     ¬ required_fields_given sreq ∧
     status_code (submitApplication sreq w).1 = 400 ∧
     (submitApplication sreq w).2 = w)
  ∨ (¬ has_pending (applicant_userId sreq) (applications w) ∧
     required_fields_given sreq ∧
     ¬ lists_textual sreq ∧
     status_code (submitApplication sreq w).1 = 500 ∧
     (submitApplication sreq w).2 = w)
  ∨ (¬ has_pending (applicant_userId sreq) (applications w) ∧
     required_fields_given sreq ∧
     lists_textual sreq ∧
     (¬ texts_textual sreq ∨ is_Some (applications w !! next_application_id w)) ∧
     status_code (submitApplication sreq w).1 = 500 ∧
     (submitApplication sreq w).2 = (upload_phase sreq w).2)
  ∨ (¬ has_pending (applicant_userId sreq) (applications w) ∧
     required_fields_present sreq ∧
     optional_fields_textual sreq ∧
     applications w !! next_application_id w = None ∧
     (submitApplication sreq w).1 = submitted_response (next_application_id w) ∧
     applications (submitApplication sreq w).2 =
       <[next_application_id w :=
           submitted_application sreq (upload_phase sreq w).1]>
         (applications w) ∧
     users (submitApplication sreq w).2 =
       alter (set_middleman_requested true) (applicant_userId sreq) (users w) ∧
     verification_documents (submitApplication sreq w).2 =
       verification_documents (upload_phase sreq w).2).
Proof.
  destruct (decide (has_pending (applicant_userId sreq) (applications w)))
    as [Hp | Hp].
  { left. by rewrite (submit_has_pending _ _ Hp). }
  right. destruct (required_fields_given_dec sreq) as [Hreq | Hreq].
  2: { left. by rewrite (submit_missing_fields _ _ Hp Hreq). }
  right. destruct (lists_textual_dec sreq) as [Hlists | Hlists].
  2: { left. destruct (submit_split_fails _ _ Hp Hreq Hlists). by split_and!. }
  right. destruct (texts_textual_dec sreq) as [Htexts | Htexts].
  2: { left. rewrite (submit_invalid _ _ Hp Hreq Hlists Htexts).
       split_and!; auto. }
  destruct (proj2 (well_formed_body sreq) (conj Hreq (conj Hlists Htexts)))
    as [Hpresent Hoptional].
  destruct (applications w !! next_application_id w) as [old |] eqn:Hfree.
  - left. rewrite (submit_duplicate_id _ _ Hp Hpresent Hoptional) by eauto.
    split_and!; eauto.
  - right. rewrite (submit_created _ _ Hp Hpresent Hoptional Hfree).
    by split_and!.
Qed.

(** A submission answered 201 is of the last kind. *)
Lemma submit_success_inv sreq w :
  status_code (submitApplication sreq w).1 = 201 →
  ¬ has_pending (applicant_userId sreq) (applications w) ∧
  required_fields_present sreq ∧
  optional_fields_textual sreq ∧
  applications w !! next_application_id w = None ∧
  (submitApplication sreq w).1 = submitted_response (next_application_id w) ∧
  applications (submitApplication sreq w).2 =
    <[next_application_id w :=
        submitted_application sreq (upload_phase sreq w).1]>
      (applications w) ∧
  users (submitApplication sreq w).2 =
    alter (set_middleman_requested true) (applicant_userId sreq) (users w) ∧
  verification_documents (submitApplication sreq w).2 =
    verification_documents (upload_phase sreq w).2.
Proof.
  intros Hok.
  destruct (submit_cases sreq w)
    as [(_ & Hc & _) | [(_ & _ & Hc & _) | [(_ & _ & _ & Hc & _) |
        [(_ & _ & _ & _ & Hc & _) | Hcreated]]]]; [congruence.. | done].
Qed.

(** A submission not answered 201 leaves the applications and the users
    as they were; it may have stored the files that came with it. *)
Lemma submit_failure_inv sreq w :
  status_code (submitApplication sreq w).1 ≠ 201 →
  applications (submitApplication sreq w).2 = applications w ∧
  users (submitApplication sreq w).2 = users w ∧
  ((submitApplication sreq w).2 = w ∨
   status_code (submitApplication sreq w).1 = 500).
Proof.
  intros Hcode.
  destruct (submit_cases sreq w)
    as [(_ & Hc & Hw) | [(_ & _ & Hc & Hw) | [(_ & _ & _ & Hc & Hw) |
        [(_ & _ & _ & _ & Hc & Hw) | (_ & _ & _ & _ & Hr & _)]]]].
  - rewrite Hw. auto.
  - rewrite Hw. auto.
  - rewrite Hw. auto.
  - rewrite Hw.
    destruct (upload_phase_spec sreq w) as (ids & w1 & -> & _ & Ha & Hu & _).
    auto.
  - by rewrite Hr in Hcode.
Qed.

Lemma submit_effect sreq w :
  let w' := (submitApplication sreq w).2 in
  (applications w' = applications w ∧ users w' = users w ∧
   status_code (submitApplication sreq w).1 ≠ 201)
  ∨ (¬ has_pending (applicant_userId sreq) (applications w) ∧
     applications w !! next_application_id w = None ∧
     applications w' =
       <[next_application_id w :=
           submitted_application sreq (upload_phase sreq w).1]>
         (applications w) ∧
     users w' =
       alter (set_middleman_requested true) (applicant_userId sreq) (users w)).
Proof.
  cbn zeta.
  destruct (decide (status_code (submitApplication sreq w).1 = 201))
    as [Hok | Hno].
  - right.
    destruct (submit_success_inv _ _ Hok) as (Hp & _ & _ & Hfree & _ & Ha & Hu & _).
    by split_and!.
  - left. destruct (submit_failure_inv _ _ Hno) as (Ha & Hu & _). by split_and!.
Qed.

Lemma has_pending_insert_ne m id a v :
  user_id a ≠ v →
  (∀ a0, m !! id = Some a0 → user_id a0 ≠ v) →
  has_pending v (<[id := a]> m) ↔ has_pending v m.
Proof.
  intros Hnew Hold. unfold has_pending. split.
  - intros (j & b & Hl & Hu & Hs). rewrite lookup_insert in Hl.
    case_decide; simplify_eq; first [done | by exists j, b].
  - intros (j & b & Hl & Hu & Hs). exists j, b. split; [| done].
    rewrite lookup_insert_ne; [done |]. intros ->. by apply (Hold b).
Qed.

End Effects.

(** ** Invariants of the two writing operations *)

Section Invariants.

Implicit Types (req : ReviewRequest) (sreq : SubmitRequest) (w : World)
  (op : Operation).

Lemma same_submission_reviewed req now a : same_submission a (reviewed req now a).
Proof. by split_and!. Qed.

Lemma same_submission_refl a : same_submission a a.
Proof. by split_and!. Qed.

(** X5. No operation deletes an application or rewrites what was
    submitted, and a decided application is final: an application that is
    approved or rejected is the same document after any operation; a
    pending one can only stay pending or become approved or rejected. *)
Theorem decided_applications_are_final op w id a :
  applications w !! id = Some a →
  ∃ a',
    applications (perform op w).2 !! id = Some a' ∧
    same_submission a a' ∧
    (status a ≠ "pending" → a' = a) ∧
    (status a' = status a ∨
     status a = "pending" ∧ (status a' = "approved" ∨ status a' = "rejected")).
Proof.
  intros Hl. destruct op as [sreq | req]; cbn [perform].
  - destruct (submit_effect sreq w) as [(-> & _) | (_ & Hfree & -> & _)].
    + exists a. split_and!; auto using same_submission_refl.
    + exists a. rewrite lookup_insert_ne by congruence.
      split_and!; auto using same_submission_refl.
  - destruct (review_effect req w) as [(-> & _) | (app & Hv & Hl' & Hs & -> & _)].
    + exists a. split_and!; auto using same_submission_refl.
    + destruct (decide (id = params_applicationId req)) as [-> | Hne].
      * simplify_eq. exists (reviewed req (clock w (ticks w)) a).
        rewrite lookup_insert_eq.
        split_and!; auto using same_submission_reviewed; [done |].
        right. split; [done |]. by apply decision_cases.
      * exists a. rewrite lookup_insert_ne by done.
        split_and!; auto using same_submission_refl.
Qed.

Lemma decided_applications_are_final_witness :
  ∃ a',
    applications
      (perform (Review Scenario.reject_request) Scenario.processed_world).2
      !! "app-1" = Some a' ∧
    same_submission
      (reviewed Scenario.approve_request 1700000000000
         Scenario.application_of_alice) a' ∧
    (status (reviewed Scenario.approve_request 1700000000000
               Scenario.application_of_alice) ≠ "pending" →
     a' = reviewed Scenario.approve_request 1700000000000
            Scenario.application_of_alice) ∧
    (status a' = status (reviewed Scenario.approve_request 1700000000000
                           Scenario.application_of_alice) ∨
     status (reviewed Scenario.approve_request 1700000000000
               Scenario.application_of_alice) = "pending" ∧
     (status a' = "approved" ∨ status a' = "rejected")).
Proof.
  apply (decided_applications_are_final (Review Scenario.reject_request)
           Scenario.processed_world "app-1").
  reflexivity.
Defined.

(** X6. Neither operation creates or deletes a user or changes a user's
    name, activity or credibility; a role changes only to middleman, and
    the role history only grows at its end. *)
Theorem users_are_only_promoted op w uid u :
  users w !! uid = Some u →
  dom (users (perform op w).2) = dom (users w) ∧
  ∃ u',
    users (perform op w).2 !! uid = Some u' ∧
    same_profile u u' ∧
    (role u' = role u ∨ role u' = "middleman") ∧
    role_history u `prefix_of` role_history u'.
Proof.
  intros Hl.
  assert (Hsame : ∃ u',
            Some u = Some u' ∧ same_profile u u' ∧
            (role u' = role u ∨ role u' = "middleman") ∧
            role_history u `prefix_of` role_history u').
  { exists u. unfold same_profile. by split_and!; [..| left |]. }
  destruct op as [sreq | req]; cbn [perform].
  - destruct (submit_effect sreq w) as [(_ & -> & _) | (_ & _ & _ & ->)].
    + by rewrite Hl.
    + split; [apply dom_alter_L |].
      rewrite lookup_alter. case_decide; subst; rewrite Hl; cbn; [| done].
      eexists. split; [done |]. unfold same_profile. cbn.
      by split_and!; [..| left |].
  - destruct (review_effect req w)
      as [(_ & ->) | (app & _ & _ & _ & _ & [(_ & ->) | (u0 & u' & Hu & -> & Hu')])].
    + by rewrite Hl.
    + by rewrite Hl.
    + split.
      { rewrite dom_insert_L. apply elem_of_dom_2 in Hu.
        apply subseteq_union_1_L. by apply singleton_subseteq_l. }
      rewrite lookup_insert. case_decide; subst; [| by rewrite Hl].
      simplify_eq. eexists. split; [done |]. unfold same_profile.
      destruct Hu' as [-> | ->]; cbn.
      * split_and!; try done; [by right | by apply prefix_app_r].
      * by split_and!; [..| left |].
Qed.

Lemma users_are_only_promoted_witness :
  dom (users (perform (Review Scenario.approve_request) Scenario.world).2)
    = dom (users Scenario.world) ∧
  ∃ u',
    users (perform (Review Scenario.approve_request) Scenario.world).2
      !! "u-alice" = Some u' ∧
    same_profile Scenario.alice u' ∧
    (role u' = role Scenario.alice ∨ role u' = "middleman") ∧
    role_history Scenario.alice `prefix_of` role_history u'.
Proof.
  apply (users_are_only_promoted (Review Scenario.approve_request)
           Scenario.world "u-alice" Scenario.alice).
  reflexivity.
Defined.

(** X7. If every user has at most one pending application and every
    user's middleman_requested flag is up exactly while the user has a
    pending application, then the same holds for the flags after any
    operation: a submission raises the flag it creates the reason for, a
    review lowers it together with the only pending application. *)
Theorem flag_tracks_pending_is_invariant op w :
  one_pending_per_user (applications w) →
  flag_tracks_pending w →
  flag_tracks_pending (perform op w).2.
Proof.
  unfold flag_tracks_pending, map_Forall. intros Hone Hflag.
  destruct op as [sreq | req]; cbn [perform].
  - destruct (submit_effect sreq w) as [(-> & -> & _) | (Hp & Hfree & -> & ->)];
      [done |].
    intros uid u'. rewrite lookup_alter. case_decide; subst.
    + destruct (users w !! applicant_userId sreq) as [u |]; [| done].
      cbn. intros [= <-]. cbn. split; [intros _ | done].
      exists (next_application_id w), (submitted_application sreq (upload_phase sreq w).1).
      by rewrite lookup_insert_eq.
    + intros Hu. rewrite has_pending_insert_ne; [by apply Hflag | done |].
      intros a0 Ha0. by rewrite Hfree in Ha0.
  - destruct (review_effect req w)
      as [(-> & ->) | (app & Hv & Hl & Hs & -> & Husers)]; [done |].
    assert (Hgone : ¬ has_pending (user_id app)
              (<[params_applicationId req := reviewed req (clock w (ticks w)) app]>
                 (applications w))).
    { intros (j & b & Hj & Hu & Hsb). rewrite lookup_insert in Hj.
      case_decide; simplify_eq.
      - by apply (reviewed_not_pending req (clock w (ticks w)) app).
      - by destruct (Hone _ _ Hl _ _ Hj Hs Hsb). }
    assert (Hother : ∀ v, v ≠ user_id app →
              has_pending v
                (<[params_applicationId req := reviewed req (clock w (ticks w)) app]>
                   (applications w))
              ↔ has_pending v (applications w)).
    { intros v Hv'. apply has_pending_insert_ne; [by cbn |].
      intros a0 Ha0. by simplify_eq. }
    destruct Husers as [(Hnone & ->) | (u0 & u' & Hu0 & -> & Hu')].
    + intros uid u Hu. rewrite Hother; [by apply Hflag |]. congruence.
    + intros uid u. rewrite lookup_insert. case_decide; subst.
      * intros [= <-]. split; [| done].
        destruct Hu' as [-> | ->]; done.
      * intros Hu. rewrite Hother by done. by apply Hflag.
Qed.

Lemma flag_tracks_pending_is_invariant_witness :
  flag_tracks_pending Scenario.world ∧
  flag_tracks_pending
    (perform (Review Scenario.reject_request) Scenario.world).2.
Proof.
  assert (Hflag : flag_tracks_pending Scenario.world)
    by (apply (bool_decide_unpack _); vm_compute; exact I).
  split; [exact Hflag |].
  apply (flag_tracks_pending_is_invariant (Review Scenario.reject_request)
           Scenario.world); [| exact Hflag].
  apply (bool_decide_unpack _). vm_compute. exact I.
Defined.

End Invariants.

(** ** Further properties of [submitApplication] *)

Section SubmitMore.

Implicit Types (req : ReviewRequest) (sreq : SubmitRequest) (w : World).

(** X8. A submission is answered 201 exactly when the caller has no
    pending application, the three required fields are strings that are not
    empty, none of the three other fields came as an array or an object (a
    field of the form sent twice, or under a bracketed name), and the id
    minted for the application is not taken. *)
Theorem submit_succeeds_iff sreq w :
  status_code (submitApplication sreq w).1 = 201 ↔
  ¬ has_pending (applicant_userId sreq) (applications w) ∧
  required_fields_present sreq ∧
  optional_fields_textual sreq ∧
  applications w !! next_application_id w = None.
Proof.
  split.
  - intros Hok.
    by destruct (submit_success_inv _ _ Hok) as (Hp & Hreq & Hopt & Hfree & _).
  - intros (Hp & Hreq & Hopt & Hfree).
    by rewrite (submit_created _ _ Hp Hreq Hopt Hfree).
Qed.

(** A links field that was sent twice arrives as an array: the handler
    answers 500 and writes nothing, although the three required fields
    are there and the caller has no pending application. *)
Example repeated_field_is_a_server_error :
  let sreq :=
    {| applicant_userId := "u-bob";
       body_experience := Some (Text "five years");
       body_availability := Some (Text "daily");
       body_why_middleman := Some (Text "trusted by the community");
       body_referral_codes := None;
       body_external_links :=
         Some (Items [Text "https://a.example"; Text "https://b.example"]);
       body_preferred_trade_types := None;
       files := Some [Uploads.id_card] |} in
  submitApplication sreq Scenario.world
  = ({| status_code := 500;
        json := [("error", "Failed to submit application: external_links.split is not a function")] |},
     Scenario.world).
Proof. reflexivity. Qed.

(** An experience field that was sent twice passes the check of the
    required fields, the file is stored, and the save of the application
    is refused: the handler answers 500 and one document stays behind. *)
Example repeated_text_is_refused_by_save :
  let sreq :=
    {| applicant_userId := "u-bob";
       body_experience := Some (Items [Text "five years"; Text "six years"]);
       body_availability := Some (Text "daily");
       body_why_middleman := Some (Text "trusted by the community");
       body_referral_codes := None;
       body_external_links := None;
       body_preferred_trade_types := None;
       files := Some [Uploads.id_card] |} in
  (submitApplication sreq Scenario.world).1
  = {| status_code := 500;
       json := [("error", "Failed to submit application: MiddlemanApplication validation failed")] |} ∧
  applications (submitApplication sreq Scenario.world).2
  = applications Scenario.world ∧
  verification_documents (submitApplication sreq Scenario.world).2
  = {[ "a65f0" := document_of "u-bob" Uploads.id_card ]}.
Proof. by split_and!. Qed.

(** X9. After a submission answered 201 the application is stored under
    the id the response carries, pending and unreviewed, with the caller as
    applicant and the texts of the request body; the caller's
    middleman_requested flag is up, and no other user is touched. *)
Theorem submit_stores_pending_application sreq w :
  status_code (submitApplication sreq w).1 = 201 →
  ∃ id app,
    json (submitApplication sreq w).1
      = [("message", "Middleman application submitted successfully");
         ("applicationId", id)] ∧
    applications w !! id = None ∧
    applications (submitApplication sreq w).2 !! id = Some app ∧
    user_id app = applicant_userId sreq ∧
    status app = "pending" ∧
    reviewed_by app = None ∧ reviewed_date app = None ∧
    rejection_reason app = None ∧
    body_experience sreq = Some (Text (experience app)) ∧
    body_availability sreq = Some (Text (availability app)) ∧
    body_why_middleman sreq = Some (Text (why_middleman app)) ∧
    body_referral_codes sreq = Text <$> referral_codes app ∧
    users (submitApplication sreq w).2 !! applicant_userId sreq
      = set_middleman_requested true <$> users w !! applicant_userId sreq ∧
    ∀ uid, uid ≠ applicant_userId sreq →
      users (submitApplication sreq w).2 !! uid = users w !! uid.
Proof.
  intros Hok.
  destruct (submit_success_inv _ _ Hok)
    as (Hp & Hreq & (Tr & _) & Hfree & Hr & Ha & Hu & _).
  exists (next_application_id w),
    (submitted_application sreq (upload_phase sreq w).1).
  destruct Hreq as ((e & He & _) & (a & Hav & _) & (y & Hy & _)).
  rewrite Hr, Ha, Hu, lookup_insert_eq, lookup_alter_eq. cbn.
  rewrite He, Hav, Hy. split_and!; try done.
  - by destruct (body_referral_codes sreq) as [[] |].
  - intros uid Hne. by rewrite lookup_alter_ne.
Qed.

Lemma submit_stores_pending_application_witness :
  ∃ id app,
    json (submitApplication Uploads.submission Scenario.world).1
      = [("message", "Middleman application submitted successfully");
         ("applicationId", id)] ∧
    applications Scenario.world !! id = None ∧
    applications (submitApplication Uploads.submission Scenario.world).2 !! id
      = Some app ∧
    user_id app = "u-bob" ∧
    status app = "pending" ∧
    reviewed_by app = None ∧ reviewed_date app = None ∧
    rejection_reason app = None ∧
    body_experience Uploads.submission = Some (Text (experience app)) ∧
    body_availability Uploads.submission = Some (Text (availability app)) ∧
    body_why_middleman Uploads.submission = Some (Text (why_middleman app)) ∧
    body_referral_codes Uploads.submission = Text <$> referral_codes app ∧
    users (submitApplication Uploads.submission Scenario.world).2 !! "u-bob"
      = set_middleman_requested true <$> users Scenario.world !! "u-bob" ∧
    ∀ uid, uid ≠ "u-bob" →
      users (submitApplication Uploads.submission Scenario.world).2 !! uid
        = users Scenario.world !! uid.
Proof.
  apply (submit_stores_pending_application Uploads.submission Scenario.world).
  reflexivity.
Defined.

(** X10. After a submission answered 201 the application's documents
    list has no repetition and no more entries than files were uploaded;
    every entry is the id, free before, of a stored document that belongs
    to the caller and describes one of the uploaded files; and every
    document the submission has added is in the list. *)
Theorem submitted_documents_are_stored sreq w :
  status_code (submitApplication sreq w).1 = 201 →
  ∃ id app,
    applications (submitApplication sreq w).2 !! id = Some app ∧
    applications w !! id = None ∧
    NoDup (documents app) ∧
    (length (documents app) ≤ length (uploaded_files sreq))%nat ∧
    Forall (λ did,
      verification_documents w !! did = None ∧
      ∃ file,
        file ∈ uploaded_files sreq ∧
        verification_documents (submitApplication sreq w).2 !! did
          = Some (document_of (applicant_userId sreq) file))
      (documents app) ∧
    ∀ did d,
      verification_documents (submitApplication sreq w).2 !! did = Some d →
      verification_documents w !! did = Some d ∨ did ∈ documents app.
Proof.
  intros Hok.
  destruct (submit_success_inv _ _ Hok)
    as (Hp & Hreq & Hopt & Hfree & Hr & Ha & Hu & Hd).
  destruct (upload_phase_spec sreq w)
    as (ids & w1 & Hup & _ & _ & _ & _ & _ & _ & _ & Hkeep & Hrest & Hall & Hnd & Hlen).
  rewrite Hup in *. cbn [fst snd] in *.
  exists (next_application_id w), (submitted_application sreq ids).
  rewrite Ha, Hd, lookup_insert_eq. cbn. split_and!; try done.
  intros did d Hdid. destruct (decide (did ∈ ids)) as [Hin | Hout]; [by right |].
  left. by rewrite <- (Hrest did Hout).
Qed.

Lemma submitted_documents_are_stored_witness :
  ∃ id app,
    applications (submitApplication Uploads.submission Scenario.world).2 !! id
      = Some app ∧
    applications Scenario.world !! id = None ∧
    NoDup (documents app) ∧
    (length (documents app) ≤ length (uploaded_files Uploads.submission))%nat ∧
    Forall (λ did,
      verification_documents Scenario.world !! did = None ∧
      ∃ file,
        file ∈ uploaded_files Uploads.submission ∧
        verification_documents
          (submitApplication Uploads.submission Scenario.world).2 !! did
          = Some (document_of "u-bob" file))
      (documents app) ∧
    ∀ did d,
      verification_documents
        (submitApplication Uploads.submission Scenario.world).2 !! did = Some d →
      verification_documents Scenario.world !! did = Some d ∨
      did ∈ documents app.
Proof.
  apply (submitted_documents_are_stored Uploads.submission Scenario.world).
  reflexivity.
Defined.

(** X11. A submission that is not answered 201 stores no application and
    raises no flag; one answered 400 (a pending application exists, or a
    required field is missing) leaves the whole database as it was, the
    files that came with it included. *)
Theorem failed_submission_stores_nothing sreq w :
  status_code (submitApplication sreq w).1 ≠ 201 →
  applications (submitApplication sreq w).2 = applications w ∧
  users (submitApplication sreq w).2 = users w ∧
  (status_code (submitApplication sreq w).1 = 400 →
   (submitApplication sreq w).2 = w).
Proof.
  intros Hcode.
  destruct (submit_failure_inv _ _ Hcode) as (Ha & Hu & [Hw | Hc]).
  - by rewrite Hw.
  - split_and!; [done.. |]. by rewrite Hc.
Qed.

Lemma failed_submission_stores_nothing_witness :
  applications (submitApplication Scenario.second_submission Scenario.world).2
    = applications Scenario.world ∧
  users (submitApplication Scenario.second_submission Scenario.world).2
    = users Scenario.world ∧
  (status_code (submitApplication Scenario.second_submission Scenario.world).1
     = 400 →
   (submitApplication Scenario.second_submission Scenario.world).2
     = Scenario.world).
Proof.
  apply (failed_submission_stores_nothing Scenario.second_submission
           Scenario.world).
  intros H. vm_compute in H. discriminate H.
Defined.

(** X12. A successful review, approve or reject, frees the applicant to
    apply again: if no user had two pending applications, the applicant has
    none after the review, and the applicant's next submission with the
    required fields, and with no field sent twice or under a bracketed
    name, is answered 201 (the minted id being free). *)
Theorem review_unblocks_submission req w resp w' app :
  one_pending_per_user (applications w) →
  reviewApplication req w = (resp, w') →
  status_code resp = 200 →
  applications w !! params_applicationId req = Some app →
  ¬ has_pending (user_id app) (applications w') ∧
  ∀ sreq,
    applicant_userId sreq = user_id app →
    required_fields_present sreq →
    optional_fields_textual sreq →
    applications w' !! next_application_id w' = None →
    status_code (submitApplication sreq w').1 = 201.
Proof.
  intros Hone Hrun Hok Hl.
  destruct (review_success_inv _ _ _ _ Hrun Hok)
    as (app0 & u & Hv & Hl0 & Hs & Hu).
  simplify_eq.
  assert (Happs : applications w' =
            <[params_applicationId req := reviewed req (clock w (ticks w)) app]>
              (applications w)).
  { destruct Hv as [Ha | (Ha & text & Hr & Hne)].
    - rewrite (review_approve _ _ _ _ Ha Hl Hs Hu) in Hrun. by simplify_eq.
    - rewrite (review_reject _ _ _ _ _ Ha Hr Hne Hl Hs Hu) in Hrun.
      by simplify_eq. }
  assert (Hgone : ¬ has_pending (user_id app) (applications w')).
  { rewrite Happs. intros (j & b & Hj & Hub & Hsb). rewrite lookup_insert in Hj.
    case_decide; simplify_eq.
    - by apply (reviewed_not_pending req (clock w (ticks w)) app).
    - by destruct (Hone _ _ Hl _ _ Hj Hs Hsb). }
  split; [done |]. intros sreq Hsame Hreq Hopt Hfree.
  rewrite <- Hsame in Hgone.
  by rewrite (submit_created _ _ Hgone Hreq Hopt Hfree).
Qed.

Lemma review_unblocks_submission_witness :
  ¬ has_pending (user_id Scenario.application_of_alice)
      (applications Scenario.processed_world) ∧
  ∀ sreq,
    applicant_userId sreq = user_id Scenario.application_of_alice →
    required_fields_present sreq →
    optional_fields_textual sreq →
    applications Scenario.processed_world
      !! next_application_id Scenario.processed_world = None →
    status_code (submitApplication sreq Scenario.processed_world).1 = 201.
Proof.
  apply (review_unblocks_submission Scenario.approve_request Scenario.world
           (reviewApplication Scenario.approve_request Scenario.world).1
           Scenario.processed_world Scenario.application_of_alice).
  - apply (bool_decide_unpack _). vm_compute. exact I.
  - reflexivity.
  - reflexivity.
  - reflexivity.
Defined.

(** X13. The application a successful submission creates can be reviewed
    under the id the response carries: a validated review of that id is
    answered 200 when the applicant's user document exists and decides the
    application, and is answered with the user-not-found error when it does
    not. *)
Theorem submitted_application_is_reviewable sreq w req :
  status_code (submitApplication sreq w).1 = 201 →
  params_applicationId req = next_application_id w →
  passes_validation req →
  json (submitApplication sreq w).1
    = [("message", "Middleman application submitted successfully");
       ("applicationId", params_applicationId req)] ∧
  (is_Some (users w !! applicant_userId sreq) →
   status_code (reviewApplication req (submitApplication sreq w).2).1 = 200 ∧
   status <$>
     applications (reviewApplication req (submitApplication sreq w).2).2
       !! params_applicationId req
     = Some (decision req)) ∧
  (users w !! applicant_userId sreq = None →
   (reviewApplication req (submitApplication sreq w).2).1
     = user_not_found_error).
Proof.
  intros Hok Hid Hv.
  destruct (submit_success_inv _ _ Hok)
    as (Hp & Hreq & Hopt & Hfree & Hr & Ha & Hu & _).
  rewrite Hr, Hid. split; [done |].
  set (w' := (submitApplication sreq w).2) in *.
  set (app := submitted_application sreq (upload_phase sreq w).1) in *.
  assert (Hl : applications w' !! params_applicationId req = Some app)
    by (by rewrite Ha, Hid, lookup_insert_eq).
  assert (Hs : status app = "pending") by done.
  assert (Hlu : users w' !! user_id app
                = set_middleman_requested true <$> users w !! applicant_userId sreq)
    by (by rewrite Hu; cbn; rewrite lookup_alter_eq).
  rewrite <- Hid. split.
  - intros [u Hw]. rewrite Hw in Hlu. cbn in Hlu.
    destruct Hv as [Hact | (Hact & text & Hreason & Hne)].
    + rewrite (review_approve _ _ _ _ Hact Hl Hs Hlu). cbn.
      by rewrite lookup_insert_eq.
    + rewrite (review_reject _ _ _ _ _ Hact Hreason Hne Hl Hs Hlu). cbn.
      by rewrite lookup_insert_eq.
  - intros Hw. rewrite Hw in Hlu. cbn in Hlu.
    by rewrite (review_orphan _ _ _ Hv Hl Hs Hlu).
Qed.

Lemma submitted_application_is_reviewable_witness :
  json (submitApplication Uploads.submission Scenario.world).1
    = [("message", "Middleman application submitted successfully");
       ("applicationId", "65f0")] ∧
  (is_Some (users Scenario.world !! "u-bob") →
   status_code
     (reviewApplication Uploads.review_of_submission
        (submitApplication Uploads.submission Scenario.world).2).1 = 200 ∧
   status <$>
     applications
       (reviewApplication Uploads.review_of_submission
          (submitApplication Uploads.submission Scenario.world).2).2 !! "65f0"
     = Some (decision Uploads.review_of_submission)) ∧
  (users Scenario.world !! "u-bob" = None →
   (reviewApplication Uploads.review_of_submission
      (submitApplication Uploads.submission Scenario.world).2).1
     = user_not_found_error).
Proof.
  apply (submitted_application_is_reviewable Uploads.submission Scenario.world
           Uploads.review_of_submission);
    [reflexivity | reflexivity | left; reflexivity].
Defined.

End SubmitMore.

(** ** The string helpers of [submitApplication] *)

Section Strings.

Implicit Types (s t : string) (c : ascii).

Lemma split_commas_not_nil s : split_commas s ≠ [].
Proof.
  destruct s as [| c rest]; cbn; [done |].
  destruct (Ascii.eqb c ","); [done |]. by destruct (split_commas rest).
Qed.

Lemma concat_cons_nonempty sep x (xs : list string) :
  xs ≠ [] → String.concat sep (x :: xs) = x ++ sep ++ String.concat sep xs.
Proof. by destruct xs. Qed.

Lemma concat_push c sep p (ps : list string) :
  String.concat sep (String c p :: ps) = String c (String.concat sep (p :: ps)).
Proof. by destruct ps. Qed.

Lemma split_commas_comma t :
  split_commas (String "," t) = "" :: split_commas t.
Proof. reflexivity. Qed.

Lemma split_commas_other c t :
  c ≠ ","%char →
  split_commas (String c t) =
    match split_commas t with
    | [] => [String c ""]
    | piece :: rest => String c piece :: rest
    end.
Proof. intros Hc. cbn. by destruct (Ascii.eqb_spec c ","). Qed.

(** X14. Splitting at the commas loses nothing: the pieces contain no
    comma, and joined with commas they give the string back. *)
Theorem split_commas_join s :
  String.concat "," (split_commas s) = s ∧
  Forall comma_free (split_commas s) ∧
  length (split_commas s) = S (count_commas s).
Proof.
  induction s as [| c rest (IHjoin & IHfree & IHlen)]; cbn.
  { split_and!; [done | | done]. constructor; [| done]. by intros []. }
  destruct (Ascii.eqb_spec c ",") as [-> | Hc].
  - split_and!.
    + rewrite concat_cons_nonempty by apply split_commas_not_nil.
      cbn. by rewrite IHjoin.
    + constructor; [by intros [] | done].
    + cbn. by rewrite IHlen.
  - pose proof (split_commas_not_nil rest) as Hnil.
    destruct (split_commas rest) as [| piece pieces]; [done |].
    split_and!.
    + rewrite concat_push. by rewrite IHjoin.
    + apply Forall_cons in IHfree as [Hp Hps]. constructor; [| done].
      intros [Heq | Hin]; [by subst | by apply Hp].
    + done.
Qed.

(** X15. Splitting is the inverse of joining: a non-empty list of pieces
    without commas, joined with commas and split again, is the list. *)
Theorem split_commas_of_join (pieces : list string) :
  pieces ≠ [] →
  Forall comma_free pieces →
  split_commas (String.concat "," pieces) = pieces.
Proof.
  intros Hnil Hfree. induction Hfree as [| p ps Hp Hps IH]; [done |].
  clear Hnil. revert Hp. induction p as [| c p IHp]; intros Hp.
  - destruct ps as [| q qs]; [done |].
    rewrite concat_cons_nonempty by done.
    change ("" ++ "," ++ String.concat "," (q :: qs))
      with (String "," (String.concat "," (q :: qs))).
    rewrite split_commas_comma. by rewrite IH.
  - rewrite concat_push.
    assert (Hc : c ≠ ","%char) by (intros ->; destruct Hp; by left).
    rewrite (split_commas_other _ _ Hc). rewrite IHp; [done |].
    intros Hin. apply Hp. by right.
Qed.

Lemma split_commas_of_join_witness :
  split_commas (String.concat "," ["https://a.example"; ""; " b "])
    = ["https://a.example"; ""; " b "].
Proof.
  apply (split_commas_of_join ["https://a.example"; ""; " b "]).
  - discriminate.
  - repeat constructor; cbn; intros H; repeat destruct H as [H | H];
      try discriminate H; done.
Defined.

Lemma list_ascii_of_append s t :
  list_ascii_of_string (s ++ t)
    = (list_ascii_of_string s ++ list_ascii_of_string t)%list.
Proof.
  induction s as [| c s IH]; [done |].
  change (c :: list_ascii_of_string (s ++ t)
          = c :: (list_ascii_of_string s ++ list_ascii_of_string t)%list).
  by rewrite IH.
Qed.

Lemma append_associative s t r : (s ++ t) ++ r = s ++ t ++ r.
Proof.
  induction s as [| c s IH]; [done |].
  change (String c ((s ++ t) ++ r) = String c (s ++ t ++ r)). by rewrite IH.
Qed.

Lemma length_append s t :
  String.length (s ++ t) = (String.length s + String.length t)%nat.
Proof.
  induction s as [| c s IH]; [done |].
  change (S (String.length (s ++ t)) = S (String.length s + String.length t)).
  by rewrite IH.
Qed.

(** Going through the white space characters one by one. *)
Ltac each_white_space H :=
  unfold white_space in H;
  repeat (apply elem_of_cons in H as [-> | H]);
  [.. | by apply elem_of_nil in H].

Ltac refute_white_space :=
  match goal with
  | H : is_white_space _ = false |- _ => vm_compute in H; discriminate H
  end.

Lemma is_white_space_spec s : is_white_space s = true ↔ s ∈ white_space.
Proof. unfold is_white_space. apply bool_decide_eq_true. Qed.

Lemma white_space_not_empty x : x ∈ white_space → x ≠ "".
Proof. intros Hc. each_white_space Hc; discriminate. Qed.

Lemma white_space_length x :
  x ∈ white_space → (1 ≤ String.length x ≤ 3)%nat.
Proof. intros Hc. each_white_space Hc; cbn; lia. Qed.

(** One step of [trim_start]: a white space character is dropped from the
    front, or the string starts with none and is returned. *)
Lemma trim_start_cases s :
  (∃ x rest, x ∈ white_space ∧ s = x ++ rest ∧ trim_start s = trim_start rest)
  ∨ (trim_start s = s ∧ ∀ x, x ∈ white_space → ¬ starts_with x s).
Proof.
  destruct s as [| c1 rest1].
  { right. split; [done |]. intros x Hc [rest Heq].
    apply (white_space_not_empty x Hc). by destruct x. }
  cbn [trim_start].
  destruct (is_white_space (String c1 "")) eqn:H1.
  { left. exists (String c1 ""), rest1. by rewrite <- is_white_space_spec. }
  destruct rest1 as [| c2 rest2].
  { right. split; [done |]. intros x Hc [rest Heq].
    each_white_space Hc; cbv [String.append] in Heq; simplify_eq;
      refute_white_space. }
  destruct (is_white_space (String c1 (String c2 ""))) eqn:H2.
  { left. exists (String c1 (String c2 "")), rest2.
    by rewrite <- is_white_space_spec. }
  destruct rest2 as [| c3 rest3].
  { right. split; [done |]. intros x Hc [rest Heq].
    each_white_space Hc; cbv [String.append] in Heq; simplify_eq;
      refute_white_space. }
  destruct (is_white_space (String c1 (String c2 (String c3 "")))) eqn:H3.
  { left. exists (String c1 (String c2 (String c3 ""))), rest3.
    by rewrite <- is_white_space_spec. }
  right. split; [done |]. intros x Hc [rest Heq].
  each_white_space Hc; cbv [String.append] in Heq; simplify_eq;
      refute_white_space.
Qed.

Lemma trim_start_spec s :
  ∃ l,
    s = l ++ trim_start s ∧ white_space_run l ∧
    ∀ x, x ∈ white_space → ¬ starts_with x (trim_start s).
Proof.
  remember (String.length s) as n eqn:Hn. revert s Hn.
  induction n as [n IH] using lt_wf_ind. intros s ->.
  destruct (trim_start_cases s) as [(x & rest & Hc & -> & ->) | [-> Hno]].
  - destruct (IH (String.length rest)) with (s := rest)
      as (l & Hrest & Hl & Hfirst); [| done |].
    { rewrite length_append. pose proof (white_space_length x Hc). lia. }
    exists (x ++ l). split_and!; [| by constructor | done].
    rewrite append_associative. by rewrite <- Hrest.
  - exists "". split_and!; [done | constructor | done].
Qed.

Lemma trim_end_spec t :
  ∃ r,
    t = trim_end t ++ r ∧ white_space_run r ∧
    ∀ x, x ∈ white_space → ¬ ends_in x (trim_end t).
Proof.
  induction t as [| a t (r & Ht & Hr & Hlast)].
  { exists "". split_and!; [done | constructor |].
    intros x Hc [front Heq]. apply (white_space_not_empty x Hc).
    destruct front; [done | discriminate]. }
  cbn [trim_end]. cbn zeta.
  destruct (is_white_space (String a (trim_end t))) eqn:Hw.
  - exists (String a (trim_end t) ++ r). split_and!.
    + change (String a t = String a (trim_end t ++ r)). by f_equal.
    + constructor; [by apply is_white_space_spec | done].
    + intros x Hc [front Heq]. apply (white_space_not_empty x Hc).
      destruct front; [done | discriminate].
  - exists r. split_and!; [| done |].
    + change (String a t = String a (trim_end t ++ r)). by f_equal.
    + intros x Hc [front Heq]. destruct front as [| b front].
      * change (String a (trim_end t) = x) in Heq. subst x.
        apply is_white_space_spec in Hc. congruence.
      * change (String a (trim_end t) = String b (front ++ x)) in Heq.
        injection Heq as _ Heq. apply (Hlast x Hc). by exists front.
Qed.

(** What [trim] takes away and what it leaves. *)
Lemma trim_shape s :
  trimmed (trim s) ∧
  ∃ l r, s = l ++ trim s ++ r ∧ white_space_run l ∧ white_space_run r.
Proof.
  unfold trim, trimmed.
  destruct (trim_start_spec s) as (l & Hs & Hl & Hfirst).
  destruct (trim_end_spec (trim_start s)) as (r & Ht & Hr & Hlast).
  split.
  - intros x Hc. split; [| by apply Hlast].
    intros [rest Heq]. apply (Hfirst x Hc). exists (rest ++ r).
    by rewrite Ht, Heq, append_associative.
  - exists l, r. split_and!; [| done..]. by rewrite <- Ht.
Qed.

Lemma trim_start_fixed s :
  (∀ x, x ∈ white_space → ¬ starts_with x s) → trim_start s = s.
Proof.
  intros Hno.
  destruct (trim_start_cases s) as [(x & rest & Hx & Hs & _) | [Hs _]];
    [| done].
  destruct (Hno x Hx). by exists rest.
Qed.

Lemma trim_end_fixed s :
  (∀ x, x ∈ white_space → ¬ ends_in x s) → trim_end s = s.
Proof.
  induction s as [| a s IH]; [done |]. intros Hno.
  cbn [trim_end]. cbn zeta. rewrite IH.
  - destruct (is_white_space (String a s)) eqn:Hw; [| done].
    apply is_white_space_spec in Hw. destruct (Hno _ Hw). by exists "".
  - intros x Hx [front Hs]. apply (Hno x Hx). exists (String a front).
    change (String a s = String a (front ++ x)). by f_equal.
Qed.

(** X16. [trim] takes away white space at the two ends and nothing else:
    the string is a run of white space characters, then its trimmed form,
    then a run of white space characters; the trimmed form neither starts
    nor ends with a white space character, and trimming it again changes
    nothing.  White space is what ECMAScript calls WhiteSpace and
    LineTerminator, the no-break and the ideographic space included. *)
Theorem trim_spec s :
  trimmed (trim s) ∧
  (∃ l r, s = l ++ trim s ++ r ∧ white_space_run l ∧ white_space_run r) ∧
  trim (trim s) = trim s.
Proof.
  destruct (trim_shape s) as [Htrimmed Hparts].
  split_and!; [done.. |].
  unfold trim at 1.
  rewrite trim_start_fixed by (intros x Hx; by apply Htrimmed).
  apply trim_end_fixed. intros x Hx. by apply Htrimmed.
Qed.

Lemma comma_free_part l s r :
  comma_free (l ++ s ++ r) → comma_free s.
Proof.
  unfold comma_free. rewrite !list_ascii_of_append. intros H Hin.
  apply H. apply in_or_app. right. apply in_or_app. by left.
Qed.

(** X17. The list built from a comma-separated body field that is there
    and not empty has one entry per piece between commas, empty pieces
    included; no entry contains a comma or has white space at its ends.
    A field that is missing or the empty string gives the empty list. *)
Theorem comma_list_entries text :
  text ≠ "" →
  length (comma_list (Some text)) = S (count_commas text) ∧
  Forall trimmed (comma_list (Some text)) ∧
  Forall comma_free (comma_list (Some text)) ∧
  comma_list None = [] ∧ comma_list (Some "") = [].
Proof.
  intros Hne. unfold comma_list at 1 2 3.
  rewrite (js_not_nonempty _ Hne). cbn [default].
  destruct (split_commas_join text) as (_ & Hfree & Hlen).
  split_and!; [| | | done..].
  - by rewrite length_fmap.
  - apply Forall_fmap, Forall_forall. intros piece _. apply trim_shape.
  - apply Forall_fmap. eapply Forall_impl; [exact Hfree |].
    intros piece Hp. cbn.
    destruct (trim_shape piece) as (_ & l & r & Heq & _).
    apply (comma_free_part l _ r). by rewrite <- Heq.
Qed.

Lemma comma_list_entries_witness :
  length (comma_list (Some " a ,, b")) = S (count_commas " a ,, b") ∧
  Forall trimmed (comma_list (Some " a ,, b")) ∧
  Forall comma_free (comma_list (Some " a ,, b")) ∧
  comma_list None = [] ∧ comma_list (Some "") = [].
Proof.
  apply (comma_list_entries " a ,, b"). discriminate.
Defined.

(** A no-break space before and an ideographic space after are stripped
    like the ASCII ones; white space inside stays. *)
Example trim_unicode :
  let nbsp := String "194" (String "160" "") in
  let ideographic := String "227" (String "128" (String "128" "")) in
  trim (nbsp ++ " x y" ++ ideographic ++ String "010" "") = "x y" ∧
  trim (String "226" (String "128" "")) = String "226" (String "128" "").
Proof. split; reflexivity. Qed.

End Strings.

(** ** Properties of [getDocumentById] *)

Section Documents.

Variable isAbsolute : string → bool.

Implicit Types (req : DocumentRequest) (w : World) (d : VerificationDocument).

Ltac doc_eval :=
  unfold getDocumentById, try_catch_as, getDocumentById_body, sendFile,
    VerificationDocumentQuery.findById; act_eval.

Lemma get_document_missing req w :
  verification_documents w !! params_documentId req = None →
  getDocumentById isAbsolute req w =
    (Json {| status_code := 404; json := [("error", "Document not found")] |}, w).
Proof. intros Hl. doc_eval. by rewrite Hl. Qed.

Lemma may_read_check req d :
  negb (bool_decide (requester_role req = "admin"))
  && negb (bool_decide (requester_role req = "moderator"))
  && negb (bool_decide (doc_user_id d = requester_userId req)) = false
  ↔ may_read req d.
Proof.
  unfold may_read. repeat case_bool_decide; cbn; intuition congruence.
Qed.

Lemma get_document_denied req w d :
  verification_documents w !! params_documentId req = Some d →
  ¬ may_read req d →
  getDocumentById isAbsolute req w = (access_denied, w).
Proof.
  intros Hl Hno. rewrite <- may_read_check in Hno.
  apply not_false_is_true in Hno.
  doc_eval. rewrite Hl. act_eval. by rewrite Hno.
Qed.

Lemma get_document_allowed req w d :
  verification_documents w !! params_documentId req = Some d →
  may_read req d →
  getDocumentById isAbsolute req w =
    (if bool_decide (file_path d = "") || negb (isAbsolute (file_path d))
     then Json {| status_code := 500;
                  json := [("error", "Failed to retrieve document")] |}
     else SendFile (file_path d), w).
Proof.
  intros Hl Hyes. rewrite <- may_read_check in Hyes.
  doc_eval. rewrite Hl. act_eval. rewrite Hyes. act_eval.
  destruct (bool_decide (file_path d = "")); [done |].
  by destruct (isAbsolute (file_path d)).
Qed.

(** X18. [getDocumentById] hands out a file only to staff and to the
    document's owner: when it calls [res.sendFile], the document exists,
    the path is the document's file_path, and the requester's role is
    admin or moderator or the requester is the user the document belongs
    to.  Such a request leaves the database as it was. *)
Theorem only_staff_and_owner_get_files req w p :
  (getDocumentById isAbsolute req w).1 = SendFile p →
  (getDocumentById isAbsolute req w).2 = w ∧
  ∃ d,
    verification_documents w !! params_documentId req = Some d ∧
    file_path d = p ∧
    may_read req d.
Proof.
  destruct (verification_documents w !! params_documentId req) as [d |] eqn:Hl;
    [| by rewrite (get_document_missing _ _ Hl)].
  assert (Hdec : may_read req d ∨ ¬ may_read req d).
  { rewrite <- may_read_check. destruct (_ && _); [right | left]; done. }
  destruct Hdec as [Hyes | Hno]; [| by rewrite (get_document_denied _ _ _ Hl Hno)].
  rewrite (get_document_allowed _ _ _ Hl Hyes). cbn.
  destruct (_ || _); [done |]. intros [= <-]. split; [done |]. by exists d.
Qed.

End Documents.

Lemma only_staff_and_owner_get_files_witness :
  (getDocumentById Downloads.posix_isAbsolute Downloads.bob_fetches_id_card
     Downloads.world).2 = Downloads.world ∧
  ∃ d,
    verification_documents Downloads.world !! "a65f0" = Some d ∧
    file_path d = "/srv/app/uploads/documents/3f2a.JPG" ∧
    may_read Downloads.bob_fetches_id_card d.
Proof.
  apply (only_staff_and_owner_get_files Downloads.posix_isAbsolute
           Downloads.bob_fetches_id_card Downloads.world
           "/srv/app/uploads/documents/3f2a.JPG").
  vm_compute. reflexivity.
Defined.

Section DocumentsOfSubmission.

Variable isAbsolute : string → bool.

Implicit Types (req : DocumentRequest) (sreq : SubmitRequest) (w : World).

(** X19. Every document a submission answered 201 has added belongs to the
    caller and carries the path of one of the uploaded files.  The caller
    can fetch it: a request of the caller for it makes the handler call
    [res.sendFile] with that path (the path being absolute).  A requester
    who is neither staff nor the caller is answered 403. *)
Theorem uploader_can_fetch_documents sreq w did d :
  status_code (submitApplication sreq w).1 = 201 →
  verification_documents w !! did = None →
  verification_documents (submitApplication sreq w).2 !! did = Some d →
  doc_user_id d = applicant_userId sreq ∧
  (∃ file, file ∈ uploaded_files sreq ∧ file_path d = path file) ∧
  (∀ req,
     params_documentId req = did →
     requester_userId req = applicant_userId sreq →
     file_path d ≠ "" → isAbsolute (file_path d) = true →
     (getDocumentById isAbsolute req (submitApplication sreq w).2).1
       = SendFile (file_path d)) ∧
  (∀ req,
     params_documentId req = did →
     requester_userId req ≠ applicant_userId sreq →
     requester_role req ≠ "admin" → requester_role req ≠ "moderator" →
     (getDocumentById isAbsolute req (submitApplication sreq w).2).1
       = access_denied).
Proof.
  intros Hok Hnew Hd.
  destruct (submit_success_inv _ _ Hok)
    as (Hp & Hreq & Hopt & Hfree & Hr & Ha & Hu & Hdocs).
  destruct (upload_phase_spec sreq w)
    as (ids & w1 & Hup & _ & _ & _ & _ & _ & _ & _ & Hkeep & Hrest & Hall & _).
  rewrite Hup in Hdocs. cbn [snd] in Hdocs.
  assert (Hin : did ∈ ids).
  { destruct (decide (did ∈ ids)) as [Hin | Hout]; [done |].
    rewrite Hdocs, (Hrest did Hout) in Hd. congruence. }
  rewrite Forall_forall in Hall.
  destruct (Hall did Hin) as (_ & file & Hfile & Hstored).
  rewrite Hdocs, Hstored in Hd. simplify_eq.
  set (d := document_of (applicant_userId sreq) file).
  assert (Hl : ∀ req, params_documentId req = did →
            verification_documents (submitApplication sreq w).2
              !! params_documentId req = Some d).
  { intros req ->. by rewrite Hdocs. }
  split_and!; [done | by exists file | |].
  - intros req Hid Hown Hne Habs.
    rewrite (get_document_allowed isAbsolute _ _ d (Hl req Hid)).
    + cbn [fst]. rewrite Habs. by rewrite bool_decide_eq_false_2.
    + right. right. done.
  - intros req Hid Hother Hadmin Hmod.
    rewrite (get_document_denied isAbsolute _ _ d (Hl req Hid)); [done |].
    intros [? | [? | Hown]]; [done | done |]. by destruct Hother.
Qed.

End DocumentsOfSubmission.

Lemma uploader_can_fetch_documents_witness :
  doc_user_id (document_of "u-bob" Uploads.id_card)
    = applicant_userId Uploads.submission ∧
  (∃ file,
     file ∈ uploaded_files Uploads.submission ∧
     file_path (document_of "u-bob" Uploads.id_card) = path file) ∧
  (∀ req,
     params_documentId req = "a65f0" →
     requester_userId req = applicant_userId Uploads.submission →
     file_path (document_of "u-bob" Uploads.id_card) ≠ "" →
     Downloads.posix_isAbsolute
       (file_path (document_of "u-bob" Uploads.id_card)) = true →
     (getDocumentById Downloads.posix_isAbsolute req
        (submitApplication Uploads.submission Scenario.world).2).1
       = SendFile (file_path (document_of "u-bob" Uploads.id_card))) ∧
  (∀ req,
     params_documentId req = "a65f0" →
     requester_userId req ≠ applicant_userId Uploads.submission →
     requester_role req ≠ "admin" → requester_role req ≠ "moderator" →
     (getDocumentById Downloads.posix_isAbsolute req
        (submitApplication Uploads.submission Scenario.world).2).1
       = access_denied).
Proof.
  apply (uploader_can_fetch_documents Downloads.posix_isAbsolute
           Uploads.submission Scenario.world "a65f0"
           (document_of "u-bob" Uploads.id_card)).
  - reflexivity.
  - reflexivity.
  - vm_compute. reflexivity.
Defined.

(** ** Properties of [getUserApplicationStatus] *)

Section Status.

Variable createdAt : ObjectId → Z.

Implicit Types (w : World) (userId : ObjectId)
  (l : list (ObjectId * MiddlemanApplication)).

Lemma newest_spec l :
  match newest createdAt l with
  | None => l = []
  | Some kv =>
    In kv l ∧ ∀ kv', In kv' l → createdAt kv'.1 ≤ createdAt kv.1
  end.
Proof.
  induction l as [| kv0 l IH]; [done |]. cbn [newest foldr].
  change (foldr _ None l) with (newest createdAt l).
  destruct (newest createdAt l) as [b |].
  - destruct IH as [Hin Hmax].
    destruct (Z.ltb_spec (createdAt b.1) (createdAt kv0.1)) as [Hlt | Hge].
    + split; [by left |]. intros kv' [<- | Hin']; [lia |].
      specialize (Hmax kv' Hin'). lia.
    + split; [by right |]. intros kv' [<- | Hin']; [lia | by apply Hmax].
  - subst l. split; [by left |]. intros kv' [<- | []]. lia.
Qed.

Lemma In_applications_of userId w kv :
  In kv (List.filter (λ kv, bool_decide (user_id kv.2 = userId))
           (map_to_list (applications w)))
  ↔ applications w !! kv.1 = Some kv.2 ∧ user_id kv.2 = userId.
Proof.
  rewrite filter_In, <- list_elem_of_In, bool_decide_eq_true.
  destruct kv as [id a]. by rewrite elem_of_map_to_list.
Qed.

Ltac status_eval :=
  unfold getUserApplicationStatus, try_catch_as, getUserApplicationStatus_body,
    findOne_newest_of; act_eval.

(** X20. [getUserApplicationStatus] writes nothing.  It answers 404
    exactly when the caller has no application at all; a caller who has
    one is answered with a report; and a report is of one of the caller's
    own applications, with its status, review date and rejection reason,
    none of the caller's applications being newer. *)
Theorem application_status_report userId w :
  (getUserApplicationStatus createdAt userId w).2 = w ∧
  ((getUserApplicationStatus createdAt userId w).1 = no_application_found ↔
   ∀ id a, applications w !! id = Some a → user_id a ≠ userId) ∧
  ((∃ id a, applications w !! id = Some a ∧ user_id a = userId) ↔
   ∃ report, (getUserApplicationStatus createdAt userId w).1 = StatusOk report) ∧
  ∀ report,
    (getUserApplicationStatus createdAt userId w).1 = StatusOk report →
    ∃ a,
      applications w !! report_applicationId report = Some a ∧
      user_id a = userId ∧
      report = report_of createdAt (report_applicationId report) a ∧
      ∀ id' a',
        applications w !! id' = Some a' → user_id a' = userId →
        createdAt id' ≤ createdAt (report_applicationId report).
Proof.
  status_eval.
  pose proof (newest_spec
    (List.filter (λ kv, bool_decide (user_id kv.2 = userId))
       (map_to_list (applications w)))) as Hspec.
  destruct (newest createdAt _) as [[id a] |].
  - destruct Hspec as [Hin Hmax]. apply In_applications_of in Hin as [Hl Hu].
    cbn in Hl, Hu. split_and!; [done | | |].
    + split; [done |]. intros Hnone. by destruct (Hnone id a Hl).
    + split; [by eexists | by exists id, a].
    + intros report [= <-]. exists a. cbn. split_and!; [done.. |].
      intros id' a' Hl' Hu'. apply (Hmax (id', a')).
      by apply In_applications_of.
  - assert (Hnone : ∀ id a, applications w !! id = Some a → user_id a ≠ userId).
    { intros id a Hl Hu.
      assert (Hin : In (id, a) (List.filter
                (λ kv, bool_decide (user_id kv.2 = userId))
                (map_to_list (applications w))))
        by by apply In_applications_of.
      by rewrite Hspec in Hin. }
    split_and!; [done | done | | done].
    split; [| by intros [report Hreport]].
    intros (id & a & Hl & Hu). by destruct (Hnone id a Hl).
Qed.

(** The caller's strictly newest application is the one reported. *)
Lemma status_of_newest userId w id a :
  applications w !! id = Some a →
  user_id a = userId →
  (∀ id' a',
     applications w !! id' = Some a' → user_id a' = userId → id' ≠ id →
     createdAt id' < createdAt id) →
  (getUserApplicationStatus createdAt userId w).1
    = StatusOk (report_of createdAt id a).
Proof.
  intros Hl Hu Hnewest. status_eval.
  pose proof (newest_spec
    (List.filter (λ kv, bool_decide (user_id kv.2 = userId))
       (map_to_list (applications w)))) as Hspec.
  assert (Hin : In (id, a) (List.filter
            (λ kv, bool_decide (user_id kv.2 = userId))
            (map_to_list (applications w))))
    by by apply In_applications_of.
  destruct (newest createdAt _) as [[id0 a0] |];
    [| by rewrite Hspec in Hin].
  destruct Hspec as [Hin0 Hmax]. apply In_applications_of in Hin0 as [Hl0 Hu0].
  cbn in Hl0, Hu0. specialize (Hmax _ Hin). cbn in Hmax.
  destruct (decide (id0 = id)) as [-> | Hne].
  - by simplify_eq.
  - specialize (Hnewest id0 a0 Hl0 Hu0 Hne). lia.
Qed.

Lemma status_found userId w id a :
  applications w !! id = Some a →
  user_id a = userId →
  (getUserApplicationStatus createdAt userId w).1 ≠ no_application_found.
Proof.
  intros Hl Hu. status_eval.
  pose proof (newest_spec
    (List.filter (λ kv, bool_decide (user_id kv.2 = userId))
       (map_to_list (applications w)))) as Hspec.
  assert (Hin : In (id, a) (List.filter
            (λ kv, bool_decide (user_id kv.2 = userId))
            (map_to_list (applications w))))
    by by apply In_applications_of.
  destruct (newest createdAt _) as [[id0 a0] |]; [done |].
  by rewrite Hspec in Hin.
Qed.

(** X21. The applicant sees the decision: after a successful review of an
    application that is the applicant's newest, [getUserApplicationStatus]
    for the applicant reports that application with the decided status,
    the time of the review, and on reject the reason given. *)
Theorem decision_is_reported (req : ReviewRequest) w app :
  status_code (reviewApplication req w).1 = 200 →
  applications w !! params_applicationId req = Some app →
  (∀ id' a',
     applications w !! id' = Some a' → user_id a' = user_id app →
     id' ≠ params_applicationId req →
     createdAt id' < createdAt (params_applicationId req)) →
  (getUserApplicationStatus createdAt (user_id app)
     (reviewApplication req w).2).1
    = StatusOk
        {| report_status := decision req;
           report_applicationId := params_applicationId req;
           submittedAt := createdAt (params_applicationId req);
           reviewedAt := Some (clock w (ticks w));
           rejectionReason :=
             if js_eq (body_action req) "reject" then body_reason req
             else rejection_reason app |}.
Proof.
  intros Hok Hl Hnewest.
  destruct (review_success_inv req w _ _ (surjective_pairing _) Hok)
    as (app0 & u & Hv & Hl0 & Hs & Hu).
  simplify_eq.
  assert (Happs : applications (reviewApplication req w).2 =
            <[params_applicationId req := reviewed req (clock w (ticks w)) app]>
              (applications w)).
  { destruct Hv as [Ha | (Ha & text & Hr & Hne)].
    - by rewrite (review_approve _ _ _ _ Ha Hl Hs Hu).
    - by rewrite (review_reject _ _ _ _ _ Ha Hr Hne Hl Hs Hu). }
  rewrite (status_of_newest (user_id app) _ (params_applicationId req)
             (reviewed req (clock w (ticks w)) app)); [done | | done |].
  - rewrite Happs. apply lookup_insert_eq.
  - intros id' a' Hl' Hu' Hne. rewrite Happs, lookup_insert_ne in Hl' by done.
    by apply (Hnewest id' a').
Qed.

(** X22. The applicant sees the submission: after a submission answered
    201 [getUserApplicationStatus] for the caller does not answer 404, and
    when the new application is the caller's newest it reports that
    application, pending, under the id the response carries, with no review
    date and no rejection reason. *)
Theorem submission_is_reported (sreq : SubmitRequest) w :
  status_code (submitApplication sreq w).1 = 201 →
  (getUserApplicationStatus createdAt (applicant_userId sreq)
     (submitApplication sreq w).2).1 ≠ no_application_found ∧
  ((∀ id' a',
      applications w !! id' = Some a' → user_id a' = applicant_userId sreq →
      createdAt id' < createdAt (next_application_id w)) →
   (getUserApplicationStatus createdAt (applicant_userId sreq)
      (submitApplication sreq w).2).1
     = StatusOk
         {| report_status := "pending";
            report_applicationId := next_application_id w;
            submittedAt := createdAt (next_application_id w);
            reviewedAt := None;
            rejectionReason := None |}).
Proof.
  intros Hok.
  destruct (submit_success_inv _ _ Hok)
    as (Hp & Hreq & Hopt & Hfree & Hr & Ha & Hu & _).
  set (app := submitted_application sreq (upload_phase sreq w).1) in *.
  assert (Hl : applications (submitApplication sreq w).2
               !! next_application_id w = Some app)
    by (by rewrite Ha, lookup_insert_eq).
  split.
  - by apply (status_found _ _ _ _ Hl).
  - intros Hnewest.
    rewrite (status_of_newest (applicant_userId sreq) _
               (next_application_id w) app); [done.. |].
    intros id' a' Hl' Hu' Hne. rewrite Ha, lookup_insert_ne in Hl' by done.
    by apply (Hnewest id' a').
Qed.

End Status.

Lemma decision_is_reported_witness :
  (getUserApplicationStatus Downloads.createdAt
     (user_id Scenario.application_of_alice)
     (reviewApplication Scenario.reject_request Scenario.world).2).1
    = StatusOk
        {| report_status := decision Scenario.reject_request;
           report_applicationId := params_applicationId Scenario.reject_request;
           submittedAt :=
             Downloads.createdAt (params_applicationId Scenario.reject_request);
           reviewedAt :=
             Some (clock Scenario.world (ticks Scenario.world));
           rejectionReason :=
             if js_eq (body_action Scenario.reject_request) "reject"
             then body_reason Scenario.reject_request
             else rejection_reason Scenario.application_of_alice |}.
Proof.
  apply (decision_is_reported Downloads.createdAt Scenario.reject_request
           Scenario.world Scenario.application_of_alice).
  - reflexivity.
  - reflexivity.
  - intros id' a' Hl _ Hne.
    change (({["app-1" := Scenario.application_of_alice]}
             : gmap ObjectId MiddlemanApplication) !! id' = Some a') in Hl.
    apply lookup_singleton_Some in Hl as [<- _]. by destruct Hne.
Defined.

Lemma submission_is_reported_witness :
  (getUserApplicationStatus Downloads.createdAt
     (applicant_userId Uploads.submission)
     (submitApplication Uploads.submission Scenario.world).2).1
    ≠ no_application_found ∧
  ((∀ id' a',
      applications Scenario.world !! id' = Some a' →
      user_id a' = applicant_userId Uploads.submission →
      Downloads.createdAt id'
        < Downloads.createdAt (next_application_id Scenario.world)) →
   (getUserApplicationStatus Downloads.createdAt
      (applicant_userId Uploads.submission)
      (submitApplication Uploads.submission Scenario.world).2).1
     = StatusOk
         {| report_status := "pending";
            report_applicationId := next_application_id Scenario.world;
            submittedAt :=
              Downloads.createdAt (next_application_id Scenario.world);
            reviewedAt := None;
            rejectionReason := None |}).
Proof.
  apply (submission_is_reported Downloads.createdAt Uploads.submission
           Scenario.world).
  reflexivity.
Defined.

(** ** The router *)

Section Router.

Context {Request : Type}.
Variable calls_next : Middleware → Request → bool.
Variable matches : Method → string → Request → bool.

(** X23. Whatever the method and path matching, a request reaches an
    endpoint only past [authenticateToken]; it reaches [getApplications],
    [getApplicationById], [reviewApplication], [getActiveMiddlemen] or
    [getDocumentById] only if [requireAdmin] has let it through, the last
    two being registered after [router.use(requireAdmin)] like the others;
    and it reaches [submitApplication] only past the upload wrapper. *)
Theorem endpoints_behind_middleware req e :
  dispatch calls_next matches verification_router req = Reached e →
  calls_next authenticateToken req = true ∧
  (In e [ToGetApplications; ToGetApplicationById; ToReviewApplication;
         ToGetActiveMiddlemen; ToGetDocumentById] →
   calls_next requireAdmin req = true) ∧
  (e = ToSubmitApplication → calls_next uploadDocuments req = true).
Proof.
  cbn [dispatch verification_router run_before].
  destruct (calls_next authenticateToken req); [| done].
  destruct (matches POST "/apply" req).
  { destruct (calls_next uploadDocuments req); [| done].
    intros [= <-]. split_and!; [done | | done].
    intros Hin. repeat destruct Hin as [Hin | Hin]; done. }
  destruct (matches GET "/my-application" req).
  { intros [= <-]. split_and!; [done | | done].
    intros Hin. repeat destruct Hin as [Hin | Hin]; done. }
  destruct (calls_next requireAdmin req); [| done].
  intros Hreach. split_and!; [done | done |].
  intros ->. repeat (case_match; simplify_eq).
Qed.

(** X24. A request [requireAdmin] does not let through, and that is not
    for [/apply] or [/my-application], never falls through the router: it
    is ended by [requireAdmin], whatever its path, a path no route matches
    included. *)
Theorem non_admin_requests_end_at_requireAdmin req :
  calls_next authenticateToken req = true →
  calls_next requireAdmin req = false →
  matches POST "/apply" req = false →
  matches GET "/my-application" req = false →
  dispatch calls_next matches verification_router req = StoppedBy requireAdmin.
Proof.
  intros Hauth Hadmin Happly Hmine.
  cbn [dispatch verification_router run_before].
  by rewrite Hauth, Happly, Hmine, Hadmin.
Qed.

End Router.

Lemma endpoints_behind_middleware_witness :
  Traffic.calls_next authenticateToken (GET, "/middlemen", true) = true ∧
  (In ToGetActiveMiddlemen
     [ToGetApplications; ToGetApplicationById; ToReviewApplication;
      ToGetActiveMiddlemen; ToGetDocumentById] →
   Traffic.calls_next requireAdmin (GET, "/middlemen", true) = true) ∧
  (ToGetActiveMiddlemen = ToSubmitApplication →
   Traffic.calls_next uploadDocuments (GET, "/middlemen", true) = true).
Proof.
  apply (endpoints_behind_middleware Traffic.calls_next Traffic.matches
           (GET, "/middlemen", true) ToGetActiveMiddlemen).
  reflexivity.
Defined.

Lemma non_admin_requests_end_at_requireAdmin_witness :
  dispatch Traffic.calls_next Traffic.matches verification_router
    (GET, "/middlemen", false) = StoppedBy requireAdmin.
Proof.
  apply (non_admin_requests_end_at_requireAdmin Traffic.calls_next
           Traffic.matches (GET, "/middlemen", false)); reflexivity.
Defined.

(** ** The upload configuration: [fileFilter] and [filename] *)

Section Upload.

Implicit Types (s t name stem ext : string) (c : ascii).

Lemma dot_free_cons c s : c ≠ "."%char → dot_free s → dot_free (String c s).
Proof. intros Hc Hs [Heq | Hin]; [by subst | by apply Hs]. Qed.

Lemma dot_free_tail c s : dot_free (String c s) → c ≠ "."%char ∧ dot_free s.
Proof.
  intros H. split; [intros -> | intros Hin]; apply H; [by left | by right].
Qed.

Lemma split_on_dot_free s : dot_free s → split_on "." s = [s].
Proof.
  induction s as [| c s IH]; [done |]. intros [Hc Hs]%dot_free_tail.
  cbn [split_on]. destruct (Ascii.eqb_spec c "."); [done |]. by rewrite IH.
Qed.

(** The pieces of a name: the last one has no dot and the name is that
    piece, or a stem, a dot and that piece. *)
Lemma split_on_last s :
  ∃ init ext,
    split_on "." s = (init ++ [ext])%list ∧ dot_free ext ∧
    ((init = [] ∧ s = ext) ∨ (init ≠ [] ∧ ∃ stem, s = stem ++ "." ++ ext)).
Proof.
  induction s as [| c s (init & ext & Hsplit & Hfree & Hshape)].
  { exists [], "". split_and!; [done | by intros [] | by left]. }
  cbn [split_on]. rewrite Hsplit. destruct (Ascii.eqb_spec c ".") as [-> | Hc].
  - exists ("" :: init), ext. split_and!; [done.. |]. right. split; [done |].
    destruct Hshape as [(-> & ->) | (_ & stem & ->)].
    + by exists "".
    + by exists (String "." stem).
  - destruct Hshape as [(-> & ->) | (Hinit & stem & ->)].
    + exists [], (String c ext). split_and!; [done | | by left].
      by apply dot_free_cons.
    + destruct init as [| piece pieces]; [done |].
      exists (String c piece :: pieces), ext. split_and!; [done.. |].
      right. split; [done |]. by exists (String c stem).
Qed.

Lemma file_extension_after_last_dot stem ext :
  dot_free ext → file_extension (stem ++ "." ++ ext) = ext.
Proof.
  intros Hfree. unfold file_extension.
  assert (H : ∃ init, split_on "." (stem ++ "." ++ ext) = (init ++ [ext])%list
                      ∧ init ≠ []).
  { induction stem as [| c stem (init & IH & Hinit)].
    - exists [""]. split; [| done].
      change ("" ++ "." ++ ext) with (String "." ext). cbn [split_on].
      change (Ascii.eqb "." ".") with true. cbn iota.
      by rewrite split_on_dot_free.
    - change (String c stem ++ "." ++ ext) with (String c (stem ++ "." ++ ext)).
      cbn [split_on]. rewrite IH. destruct (Ascii.eqb c ".").
      + by exists ("" :: init).
      + destruct init as [| piece pieces]; [done |].
        by exists (String c piece :: pieces). }
  destruct H as (init & -> & _). apply last_last.
Qed.

Lemma to_lower_dot c : to_lower c = "."%char ↔ c = "."%char.
Proof.
  destruct c as [[] [] [] [] [] [] [] []]; vm_compute; split; congruence.
Qed.

Lemma lower_append s t : lower (s ++ t) = lower s ++ lower t.
Proof.
  induction s as [| c s IH]; [done |].
  change (String (to_lower c) (lower (s ++ t))
          = String (to_lower c) (lower s ++ lower t)).
  by rewrite IH.
Qed.

Lemma split_on_lower s :
  split_on "." (lower s) = lower <$> split_on "." s.
Proof.
  induction s as [| c s IH]; [done |]. cbn [lower split_on]. rewrite IH.
  destruct (Ascii.eqb_spec c ".") as [-> | Hc].
  - done.
  - destruct (Ascii.eqb_spec (to_lower c) ".") as [Hl | _].
    + destruct Hc. by apply to_lower_dot.
    + by destruct (split_on "." s).
Qed.

Lemma file_extension_lower s : file_extension (lower s) = lower (file_extension s).
Proof.
  unfold file_extension. rewrite split_on_lower.
  destruct (split_on_last s) as (init & ext & -> & _).
  rewrite fmap_app. cbn. by rewrite !last_last.
Qed.

Lemma ends_with_spec s t : ends_with s t = true ↔ ∃ stem, s = stem ++ t.
Proof.
  induction s as [| c s IH]; cbn [ends_with].
  - rewrite orb_false_r, String.eqb_eq. split.
    + intros <-. by exists "".
    + intros (stem & Heq). destruct stem; [done | discriminate].
  - rewrite orb_true_iff, String.eqb_eq, IH. split.
    + intros [<- | (stem & ->)]; [by exists "" | by exists (String c stem)].
    + intros (stem & Heq). destruct stem as [| c' stem]; [by left |].
      right. exists stem. by injection Heq.
Qed.

Lemma allowed_extension_shape e :
  In e allowed_extensions → dot_free e ∧ lower e = e.
Proof.
  intros Hin. repeat destruct Hin as [<- | Hin]; try done;
    (split; [| reflexivity]); cbn; intros H;
    repeat destruct H as [H | H]; try discriminate H; done.
Qed.

Lemma has_dot_not_free stem ext : ¬ dot_free (stem ++ "." ++ ext).
Proof.
  intros H. apply H. induction stem as [| c stem IH]; [by left |].
  right. apply IH. intros Hin. apply H. by right.
Qed.

Lemma dot_free_lower s : dot_free (lower s) → dot_free s.
Proof.
  induction s as [| c s IH]; [done |]. intros H.
  change (dot_free (String (to_lower c) (lower s))) in H.
  apply dot_free_tail in H as [Hc Hs]. apply dot_free_cons; [| by apply IH].
  intros ->. by apply Hc.
Qed.

Lemma fileFilter_accepts_core name :
  fileFilter name = true ↔
  ∃ stem ext, name = stem ++ "." ++ ext ∧ In (lower ext) allowed_extensions.
Proof.
  unfold fileFilter. rewrite existsb_exists. split.
  - intros (e & He & [pre Hends]%ends_with_spec).
    destruct (allowed_extension_shape e He) as [Hfree _].
    assert (Hext : lower (file_extension name) = e).
    { rewrite <- file_extension_lower, Hends.
      by apply file_extension_after_last_dot. }
    destruct (split_on_last name) as (init & ext & Hsplit & Hdot & Hshape).
    assert (Hfe : file_extension name = ext)
      by (unfold file_extension; rewrite Hsplit; apply last_last).
    rewrite Hfe in Hext.
    destruct Hshape as [(-> & ->) | (_ & stem & ->)].
    + rewrite Hext in Hends. destruct (has_dot_not_free pre e).
      by rewrite <- Hends.
    + exists stem, ext. by rewrite Hext.
  - intros (stem & ext & -> & Hin). exists (lower ext). split; [done |].
    apply ends_with_spec. exists (lower stem). by rewrite !lower_append.
Qed.

(** X25. The upload filter accepts a file exactly when its original name
    is a stem, a dot and, letter case aside, one of jpg, jpeg, png, gif,
    pdf: the pattern is anchored at the end of the name only, so a name
    without a dot is refused and the stem may itself hold dots. *)
Theorem fileFilter_accepts_iff name :
  fileFilter name = true ↔
  ∃ stem ext, name = stem ++ "." ++ ext ∧ In (lower ext) allowed_extensions.
Proof. apply fileFilter_accepts_core. Qed.

(** X26. For a file the filter accepts, the stored name is the generated
    uuid, a dot, and the text after the last dot of the original name,
    which is, letter case aside, one of the five extensions and holds no
    dot itself. *)
Theorem accepted_upload_keeps_extension name :
  fileFilter name = true →
  ∃ stem ext,
    name = stem ++ "." ++ ext ∧
    dot_free ext ∧
    In (lower ext) allowed_extensions ∧
    ∀ uuid, storage_filename uuid name = uuid ++ "." ++ ext.
Proof.
  intros (stem & ext & -> & Hin)%fileFilter_accepts_core.
  destruct (allowed_extension_shape _ Hin) as [Hfree _].
  assert (Hdot : dot_free ext) by by apply dot_free_lower.
  exists stem, ext. split_and!; [done.. |]. intros uuid.
  unfold storage_filename. by rewrite file_extension_after_last_dot.
Qed.

End Upload.

Lemma accepted_upload_keeps_extension_witness :
  ∃ stem ext,
    "passport.JPG" = stem ++ "." ++ ext ∧
    dot_free ext ∧
    In (lower ext) allowed_extensions ∧
    ∀ uuid, storage_filename uuid "passport.JPG" = uuid ++ "." ++ ext.
Proof.
  apply (accepted_upload_keeps_extension "passport.JPG"). reflexivity.
Defined.

Example fileFilter_samples :
  fileFilter "scan.v2.PDF" = true ∧ fileFilter ".png" = true ∧
  fileFilter "pdf" = false ∧ fileFilter "report.pdf.exe" = false ∧
  fileFilter "photo.jpeg " = false ∧
  storage_filename "3f2a" "scan.v2.PDF" = "3f2a.PDF" ∧
  storage_filename "3f2a" "README" = "3f2a.README".
Proof. by split_and!. Qed.

Example split_commas_is_split_on :
  split_commas "a,,b" = split_on "," "a,,b".
Proof. reflexivity. Qed.
